(** * The smart conversion engine of web-oxy (Currency/backend)

    A shallow embedding of [smart_convert_engine.py] (class
    [SmartConvertEngine]) and of the in-memory cache of
    [main_production.py] (class [FastCacheManager]), with the statements
    the design document makes about them.

    Conventions of the embedding.
    - Python [float] is the kernel's binary64 [float]; literals are rounded
      to nearest as Python rounds them.  Truth of a float ([if x:]) is
      [x != 0].
    - Python [int] counters are [Z]; an int that meets a float in an
      arithmetic operation or a comparison is converted first (exact up
      to 2^53).
    - Strings are byte strings, and [upper] acts on ASCII letters: asset
      symbols are ASCII codes.
    - An [async def] is a computation in the monad [M]: it reads the
      environment ([World]), threads the number of environment
      interactions made so far and the mutable state, and ends in a value
      or in a raised exception.  Calls are sequential: the engine awaits
      each call before the next one.
    - [time.time()] and the two upstream HTTP services are oracles of the
      [World], indexed by the interaction count: nothing is assumed about
      what they answer. *)

From Stdlib Require Import ZArith List Ascii String Floats.
From stdpp Require Import base option list gmap strings.

Set Warnings "-inexact-float".
Local Open Scope Z_scope.

(** ** Floats *)

Module Py.

(** [float(n)] for a Python [int]: round to nearest, ties to even. *)
Definition float_of_Z (n : Z) : float :=
  SF2Prim (binary_normalize prec emax n 0 false).

(** [bool(x)] for a float: every value except the two zeros. *)
Definition truthy (x : float) : bool := negb (PrimFloat.eqb x 0%float).

(** [x != y] on floats. *)
Definition neqb (x y : float) : bool := negb (PrimFloat.eqb x y).

(** [x / y] on floats: Python raises [ZeroDivisionError] on a zero
    divisor instead of producing an infinity or a NaN. *)
Definition div (x y : float) : option float :=
  if PrimFloat.eqb y 0%float then None else Some (x / y)%float.

(** [x / n] for a float [x] and an int [n]: the int is converted first.
    A non-zero int converts to a float of magnitude at least 1, so the
    divisor is zero exactly when the int is. *)
Definition div_int (x : float) (n : Z) : option float :=
  if (n =? 0)%Z then None else Some (x / float_of_Z n)%float.

(** ** Strings *)

(** [str.upper()] on the ASCII range, where asset symbols live. *)
Definition upper_ascii (c : ascii) : ascii :=
  let n := nat_of_ascii c in
  if (97 <=? n)%nat && (n <=? 122)%nat then ascii_of_nat (n - 32) else c.

Fixpoint upper (s : string) : string :=
  match s with
  | EmptyString => EmptyString
  | String c s' => String (upper_ascii c) (upper s')
  end.

(** [s.split(sep)] for a one-character separator. *)
Fixpoint split (sep : ascii) (s : string) : list string :=
  match s with
  | EmptyString => [EmptyString]
  | String c s' =>
      if Ascii.eqb c sep then EmptyString :: split sep s'
      else match split sep s' with
           | p :: ps => String c p :: ps
           | [] => [String c EmptyString]
           end
  end.

End Py.

(** ** Exceptions, results and the computation monad *)

Inductive exn : Type :=
| KeyError (key : string)
| ValueError (msg : string)
| ZeroDivisionError
| BackendError (msg : string).

Inductive result (A : Type) : Type :=
| Ok (a : A)
| Raise (e : exn).
Arguments Ok {A} a.
Arguments Raise {A} e.

(** The environment of a run.  [clock n] is what the [n]-th interaction
    reads when it is a [time.time()]; [exchangerates_reply n base quote] is
    the conversion rate the exchange-rate service delivers when the [n]-th
    interaction is the request for that pair, [None] standing for every way
    the request can fail (transport error, status other than 200, a result
    other than success, a malformed payload); [coinmarketcap_reply n symbol
    convert] is likewise the price of [symbol] quoted in [convert]. *)
Record World : Type := {
  clock : nat → float;
  exchangerates_reply : nat → string → string → option float;
  coinmarketcap_reply : nat → string → string → option float
}.

Definition M (St A : Type) : Type := World → nat → St → result A * nat * St.

Definition ret {St A} (a : A) : M St A := λ _ n s, (Ok a, n, s).

Definition bind {St A B} (m : M St A) (k : A → M St B) : M St B :=
  λ w n s, match m w n s with
           | (Ok a, n', s') => k a w n' s'
           | (Raise e, n', s') => (Raise e, n', s')
           end.

Definition raise {St A} (e : exn) : M St A := λ _ n s, (Raise e, n, s).

(** [try: m except Exception: h] — the handler runs in the state the body
    left behind. *)
Definition try_except {St A} (m : M St A) (h : exn → M St A) : M St A :=
  λ w n s, match m w n s with
           | (Ok a, n', s') => (Ok a, n', s')
           | (Raise e, n', s') => h e w n' s'
           end.

Definition get_state {St} : M St St := λ _ n s, (Ok s, n, s).
Definition modify {St} (f : St → St) : M St unit := λ _ n s, (Ok tt, n, f s).

(** [time.time()] *)
Definition time_time {St} : M St float :=
  λ w n s, (Ok (clock w n), S n, s).

(** Run a computation on a component of the state. *)
Definition zoom {St T A} (proj : St → T) (inj : T → St → St) (m : M T A)
  : M St A :=
  λ w n s, match m w n (proj s) with
           | (r, n', t') => (r, n', inj t' s)
           end.

Declare Scope monad_scope.
Delimit Scope monad_scope with monad.
Notation "'let*' x ':=' m 'in' k" := (bind m (λ x, k))
  (at level 10, x name, m at level 100, k at level 200,
   format "'[v' 'let*'  x  ':='  m  'in' '/' k ']'") : monad_scope.
Local Open Scope monad_scope.

(** ** The cache *)

(** The dictionaries that are stored in the cache: [{"rate": r}] by the
    conversion strategies and [{'test': True}] by the health check.  Both
    are non-empty, hence true in a condition. *)
Inductive cache_value : Type :=
| RateDict (rate : float)
| TestDict.

(** [d["rate"]] *)
Definition getitem_rate {St} (d : cache_value) : M St float :=
  match d with
  | RateDict r => ret r
  | TestDict => raise (KeyError "rate")
  end.

(** What the engine asks of the [cache_manager] handed to its constructor:
    [await get(key)] and [await set(key, value, ttl=...)]. *)
Class CacheManager (C : Type) : Type := {
  cm_get : string → M C (option cache_value);
  cm_set : string → cache_value → Z → M C unit
}.

(** *** [FastCacheManager] ([main_production.py]) *)

Record FastCache : Type := {
  fc_cache : gmap string cache_value;
  fc_timestamps : gmap string float
}.

Module FastCacheManager.
Section WithTTL.
(** The module constant [CACHE_TTL = int(os.getenv("CACHE_TTL_SECONDS",
    "300"))]. *)
Variable CACHE_TTL : Z.

Definition init : FastCache := {| fc_cache := ∅; fc_timestamps := ∅ |}.

Definition get (key : string) : M FastCache (option cache_value) :=
  let* c := get_state in
  match fc_cache c !! key with
  | Some v =>
      let* now := time_time in
      match fc_timestamps c !! key with
      | None => raise (KeyError key)
      | Some ts =>
          if PrimFloat.ltb (now - ts)%float (Py.float_of_Z CACHE_TTL)
          then ret (Some v)
          else
            (* Auto-cleanup expired entries *)
            let* _ := modify (λ c,
              {| fc_cache := delete key (fc_cache c);
                 fc_timestamps := delete key (fc_timestamps c) |}) in
            ret None
      end
  | None => ret None
  end.

(** [current_time - ts >= CACHE_TTL] *)
Definition expired (current_time : float) (ts : float) : bool :=
  PrimFloat.leb (Py.float_of_Z CACHE_TTL) (current_time - ts)%float.

Definition _cleanup_expired : M FastCache unit :=
  let* current_time := time_time in
  modify (λ c,
    let expired_keys :=
      filter (λ kts, expired current_time kts.2 = true) (fc_timestamps c) in
    {| fc_cache := filter (λ kv, expired_keys !! kv.1 = None) (fc_cache c);
       fc_timestamps :=
         filter (λ kv, expired_keys !! kv.1 = None) (fc_timestamps c) |}).

(** The [ttl] argument is accepted and never read. *)
Definition set (key : string) (value : cache_value) (ttl : Z)
  : M FastCache unit :=
  let* _ := modify (λ c, {| fc_cache := <[key := value]> (fc_cache c);
                            fc_timestamps := fc_timestamps c |}) in
  let* now := time_time in
  let* _ := modify (λ c, {| fc_cache := fc_cache c;
                            fc_timestamps := <[key := now]> (fc_timestamps c) |}) in
  (* Periodic cleanup to prevent memory bloat *)
  let* c := get_state in
  if (Z.of_nat (size (fc_cache c)) mod 100 =? 0)
  then _cleanup_expired
  else ret tt.

End WithTTL.
End FastCacheManager.

Definition FastCacheManager_instance (CACHE_TTL : Z) : CacheManager FastCache :=
  {| cm_get := FastCacheManager.get CACHE_TTL;
     cm_set := FastCacheManager.set CACHE_TTL |}.

(** *** [MockCacheManager] (the test suites) *)

Module MockCacheManager.
Definition get (key : string)
  : M (gmap string cache_value) (option cache_value) :=
  let* c := get_state in ret (c !! key).
Definition set (key : string) (value : cache_value) (ttl : Z)
  : M (gmap string cache_value) unit :=
  modify (λ c, <[key := value]> c).
End MockCacheManager.

Definition MockCacheManager_instance : CacheManager (gmap string cache_value) :=
  {| cm_get := MockCacheManager.get; cm_set := MockCacheManager.set |}.

(** ** The data model of [smart_convert_engine.py] *)

Inductive ConversionMethod : Type :=
| DIRECT | FX_DIRECT | USD_BRIDGE | USDT_BRIDGE | EUR_BRIDGE | BTC_BRIDGE
| FALLBACK | CACHED.

(** [m.value] *)
Definition method_value (m : ConversionMethod) : string :=
  match m with
  | DIRECT => "direct"
  | FX_DIRECT => "fx_direct"
  | USD_BRIDGE => "via_USD"
  | USDT_BRIDGE => "via_USDT"
  | EUR_BRIDGE => "via_EUR"
  | BTC_BRIDGE => "via_BTC"
  | FALLBACK => "fallback"
  | CACHED => "cached"
  end.

Definition all_methods : list ConversionMethod :=
  [DIRECT; FX_DIRECT; USD_BRIDGE; USDT_BRIDGE; EUR_BRIDGE; BTC_BRIDGE;
   FALLBACK; CACHED].

(** [ConversionMethod(v)]: the member whose value is [v], [ValueError]
    when there is none. *)
Definition ConversionMethod_of_value {St} (v : string) : M St ConversionMethod :=
  match List.find (λ m, String.eqb (method_value m) v) all_methods with
  | Some m => ret m
  | None => raise (ValueError (v +:+ " is not a valid ConversionMethod"))
  end.

#[global] Instance ConversionMethod_eq_dec : EqDecision ConversionMethod.
Proof. solve_decision. Defined.

Record ConversionResult : Type := {
  pair : string;
  method : ConversionMethod;
  rate : option float;
  amount : option float;
  confidence : float;
  latency_ms : float;
  bridge_rates : option (list (string * float));
  error : option string;
  cached : bool
}.

Record ApiCallBreakdown : Type := {
  exchangerates_api : Z;
  coinmarketcap_api : Z
}.

Record ConversionTypes : Type := {
  crypto_to_fiat : Z;
  fiat_to_crypto : Z;
  crypto_to_crypto : Z;
  fiat_to_fiat : Z
}.

Record ErrorTypes : Type := {
  api_errors : Z;
  rate_limit_errors : Z;
  network_errors : Z;
  validation_errors : Z
}.

(** [self.stats] *)
Record Stats : Type := {
  total_conversions : Z;
  successful_conversions : Z;
  cache_hits : Z;
  api_calls : Z;
  fallback_uses : Z;
  avg_latency : float;
  api_call_breakdown : ApiCallBreakdown;
  conversion_types : ConversionTypes;
  error_types : ErrorTypes
}.

Definition initial_stats : Stats :=
  {| total_conversions := 0; successful_conversions := 0; cache_hits := 0;
     api_calls := 0; fallback_uses := 0; avg_latency := 0%float;
     api_call_breakdown := {| exchangerates_api := 0; coinmarketcap_api := 0 |};
     conversion_types := {| crypto_to_fiat := 0; fiat_to_crypto := 0;
                            crypto_to_crypto := 0; fiat_to_fiat := 0 |};
     error_types := {| api_errors := 0; rate_limit_errors := 0;
                       network_errors := 0; validation_errors := 0 |} |}.

(** Assignments to one entry of [self.stats]. *)
Definition upd_total_conversions (f : Z → Z) (s : Stats) : Stats :=
  {| total_conversions := f (total_conversions s);
     successful_conversions := successful_conversions s;
     cache_hits := cache_hits s; api_calls := api_calls s;
     fallback_uses := fallback_uses s; avg_latency := avg_latency s;
     api_call_breakdown := api_call_breakdown s;
     conversion_types := conversion_types s;
     error_types := error_types s |}.
Definition upd_successful_conversions (f : Z → Z) (s : Stats) : Stats :=
  {| total_conversions := total_conversions s;
     successful_conversions := f (successful_conversions s);
     cache_hits := cache_hits s; api_calls := api_calls s;
     fallback_uses := fallback_uses s; avg_latency := avg_latency s;
     api_call_breakdown := api_call_breakdown s;
     conversion_types := conversion_types s;
     error_types := error_types s |}.
Definition upd_cache_hits (f : Z → Z) (s : Stats) : Stats :=
  {| total_conversions := total_conversions s;
     successful_conversions := successful_conversions s;
     cache_hits := f (cache_hits s); api_calls := api_calls s;
     fallback_uses := fallback_uses s; avg_latency := avg_latency s;
     api_call_breakdown := api_call_breakdown s;
     conversion_types := conversion_types s;
     error_types := error_types s |}.
Definition upd_api_calls (f : Z → Z) (s : Stats) : Stats :=
  {| total_conversions := total_conversions s;
     successful_conversions := successful_conversions s;
     cache_hits := cache_hits s; api_calls := f (api_calls s);
     fallback_uses := fallback_uses s; avg_latency := avg_latency s;
     api_call_breakdown := api_call_breakdown s;
     conversion_types := conversion_types s;
     error_types := error_types s |}.
Definition upd_fallback_uses (f : Z → Z) (s : Stats) : Stats :=
  {| total_conversions := total_conversions s;
     successful_conversions := successful_conversions s;
     cache_hits := cache_hits s; api_calls := api_calls s;
     fallback_uses := f (fallback_uses s); avg_latency := avg_latency s;
     api_call_breakdown := api_call_breakdown s;
     conversion_types := conversion_types s;
     error_types := error_types s |}.
Definition upd_avg_latency (f : float → float) (s : Stats) : Stats :=
  {| total_conversions := total_conversions s;
     successful_conversions := successful_conversions s;
     cache_hits := cache_hits s; api_calls := api_calls s;
     fallback_uses := fallback_uses s; avg_latency := f (avg_latency s);
     api_call_breakdown := api_call_breakdown s;
     conversion_types := conversion_types s;
     error_types := error_types s |}.
Definition upd_api_call_breakdown (f : ApiCallBreakdown → ApiCallBreakdown)
  (s : Stats) : Stats :=
  {| total_conversions := total_conversions s;
     successful_conversions := successful_conversions s;
     cache_hits := cache_hits s; api_calls := api_calls s;
     fallback_uses := fallback_uses s; avg_latency := avg_latency s;
     api_call_breakdown := f (api_call_breakdown s);
     conversion_types := conversion_types s;
     error_types := error_types s |}.
Definition upd_conversion_types (f : ConversionTypes → ConversionTypes)
  (s : Stats) : Stats :=
  {| total_conversions := total_conversions s;
     successful_conversions := successful_conversions s;
     cache_hits := cache_hits s; api_calls := api_calls s;
     fallback_uses := fallback_uses s; avg_latency := avg_latency s;
     api_call_breakdown := api_call_breakdown s;
     conversion_types := f (conversion_types s);
     error_types := error_types s |}.

(** [self.stats[...][...] += 1] *)
Definition incr_exchangerates_api (s : Stats) : Stats :=
  upd_api_call_breakdown
    (λ r, {| exchangerates_api := exchangerates_api r + 1;
             coinmarketcap_api := coinmarketcap_api r |}) s.
Definition incr_coinmarketcap_api (s : Stats) : Stats :=
  upd_api_call_breakdown
    (λ r, {| exchangerates_api := exchangerates_api r;
             coinmarketcap_api := coinmarketcap_api r + 1 |}) s.
Definition incr_crypto_to_fiat (s : Stats) : Stats :=
  upd_conversion_types
    (λ r, {| crypto_to_fiat := crypto_to_fiat r + 1;
             fiat_to_crypto := fiat_to_crypto r;
             crypto_to_crypto := crypto_to_crypto r;
             fiat_to_fiat := fiat_to_fiat r |}) s.
Definition incr_fiat_to_crypto (s : Stats) : Stats :=
  upd_conversion_types
    (λ r, {| crypto_to_fiat := crypto_to_fiat r;
             fiat_to_crypto := fiat_to_crypto r + 1;
             crypto_to_crypto := crypto_to_crypto r;
             fiat_to_fiat := fiat_to_fiat r |}) s.
Definition incr_crypto_to_crypto (s : Stats) : Stats :=
  upd_conversion_types
    (λ r, {| crypto_to_fiat := crypto_to_fiat r;
             fiat_to_crypto := fiat_to_crypto r;
             crypto_to_crypto := crypto_to_crypto r + 1;
             fiat_to_fiat := fiat_to_fiat r |}) s.
Definition incr_fiat_to_fiat (s : Stats) : Stats :=
  upd_conversion_types
    (λ r, {| crypto_to_fiat := crypto_to_fiat r;
             fiat_to_crypto := fiat_to_crypto r;
             crypto_to_crypto := crypto_to_crypto r;
             fiat_to_fiat := fiat_to_fiat r + 1 |}) s.

(** What [__init__] fixes for the lifetime of an engine: the two asset
    sets (read from [crypto100.txt] and [fiat100.txt]) and the two API keys
    (read from the process environment, [None] when unset). *)
Record Engine : Type := {
  crypto_assets : gset string;
  fiat_assets : gset string;
  exchange_api_key : option string;
  cmc_api_key : option string
}.

(** [bool(key)] for an optional string. *)
Definition key_present (k : option string) : bool :=
  match k with
  | Some s => negb (String.eqb s "")
  | None => false
  end.

(** [self.pivots] *)
Definition pivots : list string := ["USD"; "USDT"; "EUR"; "BTC"].

(** The mutable part of an engine: its cache manager and its counters. *)
Record EngineState (C : Type) : Type := {
  cache_manager : C;
  stats : Stats
}.
Arguments cache_manager {C} _.
Arguments stats {C} _.

(** The dictionary an adapter returns.  The engine reads it through the
    test [data and "close" in data and data["close"]]: the adapter gave a
    dictionary and its [close] is a non-zero float. *)
Record RateData : Type := {
  close : float;
  symbol : string;
  source : string
}.

(** The entries of [mock_rates] in [_generate_estimated_rate], in source
    order. *)
Definition mock_rates : list (string * float) :=
  [ ("BTC/USD", 63420.0); ("ETH/USD", 2580.0); ("USDT/USD", 1.0);
    ("BNB/USD", 582.0); ("SOL/USD", 142.5); ("USDC/USD", 1.0);
    ("XRP/USD", 0.5891); ("DOGE/USD", 0.1058); ("ADA/USD", 0.3512);
    ("TRX/USD", 0.1634); ("AVAX/USD", 26.84); ("SHIB/USD", 0.00001425);
    ("TON/USD", 5.42); ("LINK/USD", 11.23); ("DOT/USD", 4.18);
    ("MATIC/USD", 0.3847); ("BCH/USD", 320.5); ("ICP/USD", 7.89);
    ("UNI/USD", 6.78); ("LTC/USD", 66.2); ("NEAR/USD", 4.12);
    ("APT/USD", 8.95); ("STX/USD", 1.89); ("XLM/USD", 0.0934);
    ("ATOM/USD", 4.23); ("HBAR/USD", 0.0512); ("FIL/USD", 3.67);
    ("VET/USD", 0.0198); ("ETC/USD", 18.9); ("ALGO/USD", 0.1234);
    ("ETH/ADA", 5173.37); ("BTC/ETH", 24.58); ("BTC/ADA", 180584.0);
    ("ETH/DOGE", 24386.0); ("SOL/ADA", 405.8); ("LINK/DOT", 2.686);
    ("UNI/MATIC", 17.63);
    ("USD/EUR", 0.9156); ("USD/GBP", 0.7512); ("USD/JPY", 149.85);
    ("USD/CAD", 1.3542); ("USD/AUD", 1.4789); ("USD/CHF", 0.8456);
    ("USD/CNY", 7.0892); ("USD/KRW", 1337.5); ("EUR/USD", 1.0922);
    ("GBP/USD", 1.3312); ("JPY/USD", 0.006673); ("CAD/USD", 0.7384)
  ]%float.

(** [mock_rates.get(key)]; the keys of the literal are pairwise distinct,
    so the first match is the entry. *)
Fixpoint dict_get (key : string) (d : list (string * float)) : option float :=
  match d with
  | [] => None
  | (k, v) :: d' => if String.eqb k key then Some v else dict_get key d'
  end.

(** ** The engine *)

Section SmartConvertEngine.
Context {C : Type} `{CacheManager C}.
Variable self : Engine.

Abbreviation State := (EngineState C).

(** [await self.cache_manager.get(key)] and [... .set(key, value, ttl=ttl)] *)
Definition cache_get (key : string) : M State (option cache_value) :=
  zoom cache_manager
       (λ c s, {| cache_manager := c; stats := stats s |}) (cm_get key).

Definition cache_set (key : string) (value : cache_value) (ttl : Z)
  : M State unit :=
  zoom cache_manager
       (λ c s, {| cache_manager := c; stats := stats s |})
       (cm_set key value ttl).

Definition modify_stats (f : Stats → Stats) : M State unit :=
  modify (λ s, {| cache_manager := cache_manager s; stats := f (stats s) |}).

Definition is_crypto (a : string) : bool := bool_decide (a ∈ crypto_assets self).
Definition is_fiat (a : string) : bool := bool_decide (a ∈ fiat_assets self).
(** [a in (self.crypto_assets | self.fiat_assets)] *)
Definition is_supported (a : string) : bool :=
  bool_decide (a ∈ crypto_assets self ∪ fiat_assets self).

(** The GET request of [_fetch_exchangerates_api]: the next interaction
    with the environment. *)
Definition exchangerates_request (base quote : string)
  : M State (option float) :=
  λ w n s, (Ok (exchangerates_reply w n base quote), S n, s).

(** The GET request of [_fetch_coinmarketcap_api], with its [symbol] and
    [convert] parameters. *)
Definition coinmarketcap_request (sym convert : string)
  : M State (option float) :=
  λ w n s, (Ok (coinmarketcap_reply w n sym convert), S n, s).

(** [_fetch_exchangerates_api].  Everything after the key test runs under
    [try ... except Exception: return None]. *)
Definition _fetch_exchangerates_api (base quote : string)
  : M State (option RateData) :=
  if negb (key_present (exchange_api_key self)) then ret None
  else
    let* reply := exchangerates_request base quote in
    match reply with
    | Some conversion_rate =>
        ret (Some {| close := conversion_rate;
                     symbol := base +:+ "/" +:+ quote;
                     source := "exchangerates_api" |})
    | None => ret None
    end.

(** [_fetch_coinmarketcap_api].  A fiat-to-crypto price is the inverse of
    the quoted one; the division raises [ZeroDivisionError] on a zero
    quote, which the enclosing [except Exception] turns into [None]. *)
Definition _fetch_coinmarketcap_api (base quote : string)
  : M State (option RateData) :=
  if negb (key_present (cmc_api_key self)) then ret None
  else
    let answer (price : float) : M State (option RateData) :=
      ret (Some {| close := price;
                   symbol := base +:+ "/" +:+ quote;
                   source := "coinmarketcap_api" |}) in
    if is_crypto base && is_fiat quote then
      let* reply := coinmarketcap_request base quote in
      match reply with
      | Some p => answer p
      | None => ret None
      end
    else if is_fiat base && is_crypto quote then
      let* reply := coinmarketcap_request quote base in
      match reply with
      | Some p =>
          if PrimFloat.eqb p 0%float then ret None
          else answer (1.0 / p)%float
      | None => ret None
      end
    else if is_crypto base && is_crypto quote then
      let* reply := coinmarketcap_request base quote in
      match reply with
      | Some p => answer p
      | None => ret None
      end
    else ret None.

(** [base, quote = symbol.split('/')] *)
Definition unpack_pair (sym : string) : M State (string * string) :=
  match Py.split "/" sym with
  | [base; quote] => ret (base, quote)
  | [] | [_] => raise (ValueError "not enough values to unpack")
  | _ => raise (ValueError "too many values to unpack")
  end.

(** [_fetch_rate_data].  Both adapters catch every exception themselves,
    so the two [except] clauses of this method (which call [_track_error])
    are never entered and [error_types] keeps its initial counts. *)
Definition _fetch_rate_data (sym : string) : M State (option RateData) :=
  let* bq := unpack_pair sym in
  let base := bq.1 in
  let quote := bq.2 in
  (* Check if assets are supported *)
  if negb (is_supported base) || negb (is_supported quote) then ret None
  else
    let* _ := modify_stats (upd_api_calls (λ n, n + 1)) in
    (* Strategy 2: crypto conversions via CoinMarketCap *)
    let crypto_part : M State (option RateData) :=
      if is_crypto base || is_crypto quote then
        let* _ := modify_stats
          (if is_crypto base && is_fiat quote then incr_crypto_to_fiat
           else if is_fiat base && is_crypto quote then incr_fiat_to_crypto
           else incr_crypto_to_crypto) in
        let* result := _fetch_coinmarketcap_api base quote in
        match result with
        | Some d =>
            let* _ := modify_stats incr_coinmarketcap_api in
            ret (Some d)
        | None => ret None
        end
      else ret None in
    (* Strategy 1: fiat-to-fiat via ExchangeRates *)
    if is_fiat base && is_fiat quote then
      let* _ := modify_stats incr_fiat_to_fiat in
      let* result := _fetch_exchangerates_api base quote in
      match result with
      | Some d =>
          let* _ := modify_stats incr_exchangerates_api in
          ret (Some d)
      | None => crypto_part
      end
    else crypto_part.

(** The three cache key families. *)
Definition direct_key (base quote : string) : string :=
  "direct:" +:+ base +:+ ":" +:+ quote.
Definition rate_key (base quote : string) : string :=
  "rate:" +:+ base +:+ ":" +:+ quote.
Definition fallback_key (base quote : string) : string :=
  "fallback:" +:+ base +:+ ":" +:+ quote.

(** [_get_conversion_rate]: the whole body is under [try], and the
    handler falls through to [return None]. *)
Definition _get_conversion_rate (base quote : string) : M State (option float) :=
  try_except
    (let cache_key := rate_key base quote in
     (* Try inverse pair *)
     let inverse_part : M State (option float) :=
       let* data := _fetch_rate_data (quote +:+ "/" +:+ base) in
       match data with
       | Some d =>
           if Py.truthy (close d) then
             let inverse_rate := close d in
             if Py.neqb inverse_rate 0%float then
               let rate := (1.0 / inverse_rate)%float in
               let* _ := cache_set cache_key (RateDict rate) 60 in
               ret (Some rate)
             else ret None
           else ret None
       | None => ret None
       end in
     (* Check cache first *)
     let* cached_rate := cache_get cache_key in
     match cached_rate with
     | Some d => let* r := getitem_rate d in ret (Some r)
     | None =>
         (* Try direct API call *)
         let* data := _fetch_rate_data (base +:+ "/" +:+ quote) in
         match data with
         | Some d =>
             if Py.truthy (close d) then
               let rate := close d in
               let* _ := cache_set cache_key (RateDict rate) 60 in
               ret (Some rate)
             else inverse_part
         | None => inverse_part
         end
     end)
    (λ _, ret None).

(** [(time.time() - start_time) * 1000] *)
Definition elapsed_ms (start_time : float) : M State float :=
  let* now := time_time in
  ret ((now - start_time) * 1000)%float.

Definition pair_name (base quote : string) : string := base +:+ "/" +:+ quote.

(** [_try_direct_conversion].  The [try] block either returns a result or
    is left (normally or by an exception) for the failure result below
    it. *)
Definition _try_direct_conversion (base quote : string) (amount0 start_time : float)
  : M State ConversionResult :=
  let* returned :=
    try_except
      ((* Check cache first *)
       let cache_key := direct_key base quote in
       let* cached_rate := cache_get cache_key in
       match cached_rate with
       | Some d =>
           let* _ := modify_stats (upd_cache_hits (λ n, n + 1)) in
           let* r := getitem_rate d in
           let* latency := elapsed_ms start_time in
           ret (Some {| pair := pair_name base quote; method := DIRECT;
                        rate := Some r; amount := Some (amount0 * r)%float;
                        confidence := 1.0; latency_ms := latency;
                        bridge_rates := None; error := None;
                        cached := true |})
       | None =>
           (* Try direct API call *)
           let* data := _fetch_rate_data (pair_name base quote) in
           match data with
           | Some d =>
               if Py.truthy (close d) then
                 let r := close d in
                 (* Cache the result *)
                 let* _ := cache_set cache_key (RateDict r) 60 in
                 let* latency := elapsed_ms start_time in
                 ret (Some {| pair := pair_name base quote; method := DIRECT;
                              rate := Some r;
                              amount := Some (amount0 * r)%float;
                              confidence := 1.0; latency_ms := latency;
                              bridge_rates := None; error := None;
                              cached := false |})
               else ret None
           | None => ret None
           end
       end)
      (λ _, ret None) in
  match returned with
  | Some result => ret result
  | None =>
      let* latency := elapsed_ms start_time in
      ret {| pair := pair_name base quote; method := DIRECT;
             rate := None; amount := None; confidence := 0.0;
             latency_ms := latency; bridge_rates := None;
             error := Some "Direct conversion failed"; cached := false |}
  end.

(** The body of the [for pivot in self.pivots] loop; [None] is
    [continue]. *)
Definition single_pivot_attempt (base quote : string)
  (amount0 start_time : float) (pivot : string)
  : M State (option ConversionResult) :=
  if String.eqb pivot base || String.eqb pivot quote then ret None
  else
    try_except
      ((* Get base -> pivot rate *)
       let* base_to_pivot := _get_conversion_rate base pivot in
       match base_to_pivot with
       | None => ret None
       | Some r1 =>
           (* Get pivot -> quote rate *)
           let* pivot_to_quote := _get_conversion_rate pivot quote in
           match pivot_to_quote with
           | None => ret None
           | Some r2 =>
               let final_rate := (r1 * r2)%float in
               let* m := ConversionMethod_of_value ("via_" +:+ pivot) in
               let* latency := elapsed_ms start_time in
               ret (Some {| pair := pair_name base quote; method := m;
                            rate := Some final_rate;
                            amount := Some (amount0 * final_rate)%float;
                            confidence := 0.8; latency_ms := latency;
                            bridge_rates :=
                              Some [(pair_name base pivot, r1);
                                    (pair_name pivot quote, r2)];
                            error := None; cached := false |})
           end
       end)
      (λ _, ret None).

Fixpoint single_pivot_loop (base quote : string) (amount0 start_time : float)
  (ps : list string) : M State (option ConversionResult) :=
  match ps with
  | [] => ret None
  | pivot :: ps' =>
      let* r := single_pivot_attempt base quote amount0 start_time pivot in
      match r with
      | Some result => ret (Some result)
      | None => single_pivot_loop base quote amount0 start_time ps'
      end
  end.

(** [_try_single_pivot_conversion] *)
Definition _try_single_pivot_conversion (base quote : string)
  (amount0 start_time : float) : M State ConversionResult :=
  let* returned := single_pivot_loop base quote amount0 start_time pivots in
  match returned with
  | Some result => ret result
  | None =>
      let* latency := elapsed_ms start_time in
      ret {| pair := pair_name base quote; method := USD_BRIDGE;
             rate := None; amount := None; confidence := 0.0;
             latency_ms := latency; bridge_rates := None;
             error := Some "Single pivot conversion failed";
             cached := false |}
  end.

Definition pivot_combinations : list (string * string) :=
  [("USD", "BTC"); ("USDT", "BTC"); ("USD", "ETH"); ("USDT", "ETH")].

(** [p in [base, quote]] *)
Definition in_pair (p base quote : string) : bool :=
  String.eqb p base || String.eqb p quote.

(** The body of the [for pivot1, pivot2 in pivot_combinations] loop. *)
Definition double_pivot_attempt (base quote : string)
  (amount0 start_time : float) (pivot1 pivot2 : string)
  : M State (option ConversionResult) :=
  if in_pair pivot1 base quote || in_pair pivot2 base quote then ret None
  else
    try_except
      ((* base -> pivot1 -> pivot2 -> quote *)
       let* rate1 := _get_conversion_rate base pivot1 in
       match rate1 with
       | None => ret None
       | Some r1 =>
           let* rate2 := _get_conversion_rate pivot1 pivot2 in
           match rate2 with
           | None => ret None
           | Some r2 =>
               let* rate3 := _get_conversion_rate pivot2 quote in
               match rate3 with
               | None => ret None
               | Some r3 =>
                   let final_rate := (r1 * r2 * r3)%float in
                   let* latency := elapsed_ms start_time in
                   ret (Some {| pair := pair_name base quote;
                                method := FALLBACK;
                                rate := Some final_rate;
                                amount := Some (amount0 * final_rate)%float;
                                confidence := 0.6; latency_ms := latency;
                                bridge_rates :=
                                  Some [(pair_name base pivot1, r1);
                                        (pair_name pivot1 pivot2, r2);
                                        (pair_name pivot2 quote, r3)];
                                error := None; cached := false |})
               end
           end
       end)
      (λ _, ret None).

Fixpoint double_pivot_loop (base quote : string) (amount0 start_time : float)
  (combos : list (string * string)) : M State (option ConversionResult) :=
  match combos with
  | [] => ret None
  | (pivot1, pivot2) :: combos' =>
      let* r :=
        double_pivot_attempt base quote amount0 start_time pivot1 pivot2 in
      match r with
      | Some result => ret (Some result)
      | None => double_pivot_loop base quote amount0 start_time combos'
      end
  end.

(** [_try_double_pivot_conversion] *)
Definition _try_double_pivot_conversion (base quote : string)
  (amount0 start_time : float) : M State ConversionResult :=
  (* Only try double pivot for crypto-to-crypto where single pivot failed *)
  if negb (is_crypto base && is_crypto quote) then
    let* latency := elapsed_ms start_time in
    ret {| pair := pair_name base quote; method := FALLBACK;
           rate := None; amount := None; confidence := 0.0;
           latency_ms := latency; bridge_rates := None;
           error := Some "Double pivot not applicable"; cached := false |}
  else
    let* returned :=
      double_pivot_loop base quote amount0 start_time pivot_combinations in
    match returned with
    | Some result => ret result
    | None =>
        let* latency := elapsed_ms start_time in
        ret {| pair := pair_name base quote; method := FALLBACK;
               rate := None; amount := None; confidence := 0.0;
               latency_ms := latency; bridge_rates := None;
               error := Some "Double pivot conversion failed";
               cached := false |}
    end.

(** [x / y] where [y] is not known to be non-zero. *)
Definition checked_div (x y : float) : M State float :=
  match Py.div x y with
  | Some q => ret q
  | None => raise ZeroDivisionError
  end.

Definition checked_div_int (x : float) (n : Z) : M State float :=
  match Py.div_int x n with
  | Some q => ret q
  | None => raise ZeroDivisionError
  end.

(** [_generate_estimated_rate] *)
Definition _generate_estimated_rate (base quote : string)
  : M State (option float) :=
  (* Try direct lookup *)
  match dict_get (pair_name base quote) mock_rates with
  | Some r => ret (Some r)
  | None =>
      (* Try inverse lookup *)
      match dict_get (pair_name quote base) mock_rates with
      | Some r => let* q := checked_div 1.0 r in ret (Some q)
      | None =>
          (* Try USD bridge estimation *)
          let base_usd := dict_get (base +:+ "/USD") mock_rates in
          let quote_usd := dict_get (quote +:+ "/USD") mock_rates in
          (* Default fallback based on asset types *)
          let by_asset_type : M State (option float) :=
            if is_crypto base && is_crypto quote then ret (Some 0.5%float)
            else if is_crypto base then ret (Some 1000.0%float)
            else if is_crypto quote then ret (Some 0.001%float)
            else ret (Some 1.0%float) in
          match base_usd, quote_usd with
          | Some b, Some q =>
              (* [base_usd and quote_usd and quote_usd != 0] *)
              if Py.truthy b && Py.truthy q && Py.neqb q 0%float
              then ret (Some (b / q)%float)
              else by_asset_type
          | _, _ => by_asset_type
          end
      end
  end.

(** [_fallback_conversion]: no [try] here, an exception leaves the
    method. *)
Definition _fallback_conversion (base quote : string)
  (amount0 start_time : float) : M State ConversionResult :=
  let no_method : M State ConversionResult :=
    let* latency := elapsed_ms start_time in
    ret {| pair := pair_name base quote; method := FALLBACK;
           rate := None; amount := None; confidence := 0.0;
           latency_ms := latency; bridge_rates := None;
           error := Some "No conversion method available";
           cached := false |} in
  (* Try to get any cached rate (even expired) *)
  let cache_key := fallback_key base quote in
  let* cached_data := cache_get cache_key in
  match cached_data with
  | Some d =>
      let* r := getitem_rate d in
      let* latency := elapsed_ms start_time in
      ret {| pair := pair_name base quote; method := CACHED;
             rate := Some r; amount := Some (amount0 * r)%float;
             confidence := 0.3; latency_ms := latency;
             bridge_rates := None; error := None; cached := true |}
  | None =>
      (* Generate estimated rate based on asset types *)
      let* estimated_rate := _generate_estimated_rate base quote in
      match estimated_rate with
      | Some r =>
          if Py.truthy r then
            (* Cache the estimated rate for future use *)
            let* _ := cache_set cache_key (RateDict r) 3600 in
            let* latency := elapsed_ms start_time in
            ret {| pair := pair_name base quote; method := FALLBACK;
                   rate := Some r; amount := Some (amount0 * r)%float;
                   confidence := 0.2; latency_ms := latency;
                   bridge_rates := None;
                   error := Some "Using estimated rate"; cached := false |}
          else no_method
      | None => no_method
      end
  end.

(** The block of [convert] under its second [# Update statistics]
    comment, with the running mean of the latency. *)
Definition update_statistics (result : ConversionResult) : M State unit :=
  let* _ :=
    if bool_decide (rate result ≠ None)
    then modify_stats (upd_successful_conversions (λ n, n + 1))
    else ret tt in
  let* _ :=
    if cached result
    then modify_stats (upd_cache_hits (λ n, n + 1))
    else ret tt in
  let* _ :=
    if bool_decide (method result = FALLBACK)
    then modify_stats (upd_fallback_uses (λ n, n + 1))
    else ret tt in
  (* Update average latency *)
  let latency := latency_ms result in
  let* s := get_state in
  let n := total_conversions (stats s) in
  let* mean :=
    checked_div_int
      (avg_latency (stats s) * Py.float_of_Z (n - 1) + latency)%float n in
  modify_stats (upd_avg_latency (λ _, mean)).

(** [convert] *)
Definition convert (base quote : string) (amount0 : float)
  : M State ConversionResult :=
  let* start_time := time_time in
  let base := Py.upper base in
  let quote := Py.upper quote in
  (* Update statistics *)
  let* _ := modify_stats (upd_total_conversions (λ n, n + 1)) in
  (* Same asset check *)
  if String.eqb base quote then
    let* latency := elapsed_ms start_time in
    ret {| pair := pair_name base quote; method := DIRECT;
           rate := Some 1.0%float; amount := Some amount0;
           confidence := 1.0; latency_ms := latency;
           bridge_rates := None; error := None; cached := false |}
  else
    (* Strategy 1: Direct pair check *)
    let* result := _try_direct_conversion base quote amount0 start_time in
    if bool_decide (rate result ≠ None) then ret result
    else
      (* Strategy 2: Single pivot bridging *)
      let* result :=
        _try_single_pivot_conversion base quote amount0 start_time in
      if bool_decide (rate result ≠ None) then ret result
      else
        (* Strategy 3: Double pivot bridging *)
        let* result :=
          _try_double_pivot_conversion base quote amount0 start_time in
        if bool_decide (rate result ≠ None) then ret result
        else
          (* Strategy 4: Fallback with cached/estimated rates *)
          let* result := _fallback_conversion base quote amount0 start_time in
          let* _ := update_statistics result in
          ret result.

(** ** Health check *)

(** [health_status['cache_manager']] *)
Inductive CacheStatus : Type :=
| Operational
| Failed
| CacheRaised (e : exn).

(** An entry of [health_status['test_conversions']]. *)
Inductive TestConversion : Type :=
| TestRan (pair : string) (success : bool) (method : string)
          (confidence latency_ms : float)
| TestRaised (pair : string) (e : exn).

(** The entries of the [health_status] dictionary that the method computes
    from the cache and from the conversions.  Its other entries
    ([timestamp], [version], [api_status], [performance],
    [asset_coverage]) are reads of the configuration and of the counters
    and change no state. *)
Record HealthStatus : Type := {
  status : string;
  issues : list string;
  cache_manager_status : CacheStatus;
  test_conversions : list TestConversion
}.

Definition test_pairs : list (string * string) :=
  [("BTC", "USD"); ("USD", "EUR"); ("ETH", "ADA")].

(** The cache probe: write, read back, classify. *)
Definition check_cache_manager : M State (CacheStatus * list string) :=
  try_except
    (let* _ := cache_set "health_check" TestDict 10 in
     let* cache_test := cache_get "health_check" in
     ret (match cache_test with
          | Some _ => Operational
          | None => Failed
          end, []))
    (λ e, ret (CacheRaised e, ["Cache manager not responding"])).

(** The body of the [for base, quote in test_pairs] loop: the entry it
    appends to [test_results] and what it appends to [issues]. *)
Definition test_conversion (base quote : string)
  : M State (TestConversion * list string) :=
  try_except
    (let* result := convert base quote 1.0 in
     ret (TestRan (pair_name base quote)
                  (bool_decide (rate result ≠ None))
                  (method_value (method result))
                  (confidence result) (latency_ms result), []))
    (λ e, ret (TestRaised (pair_name base quote) e,
               ["Test conversion failed: " +:+ pair_name base quote])).

Fixpoint run_test_pairs (ps : list (string * string))
  : M State (list TestConversion * list string) :=
  match ps with
  | [] => ret ([], [])
  | (base, quote) :: ps' =>
      let* r := test_conversion base quote in
      let* rs := run_test_pairs ps' in
      ret (r.1 :: rs.1, r.2 ++ rs.2)
  end.

(** [health_check] *)
Definition health_check : M State HealthStatus :=
  (* Check cache manager *)
  let* probe := check_cache_manager in
  (* Test key conversions *)
  let* tests := run_test_pairs test_pairs in
  let all_issues := probe.2 ++ tests.2 in
  (* Determine overall health *)
  ret {| status := match all_issues with
                   | [] => "healthy"
                   | _ :: _ => "degraded"
                   end;
         issues := all_issues;
         cache_manager_status := probe.1;
         test_conversions := tests.1 |}.

End SmartConvertEngine.

(** ** Concrete engines *)

(** [_get_fallback_crypto_assets] and [_get_fallback_fiat_assets]: the
    sets used when the asset files are missing. *)
Definition fallback_crypto_assets : gset string :=
  list_to_set
  [ "BTC"; "ETH"; "XRP"; "USDT"; "BNB"; "SOL"; "USDC"; "DOGE"; "TRX"; "ADA";
    "HYPE"; "LINK"; "AVAX"; "USDe"; "SUI"; "XLM"; "BCH"; "HBAR"; "LTC"; "LEO";
    "CRO"; "TON"; "SHIB"; "DOT"; "UNI"; "WLFI"; "MNT"; "XMR"; "DAI"; "ENA";
    "AAVE"; "PEPE"; "OKB"; "NEAR"; "BGB"; "TAO"; "IP"; "ONDO"; "APT"; "ETC";
    "WLD"; "PI"; "ARB"; "POL"; "USD1"; "ICP"; "PUMP"; "M"; "MYX"; "PENGU";
    "KAS"; "VET"; "ATOM"; "ALGO"; "RENDER"; "KCS"; "SEI"; "BONK"; "SKY"; "FIL";
    "FLR"; "TRUMP"; "IMX"; "JUP"; "FET"; "OP"; "INJ"; "GT"; "XDC"; "TIA";
    "PYUSD"; "SPX"; "QNT"; "STX"; "FDUSD"; "LDO"; "ASTER"; "AERO"; "CRV"; "PAXG";
    "GRT"; "PYTH"; "KAIA"; "CAKE"; "FLOKI"; "CFX"; "XAUt"; "WIF"; "ENS"; "S";
    "FARTCOIN"; "RAY"; "PENDLE"; "VIRTUAL"; "NEXO"; "THETA"; "XTZ"; "GALA";
    "ZEC"; "ETHFI" ].

Definition fallback_fiat_assets : gset string :=
  list_to_set
  [ "USD"; "EUR"; "GBP"; "JPY"; "CNY"; "CAD"; "AUD"; "CHF"; "KRW"; "INR";
    "BRL"; "RUB"; "MXN"; "ZAR"; "TRY"; "SAR"; "ARS"; "IDR"; "SEK"; "NOK";
    "DKK"; "PLN"; "CZK"; "HUF"; "RON"; "BGN"; "HRK"; "ISK"; "SGD"; "HKD";
    "TWD"; "THB"; "MYR"; "PHP"; "VND"; "NZD"; "PKR"; "BDT"; "LKR"; "MMK";
    "AED"; "QAR"; "KWD"; "BHD"; "OMR"; "JOD"; "ILS"; "EGP"; "NGN"; "KES";
    "GHS"; "MAD"; "TND"; "ETB"; "UGX"; "CLP"; "COP"; "PEN"; "UYU"; "BOB";
    "PYG"; "GTQ"; "CRC"; "PAB"; "DOP"; "JMD"; "TTD"; "XAF"; "XOF"; "XCD";
    "FJD"; "PGK"; "SBD"; "TOP"; "VUV"; "WST"; "XPF"; "NCL"; "CFP"; "AMD";
    "AZN"; "GEL"; "KGS"; "KZT"; "MDL"; "TJS"; "TMT"; "UZS"; "BYN"; "UAH";
    "ALL"; "BAM"; "MKD"; "RSD"; "CUP"; "HTG"; "NIO"; "SVC"; "AWG"; "BBD" ].

(** An engine started without asset files, with the given keys. *)
Definition default_engine (exchange_key cmc_key : option string) : Engine :=
  {| crypto_assets := fallback_crypto_assets;
     fiat_assets := fallback_fiat_assets;
     exchange_api_key := exchange_key;
     cmc_api_key := cmc_key |}.

(** The state [__init__] leaves: a fresh cache manager and zeroed
    counters. *)
Definition initial_state {C} (c : C) : EngineState C :=
  {| cache_manager := c; stats := initial_stats |}.

(** * Operations around the conversion path *)

(** ** More of Python's strings *)

(** [s.startswith(p)] *)
Fixpoint py_startswith (p s : string) : bool :=
  match p, s with
  | EmptyString, _ => true
  | String a p', String b s' => Ascii.eqb a b && py_startswith p' s'
  | String _ _, EmptyString => false
  end.

(** [sub in s]: [sub] occurs in [s] as a contiguous substring. *)
Fixpoint py_contains (sub s : string) : bool :=
  py_startswith sub s ||
  match s with
  | EmptyString => false
  | String _ s' => py_contains sub s'
  end.

(** [str.lower()] on the ASCII range. *)
Definition lower_ascii (c : ascii) : ascii :=
  let n := nat_of_ascii c in
  if (65 <=? n)%nat && (n <=? 90)%nat then ascii_of_nat (n + 32) else c.

Fixpoint py_lower (s : string) : string :=
  match s with
  | EmptyString => EmptyString
  | String c s' => String (lower_ascii c) (py_lower s')
  end.

(** ** [FastCacheManager.delete] *)

(** [delete(pattern)]: with a non-empty pattern, the keys of [self.cache]
    that contain it are popped from both dictionaries; with no pattern,
    or an empty one, both dictionaries are cleared. *)
Definition FastCacheManager_delete (pattern : option string)
  : M FastCache unit :=
  let clear : M FastCache unit :=
    modify (λ _, {| fc_cache := ∅; fc_timestamps := ∅ |}) in
  match pattern with
  | Some p =>
      if String.eqb p "" then clear
      else
        modify (λ c,
          let keys_to_delete :=
            filter (λ kv, py_contains p kv.1 = true) (fc_cache c) in
          {| fc_cache :=
               filter (λ kv, keys_to_delete !! kv.1 = None) (fc_cache c);
             fc_timestamps :=
               filter (λ kv, keys_to_delete !! kv.1 = None)
                      (fc_timestamps c) |})
  | None => clear
  end.

(** ** [get_supported_pairs], [reset_stats], [_track_error] *)

(** [get_supported_pairs]: every ordered pair of two different assets,
    named [BASE/QUOTE].  The order in which Python walks the set is
    unspecified; here it is that of [elements]. *)
Definition get_supported_pairs (self : Engine) : list string :=
  let all_assets := elements (crypto_assets self ∪ fiat_assets self) in
  base ← all_assets;
  quote ← all_assets;
  if bool_decide (base ≠ quote) then [pair_name base quote] else [].

(** [reset_stats] *)
Definition reset_stats {C : Type} : M (EngineState C) unit :=
  modify_stats (λ _, initial_stats).

Definition upd_error_types (f : ErrorTypes → ErrorTypes) (s : Stats) : Stats :=
  {| total_conversions := total_conversions s;
     successful_conversions := successful_conversions s;
     cache_hits := cache_hits s; api_calls := api_calls s;
     fallback_uses := fallback_uses s; avg_latency := avg_latency s;
     api_call_breakdown := api_call_breakdown s;
     conversion_types := conversion_types s;
     error_types := f (error_types s) |}.

(** The four categories of [_track_error]. *)
Inductive ErrorCategory : Type :=
| RateLimitError | NetworkError | ValidationError | ApiError.

(** The [if]/[elif] chain of [_track_error] on [str(error).lower()]. *)
Definition error_category (error_msg : string) : ErrorCategory :=
  if py_contains "rate limit" error_msg || py_contains "quota" error_msg
  then RateLimitError
  else if py_contains "network" error_msg || py_contains "timeout" error_msg
          || py_contains "connection" error_msg
  then NetworkError
  else if py_contains "invalid" error_msg || py_contains "missing" error_msg
  then ValidationError
  else ApiError.

Definition incr_error_type (c : ErrorCategory) (s : Stats) : Stats :=
  upd_error_types
    (λ e, match c with
          | RateLimitError =>
              {| api_errors := api_errors e;
                 rate_limit_errors := rate_limit_errors e + 1;
                 network_errors := network_errors e;
                 validation_errors := validation_errors e |}
          | NetworkError =>
              {| api_errors := api_errors e;
                 rate_limit_errors := rate_limit_errors e;
                 network_errors := network_errors e + 1;
                 validation_errors := validation_errors e |}
          | ValidationError =>
              {| api_errors := api_errors e;
                 rate_limit_errors := rate_limit_errors e;
                 network_errors := network_errors e;
                 validation_errors := validation_errors e + 1 |}
          | ApiError =>
              {| api_errors := api_errors e + 1;
                 rate_limit_errors := rate_limit_errors e;
                 network_errors := network_errors e;
                 validation_errors := validation_errors e |}
          end) s.

(** [_track_error(error, api_source)], given [str(error)]; [api_source]
    is only logged. *)
Definition _track_error {C : Type} (error_str : string)
  : M (EngineState C) unit :=
  modify_stats (incr_error_type (error_category (py_lower error_str))).

(** ** The [/api/convert] endpoint of [main_production.py] *)

(** The JSON object the endpoint answers with (its constant [metadata]
    and [data_source] entries left out). *)
Record ConvertResponse : Type := {
  resp_from_currency : string;
  resp_to_currency : string;
  resp_amount : float;
  resp_rate : option float;
  resp_converted_amount : option float;
  resp_conversion_method : string;
  resp_confidence_score : float;
  resp_engine_latency_ms : float;
  resp_total_response_time_ms : float;
  resp_bridge_rates : option (list (string * float));
  resp_cached : bool
}.

(** How a request ends: a response, or [HTTPException(status_code,
    detail)]. *)
Inductive HttpOutcome : Type :=
| HttpResponse (body : ConvertResponse)
| HTTPException (status_code : Z) (detail : string).

(** [str(x)] for an optional string. *)
Definition str_of_optional (x : option string) : string :=
  match x with
  | Some s => s
  | None => "None"
  end.

Section Endpoint.
Context {C : Type} `{CacheManager C}.
(** The module-level [smart_engine]. *)
Variable smart_engine : Engine.

(** The body of [convert_currency], for a request that passed validation.
    An [HTTPException] raised inside the [try] is re-raised as it is;
    any other exception becomes a 500 with a fixed detail. *)
Definition convert_currency (from_currency0 to_currency0 : string)
  (amount0 : float) : M (EngineState C) HttpOutcome :=
  try_except
    (let* start_time := time_time in
     let from_currency := Py.upper from_currency0 in
     let to_currency := Py.upper to_currency0 in
     (* Use Smart Convert Engine *)
     let* result := convert smart_engine from_currency to_currency amount0 in
     match rate result with
     | None =>
         ret (HTTPException 500
                ("Conversion not available for " +:+ from_currency +:+ "/"
                 +:+ to_currency +:+ ": " +:+ str_of_optional (error result)))
     | Some _ =>
         let* now := time_time in
         let response_time := (now - start_time)%float in
         ret (HttpResponse
                {| resp_from_currency := from_currency;
                   resp_to_currency := to_currency;
                   resp_amount := amount0;
                   resp_rate := rate result;
                   resp_converted_amount := amount result;
                   resp_conversion_method := method_value (method result);
                   resp_confidence_score := confidence result;
                   resp_engine_latency_ms := latency_ms result;
                   resp_total_response_time_ms := (response_time * 1000)%float;
                   resp_bridge_rates := bridge_rates result;
                   resp_cached := cached result |})
     end)
    (λ _, ret (HTTPException 500
                 "Smart conversion service temporarily unavailable")).

End Endpoint.

(** * Statements and scenarios *)

(** The invariant of a [ConversionResult]: rate, converted amount and a
    zero confidence are absent, absent and present together. *)
Definition result_invariant (r : ConversionResult) : Prop :=
  (rate r = None ↔ amount r = None) ∧
  (amount r = None ↔ PrimFloat.eqb (confidence r) 0%float = true).

(** What a result built by the double-pivot loop looks like. *)
Definition double_pivot_shape (base quote : string) (r : ConversionResult)
  : Prop :=
  is_Some (rate r) ∧ is_Some (amount r) ∧ confidence r = 0.6%float ∧
  method r = FALLBACK ∧ cached r = false ∧
  ∃ pivot1 pivot2 r1 r2 r3,
    (pivot1, pivot2) ∈ pivot_combinations ∧
    bridge_rates r = Some [(pair_name base pivot1, r1);
                           (pair_name pivot1 pivot2, r2);
                           (pair_name pivot2 quote, r3)] ∧
    rate r = Some (r1 * r2 * r3)%float.

(** The number of occurrences of a character in a string. *)
Fixpoint count_char (c : ascii) (s : string) : nat :=
  match s with
  | EmptyString => 0
  | String c' s' => (if Ascii.eqb c' c then 1 else 0) + count_char c s'
  end.

(** The rate-lookup helper as the design document words it, for
    comparison with [_get_conversion_rate]: look at the cache key
    [rate:X:Y]; on a miss ask the provider for [X/Y]; when that fails ask
    for [Y/X] and take the reciprocal when the inverse rate is non-zero;
    cache whichever succeeded for 60 seconds; answer null when both
    directions fail.  The document is silent on a cache manager that
    raises or that answers something other than a rate: the helper then
    answers null, which is the last clause of each [match]. *)
Section RateLookupSpec.
Context {C : Type} `{CacheManager C}.
Variable self : Engine.

(** What asking the provider for a pair yields: its rate, or a failure. *)
Definition provider_rate (answer : result (option RateData)) : option float :=
  match answer with
  | Ok (Some d) => if Py.truthy (close d) then Some (close d) else None
  | Ok None | Raise _ => None
  end.

(** Cache a rate that was found and answer it. *)
Definition store_and_answer (key : string) (r : float)
  : M (EngineState C) (option float) :=
  λ w n s,
    match cache_set key (RateDict r) 60 w n s with
    | (Ok _, n', s') => (Ok (Some r), n', s')
    | (Raise _, n', s') => (Ok None, n', s')
    end.

Definition rate_lookup_spec (x y : string) : M (EngineState C) (option float) :=
  λ w n s,
    let key := "rate:" +:+ x +:+ ":" +:+ y in
    match cache_get key w n s with
    | (Ok (Some (RateDict r)), n1, s1) => (Ok (Some r), n1, s1)
    | (Ok None, n1, s1) =>
        let '(direct, n2, s2) := _fetch_rate_data self (pair_name x y) w n1 s1 in
        match provider_rate direct with
        | Some r => store_and_answer key r w n2 s2
        | None =>
            let '(inverse, n3, s3) :=
              _fetch_rate_data self (pair_name y x) w n2 s2 in
            match provider_rate inverse with
            | Some inverse_rate =>
                if Py.neqb inverse_rate 0%float
                then store_and_answer key (1.0 / inverse_rate)%float w n3 s3
                else (Ok None, n3, s3)
            | None => (Ok None, n3, s3)
            end
        end
    | (_, n1, s1) => (Ok None, n1, s1)
    end.

End RateLookupSpec.

(** What a cache manager must do for the engine (the contract [get(key)
    -> rate | absent], [set(key, rate, ttl)]): on the states it reaches
    from a good one, described by [Inv], neither call raises, and [get]
    answers a rate entry or nothing, the health check's own entry being
    readable under its own key only. *)
Record CacheContract {C : Type} `{CacheManager C} (Inv : C → Prop) : Prop := {
  contract_get : ∀ key w n c,
    Inv c →
    ∃ answer n' c',
      cm_get key w n c = (Ok answer, n', c') ∧ Inv c' ∧
      (answer = Some TestDict → key = "health_check");
  contract_set : ∀ key r ttl w n c,
    Inv c →
    ∃ n' c', cm_set key (RateDict r) ttl w n c = (Ok tt, n', c') ∧ Inv c'
}.

(** The counters that only the statistics block of [convert] writes. *)
Definition summary_unchanged (s s' : Stats) : Prop :=
  total_conversions s' = total_conversions s ∧
  successful_conversions s' = successful_conversions s ∧
  fallback_uses s' = fallback_uses s ∧
  avg_latency s' = avg_latency s.

(** A computation keeps a relation between the state it starts from and
    the state it ends in, however it ends. *)
Definition keeps {St A} (R : St → St → Prop) (m : M St A) : Prop :=
  ∀ w n s, R s (m w n s).2.

(** A rate that is positive, and true in a condition. *)
Definition positive_rate (r : float) : bool :=
  PrimFloat.ltb 0%float r && Py.truthy r.

(** The values of [mock_rates]. *)
Definition mock_values : list float := map snd mock_rates.

(** The relation strategies 1 to 3 keep: the summary counters are left
    alone and a good cache manager stays good. *)
Definition steady_under {C : Type} (Inv : C → Prop) (s s' : EngineState C)
  : Prop :=
  summary_unchanged (stats s) (stats s') ∧
  (Inv (cache_manager s) → Inv (cache_manager s')).

(** The good states of a [FastCacheManager]: every cached key has its
    timestamp, and the health check's entry sits under its own key. *)
Definition fast_cache_ok (c : FastCache) : Prop :=
  (∀ key, is_Some (fc_cache c !! key) → is_Some (fc_timestamps c !! key)) ∧
  (∀ key, fc_cache c !! key = Some TestDict → key = "health_check").

(** The good states of a [MockCacheManager]. *)
Definition mock_cache_ok (c : gmap string cache_value) : Prop :=
  ∀ key, c !! key = Some TestDict → key = "health_check".

(** A clock that advances by one second per reading. *)
Definition seconds_clock (n : nat) : float := Py.float_of_Z (Z.of_nat n).

(** A world in which no upstream request ever succeeds. *)
Definition offline_world : World :=
  {| clock := seconds_clock;
     exchangerates_reply := λ _ _ _, None;
     coinmarketcap_reply := λ _ _ _, None |}.

(** A world in which CoinMarketCap quotes BTC in USD and nothing else. *)
Definition btc_usd_world : World :=
  {| clock := seconds_clock;
     exchangerates_reply := λ _ _ _, None;
     coinmarketcap_reply := λ _ sym convert,
       if String.eqb sym "BTC" && String.eqb convert "USD"
       then Some 63000%float else None |}.

(** A clock that advances by [step] seconds per reading. *)
Definition stepped_clock (step : Z) (n : nat) : float :=
  Py.float_of_Z (step * Z.of_nat n).

Definition stepped_world (step : Z) : World :=
  {| clock := stepped_clock step;
     exchangerates_reply := λ _ _ _, None;
     coinmarketcap_reply := λ _ _ _, None |}.

(** A world in which CoinMarketCap quotes SOL in USD, BTC in USD and BTC
    in ADA, and nothing else: SOL/ADA has no direct quote and no single
    pivot, and is reachable through USD and then BTC. *)
Definition sol_ada_world : World :=
  {| clock := seconds_clock;
     exchangerates_reply := λ _ _ _, None;
     coinmarketcap_reply := λ _ sym convert,
       if String.eqb sym "SOL" && String.eqb convert "USD"
       then Some 142.5%float
       else if String.eqb sym "BTC" && String.eqb convert "USD"
       then Some 63000%float
       else if String.eqb sym "BTC" && String.eqb convert "ADA"
       then Some 180000%float
       else None |}.

(** A method tag of its own for double-pivot results: neither the
    fallback tag nor one of the single-pivot tags. *)
Definition distinct_double_pivot_tag (m : ConversionMethod) : Prop :=
  m ≠ FALLBACK ∧ m ∉ [USD_BRIDGE; USDT_BRIDGE; EUR_BRIDGE; BTC_BRIDGE].

(** A world in which CoinMarketCap quotes ETH in USD and ADA in USD and
    nothing else: ETH/ADA has no direct quote and bridges through USD. *)
Definition eth_ada_world : World :=
  {| clock := seconds_clock;
     exchangerates_reply := λ _ _ _, None;
     coinmarketcap_reply := λ _ sym convert,
       if String.eqb sym "ETH" && String.eqb convert "USD"
       then Some 2580%float
       else if String.eqb sym "ADA" && String.eqb convert "USD"
       then Some 0.25%float
       else None |}.

(** The summary relation on engine states. *)
Definition same_summary {C : Type} (s s' : EngineState C) : Prop :=
  summary_unchanged (stats s) (stats s').

(** Idempotence of [convert] as the design document states it, at one
    starting point: a second call made right after the first, both inside
    the 60-second window, returns the same rate and is marked cached. *)
Definition idempotent_at {C : Type} `{CacheManager C} (self : Engine)
  (w : World) (n : nat) (s : EngineState C) (base quote : string)
  (amount0 : float) : Prop :=
  ∀ r1 n1 s1 r2 n2 s2,
    convert self base quote amount0 w n s = (Ok r1, n1, s1) →
    convert self base quote amount0 w n1 s1 = (Ok r2, n2, s2) →
    PrimFloat.ltb (clock w n2 - clock w n)%float 60%float = true →
    rate r2 = rate r1 ∧ cached r2 = true.

(** The two calls happen inside the 60-second window: any two clock
    readings from the [first] to the [last], in the order they are
    taken, are less than 60 seconds apart. *)
Definition within_window (w : World) (first last : nat) : bool :=
  forallb
    (λ m1, forallb
             (λ m2, PrimFloat.ltb (clock w m2 - clock w m1)%float 60%float)
             (seq m1 (S last - m1)))
    (seq first (S last - first)).

(** An entry that was in the in-memory cache under [key] is less than 60
    seconds old at the reading [m]. *)
Definition entry_within_window (w : World) (m : nat) (key : string)
  (c : FastCache) : bool :=
  match fc_timestamps c !! key with
  | Some ts => PrimFloat.ltb (clock w m - ts)%float 60%float
  | None => true
  end.

(** The production set-up: both keys present, the in-memory cache with its
    default [CACHE_TTL] of 300 seconds, nothing cached or counted yet. *)
Definition production_engine : Engine :=
  default_engine (Some "exchange-key") (Some "cmc-key").

Definition production_state : EngineState FastCache :=
  initial_state FastCacheManager.init.

(** ** Further statements *)

(** The two dictionaries of a [FastCacheManager] have the same keys. *)
Definition fast_cache_dom (c : FastCache) : Prop :=
  ∀ key, is_Some (fc_cache c !! key) ↔ is_Some (fc_timestamps c !! key).

(** A cache holding one direct rate, stored at time 0. *)
Definition one_entry_cache : FastCache :=
  {| fc_cache := {["direct:BTC:USD" := RateDict 63000]};
     fc_timestamps := {["direct:BTC:USD" := 0%float]} |}.

(** Successful upstream answers counted so far, and classified attempts
    counted so far. *)
Definition breakdown_total (st : Stats) : Z :=
  exchangerates_api (api_call_breakdown st)
  + coinmarketcap_api (api_call_breakdown st).

Definition types_total (st : Stats) : Z :=
  crypto_to_fiat (conversion_types st) + fiat_to_crypto (conversion_types st)
  + crypto_to_crypto (conversion_types st)
  + fiat_to_fiat (conversion_types st).

(** A state whose cache holds one fresh direct rate. *)
Definition one_entry_state : EngineState FastCache :=
  {| cache_manager := one_entry_cache; stats := initial_stats |}.

(** How the call counters may move: none goes down, and the providers'
    answers grow by no more than the attempts do. *)
Definition api_accounting (st st' : Stats) : Prop :=
  api_calls st ≤ api_calls st' ∧
  cache_hits st ≤ cache_hits st' ∧
  exchangerates_api (api_call_breakdown st)
    ≤ exchangerates_api (api_call_breakdown st') ∧
  coinmarketcap_api (api_call_breakdown st)
    ≤ coinmarketcap_api (api_call_breakdown st') ∧
  breakdown_total st' - breakdown_total st ≤ api_calls st' - api_calls st.

Definition api_accounting_on {C : Type} (s s' : EngineState C) : Prop :=
  api_accounting (stats s) (stats s').

(** [sub] occurs in [s]. *)
Definition occurs_in (sub s : string) : Prop :=
  ∃ pre post, s = pre +:+ sub +:+ post.

(** The probe of [health_check] on a cache manager with good states
    [Inv]: writing the test entry succeeds and leaves a good state. *)
Definition probe_contract {C : Type} `{CacheManager C} (Inv : C → Prop)
  : Prop :=
  ∀ w n c, Inv c →
    ∃ n' c', cm_set "health_check" TestDict 10 w n c = (Ok tt, n', c') ∧
             Inv c'.

(** Entries of the health report that stand for an exception. *)
Definition test_raised (t : TestConversion) : bool :=
  match t with
  | TestRaised _ _ => true
  | TestRan _ _ _ _ _ => false
  end.

Definition probe_raised (c : CacheStatus) : bool :=
  match c with
  | CacheRaised _ => true
  | Operational | Failed => false
  end.

(** A test conversion that ran and found a rate. *)
Definition test_succeeded (t : TestConversion) : bool :=
  match t with
  | TestRan _ success _ _ _ => success
  | TestRaised _ _ => false
  end.

(** What one call of [convert] does to the summary counters: the call is
    counted, and a success or a use of the fallback is counted at most
    once. *)
Definition counted_calls (k : Z) (st st' : Stats) : Prop :=
  total_conversions st' = total_conversions st + k ∧
  successful_conversions st ≤ successful_conversions st'
    ≤ successful_conversions st + k ∧
  fallback_uses st ≤ fallback_uses st' ≤ fallback_uses st + k.

(** A step that keeps the two dictionaries of a [FastCacheManager] in
    step. *)
Definition dom_kept (s s' : EngineState FastCache) : Prop :=
  fast_cache_dom (cache_manager s) → fast_cache_dom (cache_manager s').

(** What a result built by the single-pivot loop through [pivot] looks
    like. *)
Definition single_pivot_shape (base quote : string) (amount0 : float)
  (pivot : string) (r : ConversionResult) : Prop :=
  ∃ r1 r2,
    method_value (method r) = "via_" +:+ pivot ∧
    rate r = Some (r1 * r2)%float ∧
    amount r = Some (amount0 * (r1 * r2))%float ∧
    bridge_rates r = Some [(pair_name base pivot, r1);
                           (pair_name pivot quote, r2)] ∧
    confidence r = 0.8%float ∧ error r = None ∧ cached r = false ∧
    pair r = pair_name base quote.

(** A cache manager whose every look-up raises. *)
Definition get_raises (C : Type) `{CacheManager C} : Prop :=
  ∀ key w n c, ∃ e n' c', cm_get key w n c = (Raise e, n', c').

(** A cache manager that lost its store: look-ups raise, writes are
    accepted and dropped. *)
Definition UnreachableCacheManager_instance : CacheManager unit :=
  {| cm_get := λ _, raise (BackendError "cache unavailable");
     cm_set := λ _ _ _, ret tt |}.

(** Two worlds whose clocks read the same; their providers may answer
    differently. *)
Definition same_clock (w1 w2 : World) : Prop := ∀ n, clock w1 n = clock w2 n.

(** A computation that runs the same way in two worlds. *)
Definition agrees {St A} (w1 w2 : World) (m : M St A) : Prop :=
  ∀ n s, m w1 n s = m w2 n s.

(** A cache manager that consults nothing but the clock. *)
Definition cache_reads_clock_only (C : Type) `{CacheManager C} : Prop :=
  ∀ w1 w2, same_clock w1 w2 →
    (∀ key, agrees w1 w2 (cm_get key)) ∧
    (∀ key v ttl, agrees w1 w2 (cm_set key v ttl)).

(** An engine started without API keys. *)
Definition keyless_engine : Engine := default_engine None None.

(** Errors tracked so far, over the four categories. *)
Definition errors_total (st : Stats) : Z :=
  api_errors (error_types st) + rate_limit_errors (error_types st)
  + network_errors (error_types st) + validation_errors (error_types st).

(** The text of an error mentions one of the keywords, in any case. *)
Definition mentions (keywords : list string) (error_str : string) : Prop :=
  ∃ k, k ∈ keywords ∧ occurs_in k (py_lower error_str).

(** * Properties *)

(** ** Proof support *)

(** Unfold the plumbing of the monad, leaving the calls of the engine's
    own methods in place. *)
Ltac unfold_monad :=
  unfold bind, ret, raise, try_except, zoom, modify, get_state, time_time,
    modify_stats, cache_get, cache_set, elapsed_ms, getitem_rate,
    checked_div, checked_div_int in *.

(** Two float literals on either side of 0.9 are not equal. *)
Ltac float_differs H :=
  apply (f_equal (PrimFloat.ltb 0.9)) in H; vm_compute in H; discriminate H.

(** Split on every scrutinee that is left, keeping the equations. *)
Ltac split_cases := repeat (case_match; simplify_eq/=; try done).

Lemma try_except_ret_total {St A} (m : M St A) (a : A) w n s :
  ∃ o n' s', try_except m (λ _, ret a) w n s = (Ok o, n', s').
Proof.
  unfold try_except, ret. destruct (m w n s) as [[[x|e] n1] s1]; eauto.
Qed.

Section Shapes.
Context {C : Type} `{CacheManager C}.
Variable self : Engine.

Lemma convert_same_symbol (base quote : string) (amount0 : float)
    (w : World) (n : nat) (s : EngineState C) :
  Py.upper base = Py.upper quote →
  convert self base quote amount0 w n s =
    (Ok {| pair := pair_name (Py.upper base) (Py.upper quote);
           method := DIRECT; rate := Some 1.0%float;
           amount := Some amount0; confidence := 1.0;
           latency_ms := ((clock w (S n) - clock w n) * 1000)%float;
           bridge_rates := None; error := None; cached := false |},
     S (S n),
     {| cache_manager := cache_manager s;
        stats := upd_total_conversions (λ k, k + 1) (stats s) |}).
Proof.
  intros Heq. unfold convert. unfold_monad.
  rewrite Heq, String.eqb_refl. reflexivity.
Qed.

Lemma direct_invariant base quote amount0 start w n (s : EngineState C) r n' s' :
  _try_direct_conversion self base quote amount0 start w n s = (Ok r, n', s') →
  result_invariant r.
Proof.
  unfold _try_direct_conversion, result_invariant. unfold_monad.
  intros Hrun. split_cases.
Qed.

Lemma single_pivot_attempt_shape base quote amount0 start pivot w n
    (s : EngineState C) r n' s' :
  single_pivot_attempt self base quote amount0 start pivot w n s
    = (Ok (Some r), n', s') →
  is_Some (rate r) ∧ is_Some (amount r) ∧ confidence r = 0.8%float ∧
  cached r = false.
Proof.
  unfold single_pivot_attempt, ConversionMethod_of_value. unfold_monad.
  intros Hrun. split_cases; eauto.
Qed.

Lemma single_pivot_attempt_total base quote amount0 start pivot w n
    (s : EngineState C) :
  ∃ o n' s', single_pivot_attempt self base quote amount0 start pivot w n s
               = (Ok o, n', s').
Proof.
  unfold single_pivot_attempt.
  destruct (_ || _); [unfold ret; eauto|apply try_except_ret_total].
Qed.

Lemma single_pivot_loop_shape base quote amount0 start ps w n
    (s : EngineState C) r n' s' :
  single_pivot_loop self base quote amount0 start ps w n s
    = (Ok (Some r), n', s') →
  is_Some (rate r) ∧ is_Some (amount r) ∧ confidence r = 0.8%float ∧
  cached r = false.
Proof.
  revert n s. induction ps as [|pivot ps IH]; intros n s; simpl.
  - unfold ret. intros [=].
  - unfold bind at 1. 
    destruct (single_pivot_attempt self base quote amount0 start pivot w n s)
      as [[[o|e] n1] s1] eqn:Hatt; [|intros [=]].
    destruct o as [r1|].
    + unfold ret. intros [= -> -> ->].
      eapply single_pivot_attempt_shape; eauto.
    + apply IH.
Qed.

Lemma single_pivot_loop_total base quote amount0 start ps w n
    (s : EngineState C) :
  ∃ o n' s', single_pivot_loop self base quote amount0 start ps w n s
               = (Ok o, n', s').
Proof.
  revert n s. induction ps as [|pivot ps IH]; intros n s; simpl.
  - unfold ret. eauto.
  - unfold bind at 1.
    destruct (single_pivot_attempt_total base quote amount0 start pivot w n s)
      as (o & n1 & s1 & ->).
    destruct o as [r1|]; [unfold ret; eauto | apply IH].
Qed.

Lemma single_pivot_invariant base quote amount0 start w n
    (s : EngineState C) r n' s' :
  _try_single_pivot_conversion self base quote amount0 start w n s
    = (Ok r, n', s') →
  result_invariant r.
Proof.
  unfold _try_single_pivot_conversion. unfold bind at 1.
  destruct (single_pivot_loop self base quote amount0 start pivots w n s)
    as [[[o|e] n1] s1] eqn:Hloop; [|intros [=]].
  destruct o as [r1|].
  - unfold ret. intros [= -> -> ->].
    apply single_pivot_loop_shape in Hloop as ([? Hr] & [? Ha] & Hc & _).
    unfold result_invariant. rewrite Hr, Ha, Hc. done.
  - unfold_monad. intros [= <- <- <-]. done.
Qed.

Lemma double_pivot_attempt_shape base quote amount0 start p1 p2 w n
    (s : EngineState C) r n' s' :
  double_pivot_attempt self base quote amount0 start p1 p2 w n s
    = (Ok (Some r), n', s') →
  is_Some (rate r) ∧ is_Some (amount r) ∧ confidence r = 0.6%float ∧
  method r = FALLBACK ∧ cached r = false ∧
  ∃ r1 r2 r3,
    bridge_rates r = Some [(pair_name base p1, r1); (pair_name p1 p2, r2);
                           (pair_name p2 quote, r3)] ∧
    rate r = Some (r1 * r2 * r3)%float.
Proof.
  unfold double_pivot_attempt. unfold_monad.
  intros Hrun. split_cases. repeat split; eauto.
Qed.

Lemma double_pivot_attempt_total base quote amount0 start p1 p2 w n
    (s : EngineState C) :
  ∃ o n' s', double_pivot_attempt self base quote amount0 start p1 p2 w n s
               = (Ok o, n', s').
Proof.
  unfold double_pivot_attempt.
  destruct (_ || _); [unfold ret; eauto|apply try_except_ret_total].
Qed.

Lemma double_pivot_loop_shape base quote amount0 start combos w n
    (s : EngineState C) r n' s' :
  double_pivot_loop self base quote amount0 start combos w n s
    = (Ok (Some r), n', s') →
  is_Some (rate r) ∧ is_Some (amount r) ∧ confidence r = 0.6%float ∧
  method r = FALLBACK ∧ cached r = false ∧
  ∃ pivot1 pivot2 r1 r2 r3,
    (pivot1, pivot2) ∈ combos ∧
    bridge_rates r = Some [(pair_name base pivot1, r1);
                           (pair_name pivot1 pivot2, r2);
                           (pair_name pivot2 quote, r3)] ∧
    rate r = Some (r1 * r2 * r3)%float.
Proof.
  revert n s. induction combos as [|[p1 p2] combos IH]; intros n s; simpl.
  - unfold ret. intros [=].
  - unfold bind at 1.
    destruct (double_pivot_attempt self base quote amount0 start p1 p2 w n s)
      as [[[o|e] n1] s1] eqn:Hatt; [|intros [=]].
    destruct o as [r1|].
    + unfold ret. intros [= -> -> ->].
      apply double_pivot_attempt_shape in Hatt
        as (? & ? & ? & ? & ? & x1 & x2 & x3 & ? & ?).
      repeat split; try done.
      exists p1, p2, x1, x2, x3. split; [left|done].
    + intros Hrest. apply IH in Hrest
        as (? & ? & ? & ? & ? & q1 & q2 & x1 & x2 & x3 & ? & ? & ?).
      repeat split; try done.
      exists q1, q2, x1, x2, x3. split; [by right|done].
Qed.

Lemma double_pivot_loop_total base quote amount0 start combos w n
    (s : EngineState C) :
  ∃ o n' s', double_pivot_loop self base quote amount0 start combos w n s
               = (Ok o, n', s').
Proof.
  revert n s. induction combos as [|[p1 p2] combos IH]; intros n s; simpl.
  - unfold ret. eauto.
  - unfold bind at 1.
    destruct (double_pivot_attempt_total base quote amount0 start p1 p2 w n s)
      as (o & n1 & s1 & ->).
    destruct o as [r1|]; [unfold ret; eauto | apply IH].
Qed.

(** The double-pivot strategy ends in one of three ways. *)
Lemma double_pivot_cases base quote amount0 start w n
    (s : EngineState C) r n' s' :
  _try_double_pivot_conversion self base quote amount0 start w n s
    = (Ok r, n', s') →
  (is_crypto self base && is_crypto self quote = false ∧
   rate r = None ∧ amount r = None ∧ confidence r = 0.0%float ∧
   error r = Some "Double pivot not applicable" ∧ n' = S n ∧ s' = s) ∨
  (is_crypto self base && is_crypto self quote = true ∧
   rate r = None ∧ amount r = None ∧ confidence r = 0.0%float ∧
   error r = Some "Double pivot conversion failed") ∨
  (is_crypto self base && is_crypto self quote = true ∧
   double_pivot_shape base quote r).
Proof.
  unfold _try_double_pivot_conversion.
  destruct (is_crypto self base && is_crypto self quote) eqn:Hc; cbn [negb].
  - unfold bind at 1.
    destruct (double_pivot_loop self base quote amount0 start
                pivot_combinations w n s) as [[[o|e] n1] s1] eqn:Hloop;
      [|intros [=]].
    destruct o as [r1|].
    + unfold ret. intros [= -> -> ->]. right; right. split; [done|].
      by apply double_pivot_loop_shape in Hloop.
    + unfold_monad. intros [= <- <- <-]. right; left. done.
  - unfold_monad. intros [= <- <- <-]. left. done.
Qed.

Lemma double_pivot_invariant base quote amount0 start w n
    (s : EngineState C) r n' s' :
  _try_double_pivot_conversion self base quote amount0 start w n s
    = (Ok r, n', s') →
  result_invariant r.
Proof.
  intros Hrun. unfold result_invariant.
  apply double_pivot_cases in Hrun
    as [(_ & Hr & Ha & Hc & _)|[(_ & Hr & Ha & Hc & _)|(_ & Hs)]].
  - rewrite Hr, Ha, Hc. done.
  - rewrite Hr, Ha, Hc. done.
  - destruct Hs as ([? Hr] & [? Ha] & Hc & _). rewrite Hr, Ha, Hc. done.
Qed.

Lemma fallback_invariant base quote amount0 start w n
    (s : EngineState C) r n' s' :
  _fallback_conversion self base quote amount0 start w n s = (Ok r, n', s') →
  result_invariant r.
Proof.
  unfold _fallback_conversion, result_invariant. unfold bind at 1.
  destruct (cache_get _ w n s) as [[[o|e] n1] s1]; [|intros [=]].
  destruct o as [d|].
  - unfold_monad. intros Hrun. split_cases.
  - unfold bind at 1.
    destruct (_generate_estimated_rate self base quote w n1 s1)
      as [[[o|e] n2] s2]; [|intros [=]].
    unfold_monad. intros Hrun. split_cases.
Qed.

Lemma direct_total base quote amount0 start w n (s : EngineState C) :
  ∃ r n' s',
    _try_direct_conversion self base quote amount0 start w n s = (Ok r, n', s').
Proof.
  unfold _try_direct_conversion. unfold_monad. split_cases; eauto.
Qed.

Lemma single_pivot_total base quote amount0 start w n (s : EngineState C) :
  ∃ r n' s',
    _try_single_pivot_conversion self base quote amount0 start w n s
      = (Ok r, n', s').
Proof.
  unfold _try_single_pivot_conversion. unfold bind at 1.
  destruct (single_pivot_loop_total base quote amount0 start pivots w n s)
    as (o & n1 & s1 & ->).
  destruct o; unfold_monad; eauto.
Qed.

Lemma double_pivot_total base quote amount0 start w n (s : EngineState C) :
  ∃ r n' s',
    _try_double_pivot_conversion self base quote amount0 start w n s
      = (Ok r, n', s').
Proof.
  unfold _try_double_pivot_conversion.
  destruct (negb _).
  - unfold_monad. eauto.
  - unfold bind at 1.
    destruct (double_pivot_loop_total base quote amount0 start
                pivot_combinations w n s) as (o & n1 & s1 & ->).
    destruct o; unfold_monad; eauto.
Qed.

(** How [convert] ends for two different symbols: with the result of the
    first strategy that has a rate, the statistics block being run after
    the fallback only. *)
Lemma convert_cases base quote amount0 w n (s : EngineState C) out :
  Py.upper base ≠ Py.upper quote →
  convert self base quote amount0 w n s = out →
  let b := Py.upper base in
  let q := Py.upper quote in
  let start := clock w n in
  let s0 := {| cache_manager := cache_manager s;
               stats := upd_total_conversions (λ k, k + 1) (stats s) |} in
  ∃ r1 n1 s1,
    _try_direct_conversion self b q amount0 start w (S n) s0 = (Ok r1, n1, s1) ∧
    (rate r1 ≠ None ∧ out = (Ok r1, n1, s1) ∨
     rate r1 = None ∧
     ∃ r2 n2 s2,
       _try_single_pivot_conversion self b q amount0 start w n1 s1
         = (Ok r2, n2, s2) ∧
       (rate r2 ≠ None ∧ out = (Ok r2, n2, s2) ∨
        rate r2 = None ∧
        ∃ r3 n3 s3,
          _try_double_pivot_conversion self b q amount0 start w n2 s2
            = (Ok r3, n3, s3) ∧
          (rate r3 ≠ None ∧ out = (Ok r3, n3, s3) ∨
           rate r3 = None ∧
           out = (let* r4 := _fallback_conversion self b q amount0 start in
                  let* _ := update_statistics r4 in
                  ret r4) w n3 s3))).
Proof.
  intros Hne Hout. cbv zeta. unfold convert in Hout.
  unfold bind at 1 in Hout. unfold time_time at 1 in Hout.
  unfold bind at 1 in Hout. unfold modify_stats at 1, modify at 1 in Hout.
  destruct (String.eqb_spec (Py.upper base) (Py.upper quote)) as [|_]; [done|].
  destruct (direct_total (Py.upper base) (Py.upper quote) amount0
              (clock w n) w (S n)
              {| cache_manager := cache_manager s;
                 stats := upd_total_conversions (λ k, k + 1) (stats s) |})
    as (r1 & n1 & s1 & H1).
  exists r1, n1, s1. split; [done|].
  unfold bind at 1 in Hout. rewrite H1 in Hout.
  case_bool_decide as Hr1; [left; done|right; split; [done|]].
  destruct (single_pivot_total (Py.upper base) (Py.upper quote) amount0
              (clock w n) w n1 s1) as (r2 & n2 & s2 & H2).
  exists r2, n2, s2. split; [done|].
  unfold bind at 1 in Hout. rewrite H2 in Hout.
  case_bool_decide as Hr2; [left; done|right; split; [done|]].
  destruct (double_pivot_total (Py.upper base) (Py.upper quote) amount0
              (clock w n) w n2 s2) as (r3 & n3 & s3 & H3).
  exists r3, n3, s3. split; [done|].
  unfold bind at 1 in Hout. rewrite H3 in Hout.
  case_bool_decide as Hr3; [left; done|right; split; [done|]].
  done.
Qed.

Lemma convert_invariant base quote amount0 w n (s : EngineState C) r n' s' :
  convert self base quote amount0 w n s = (Ok r, n', s') →
  result_invariant r.
Proof.
  intros Hrun.
  destruct (decide (Py.upper base = Py.upper quote)) as [Heq|Hne].
  - rewrite (convert_same_symbol _ _ _ _ _ _ Heq) in Hrun.
    injection Hrun as <- _ _. done.
  - destruct (convert_cases _ _ _ _ _ _ _ Hne Hrun)
      as (r1 & n1 & s1 & H1 & [[_ [= -> _ _]]|[_ (r2 & n2 & s2 & H2 & Hc2)]]).
    { by eapply direct_invariant. }
    destruct Hc2 as [[_ [= -> _ _]]|[_ (r3 & n3 & s3 & H3 & Hc3)]].
    { by eapply single_pivot_invariant. }
    destruct Hc3 as [[_ [= -> _ _]]|[_ Hout]].
    { by eapply double_pivot_invariant. }
    unfold bind at 1 in Hout.
    destruct (_fallback_conversion self _ _ amount0 _ w n3 s3)
      as [[[r4|e] n4] s4] eqn:H4; [|done].
    unfold bind at 1 in Hout.
    destruct (update_statistics r4 w n4 s4) as [[[u|e] n5] s5]; [|done].
    unfold ret in Hout. injection Hout as -> _ _.
    by eapply fallback_invariant.
Qed.

End Shapes.

(** ** Splitting a pair name *)

Lemma split_length (sep : ascii) (s : string) :
  length (Py.split sep s) = S (count_char sep s).
Proof.
  induction s as [|c s IH]; simpl; [done|].
  destruct (Ascii.eqb c sep); simpl; [by rewrite IH|].
  destruct (Py.split sep s); simpl in *; [done|lia].
Qed.

Lemma split_no_sep (sep : ascii) (s : string) :
  count_char sep s = 0%nat → Py.split sep s = [s].
Proof.
  induction s as [|c s IH]; simpl; [done|].
  destruct (Ascii.eqb c sep); [done|]. simpl.
  intros Hs. by rewrite IH.
Qed.

Lemma split_app (sep : ascii) (a b : string) :
  count_char sep a = 0%nat →
  Py.split sep (a +:+ String sep b) = a :: Py.split sep b.
Proof.
  induction a as [|c a IH]; simpl.
  - by rewrite Ascii.eqb_refl.
  - destruct (Ascii.eqb c sep); [done|]. simpl.
    intros Ha. by rewrite IH.
Qed.

Lemma count_char_app (c : ascii) (a b : string) :
  count_char c (a +:+ b) = (count_char c a + count_char c b)%nat.
Proof. induction a as [|c' a IH]; simpl; [done|]. rewrite IH. lia. Qed.

Lemma count_pair_name (base quote : string) :
  count_char "/" (pair_name base quote)
  = S (count_char "/" base + count_char "/" quote).
Proof.
  unfold pair_name. rewrite !count_char_app. simpl. lia.
Qed.

(** A pair name splits back into its two symbols when neither contains a
    slash, and into three parts or more otherwise. *)
Lemma split_pair_name (base quote : string) :
  (count_char "/" base + count_char "/" quote = 0)%nat ∧
    Py.split "/" (pair_name base quote) = [base; quote]
  ∨ ∃ p1 p2 p3 ps, Py.split "/" (pair_name base quote) = p1 :: p2 :: p3 :: ps.
Proof.
  destruct (count_char "/" base + count_char "/" quote)%nat as [|k] eqn:Hk.
  - left. split; [done|]. unfold pair_name.
    change ("/" +:+ quote) with (String "/" quote).
    rewrite split_app by lia. by rewrite split_no_sep by lia.
  - right. pose proof (split_length "/" (pair_name base quote)) as Hlen.
    rewrite count_pair_name, Hk in Hlen.
    destruct (Py.split "/" (pair_name base quote)) as [|p1 [|p2 [|p3 ps]]];
      simpl in Hlen; try lia. eauto.
Qed.

Section Fetch.
Context {C : Type} `{CacheManager C}.
Variable self : Engine.

Lemma unpack_pair_cases (base quote : string) w n (s : EngineState C) :
  unpack_pair (pair_name base quote) w n s = (Ok (base, quote), n, s) ∨
  unpack_pair (pair_name base quote) w n s
    = (Raise (ValueError "too many values to unpack"), n, s).
Proof.
  unfold unpack_pair.
  destruct (split_pair_name base quote) as [[_ ->]|(p1 & p2 & p3 & ps & ->)];
    [by left|by right].
Qed.

(** A raised [_fetch_rate_data] has changed nothing, and the inverse pair
    raises in the same way. *)
Lemma fetch_raise_inverse (base quote : string) w n (s : EngineState C)
    e n' s' :
  _fetch_rate_data self (pair_name base quote) w n s = (Raise e, n', s') →
  n' = n ∧ s' = s ∧
  ∀ w2 n2 (s2 : EngineState C),
    _fetch_rate_data self (pair_name quote base) w2 n2 s2 = (Raise e, n2, s2).
Proof.
  unfold _fetch_rate_data. unfold bind at 1.
  destruct (split_pair_name base quote) as [[Hc Hs]|(p1 & p2 & p3 & ps & Hs)].
  - unfold unpack_pair at 1. rewrite Hs. unfold ret at 1.
    unfold _fetch_exchangerates_api, _fetch_coinmarketcap_api.
    unfold_monad. unfold exchangerates_request, coinmarketcap_request.
    cbn [fst snd]. intros Hrun. split_cases.
  - unfold unpack_pair at 1. rewrite Hs. unfold raise at 1.
    intros [= <- <- <-]. split; [done|]. split; [done|].
    intros w2 n2 s2. unfold bind, unpack_pair.
    destruct (split_pair_name quote base) as [[Hc Hs']|(q1 & q2 & q3 & qs & ->)];
      [|done].
    pose proof (split_length "/" (pair_name base quote)) as Hlen.
    rewrite Hs, count_pair_name in Hlen. simpl in Hlen. lia.
Qed.

(** C6. For every pair in which base or quote is in neither asset set,
    [_fetch_rate_data] ends without data — [None], or the [ValueError] of
    the unpacking when a symbol contains a slash, which both callers turn
    into a failed lookup — and leaves the interaction count and the whole
    engine state as they were: no upstream request is made and neither
    [api_calls] nor any entry of [api_call_breakdown] moves. *)
Theorem fetch_unsupported_no_upstream (base quote : string) (w : World)
    (n : nat) (s : EngineState C) :
  (((base ∉ crypto_assets self) ∧ (base ∉ fiat_assets self)) ∨
   ((quote ∉ crypto_assets self) ∧ (quote ∉ fiat_assets self))) →
  ∃ outcome n' s',
    _fetch_rate_data self (pair_name base quote) w n s = (outcome, n', s') ∧
    (outcome = Ok None ∨
     outcome = Raise (ValueError "too many values to unpack")) ∧
    n' = n ∧ s' = s ∧
    api_calls (stats s') = api_calls (stats s) ∧
    api_call_breakdown (stats s') = api_call_breakdown (stats s).
Proof.
  intros Hunsupported.
  assert (negb (is_supported self base) || negb (is_supported self quote)
          = true) as Hguard.
  { unfold is_supported. apply orb_true_iff.
    destruct Hunsupported as [[Hc Hf]|[Hc Hf]]; [left|right];
      apply negb_true_iff, bool_decide_eq_false, not_elem_of_union; done. }
  unfold _fetch_rate_data. unfold bind at 1.
  destruct (unpack_pair_cases base quote w n s) as [->| ->].
  - cbn [fst snd]. rewrite Hguard. unfold ret.
    exists (Ok None), n, s. auto 10.
  - eexists _, n, s. auto 10.
Qed.

(** C7. [_get_conversion_rate] is the rate-lookup helper of the design
    document: cache key [rate:X:Y] first, then the provider for [X/Y],
    then the provider for [Y/X] inverted when non-zero, the rate found
    cached for 60 seconds, null when both directions fail. *)
Theorem get_conversion_rate_is_rate_lookup (x y : string) (w : World)
    (n : nat) (s : EngineState C) :
  _get_conversion_rate self x y w n s = rate_lookup_spec self x y w n s.
Proof.
  unfold _get_conversion_rate, rate_lookup_spec, rate_key.
  unfold try_except, bind at 1.
  destruct (cache_get _ w n s) as [[[[[r|]|]|e] n1] s1]; try done.
  fold (pair_name x y). fold (pair_name y x).
  unfold bind at 1.
  destruct (_fetch_rate_data self (pair_name x y) w n1 s1)
    as [[[[d|]|e] n2] s2] eqn:Hdirect; cbn [provider_rate].
  - destruct (Py.truthy (close d)).
    + unfold store_and_answer, bind, ret.
      by destruct (cache_set _ _ _ w n2 s2) as [[[[]|e] n3] s3].
    + unfold bind at 1.
      destruct (_fetch_rate_data self (pair_name y x) w n2 s2)
        as [[[[d'|]|e] n3] s3]; cbn [provider_rate]; try done.
      destruct (Py.truthy (close d')); [|done].
      destruct (Py.neqb (close d') 0); [|done].
      unfold store_and_answer, bind, ret.
      by destruct (cache_set _ _ _ w n3 s3) as [[[[]|e] n4] s4].
  - unfold bind at 1.
    destruct (_fetch_rate_data self (pair_name y x) w n2 s2)
      as [[[[d'|]|e] n3] s3]; cbn [provider_rate]; try done.
    destruct (Py.truthy (close d')); [|done].
    destruct (Py.neqb (close d') 0); [|done].
    unfold store_and_answer, bind, ret.
    by destruct (cache_set _ _ _ w n3 s3) as [[[[]|e] n4] s4].
  - apply fetch_raise_inverse in Hdirect as (-> & -> & Hinv).
    by rewrite Hinv.
Qed.

End Fetch.

Lemma fetch_unsupported_no_upstream_witness :
  ∃ outcome n' s',
    _fetch_rate_data production_engine
      (pair_name "XYZ" "USD") offline_world 5%nat production_state
      = (outcome, n', s') ∧
    (outcome = Ok None ∨
     outcome = Raise (ValueError "too many values to unpack")) ∧
    n' = 5%nat ∧ s' = production_state ∧
    api_calls (stats s') = api_calls (stats production_state) ∧
    api_call_breakdown (stats s')
      = api_call_breakdown (stats production_state).
Proof.
  apply (fetch_unsupported_no_upstream (C := FastCache)
           production_engine "XYZ" "USD" offline_world 5%nat production_state).
  left. split; apply (bool_decide_unpack _); vm_compute; reflexivity.
Defined.

(** ** Same-asset conversions *)

(** C2. For every symbol [X] and amount, [convert(X, X, amount)] returns
    rate 1.0, the amount itself, confidence 1.0 and method [direct].  No
    strategy is attempted: the cache manager is left as it was, the only
    interactions with the environment are the two clock readings that
    measure the latency, and the only counter touched is
    [total_conversions]. *)
Theorem convert_same_asset {C : Type} `{CacheManager C} (self : Engine)
    (X : string) (amount0 : float) (w : World) (n : nat) (s : EngineState C) :
  ∃ r,
    convert self X X amount0 w n s =
      (Ok r, S (S n),
       {| cache_manager := cache_manager s;
          stats := upd_total_conversions (λ k, k + 1) (stats s) |}) ∧
    rate r = Some 1.0%float ∧ amount r = Some amount0 ∧
    confidence r = 1.0%float ∧ method r = DIRECT ∧
    method_value (method r) = "direct".
Proof.
  eexists. split; [by apply convert_same_symbol|]. done.
Qed.

(** ** The result invariant *)

(** C3. Every result that [convert] returns has its rate absent exactly
    when its converted amount is absent, exactly when its confidence is
    zero; and whenever the two symbols are the same asset the rate is 1.0
    and the confidence 1.0. *)
Theorem convert_result_invariant {C : Type} `{CacheManager C} (self : Engine)
    (base quote : string) (amount0 : float) (w : World) (n : nat)
    (s : EngineState C) (r : ConversionResult) (n' : nat)
    (s' : EngineState C) :
  convert self base quote amount0 w n s = (Ok r, n', s') →
  (rate r = None ↔ amount r = None) ∧
  (amount r = None ↔ PrimFloat.eqb (confidence r) 0%float = true) ∧
  (Py.upper base = Py.upper quote →
   rate r = Some 1.0%float ∧ confidence r = 1.0%float).
Proof.
  intros Hrun.
  destruct (convert_invariant self _ _ _ _ _ _ _ _ _ Hrun) as [Hra Hac].
  repeat split; try apply Hra; try apply Hac.
  - rewrite (convert_same_symbol self _ _ _ _ _ _ H0) in Hrun.
    by injection Hrun as <- _ _.
  - rewrite (convert_same_symbol self _ _ _ _ _ _ H0) in Hrun.
    by injection Hrun as <- _ _.
Qed.

Lemma convert_result_invariant_witness :
  ∃ r n' s',
    convert (H := FastCacheManager_instance 300) production_engine
      "xx" "yy" 2%float offline_world 0%nat production_state = (Ok r, n', s') ∧
    (rate r = None ↔ amount r = None) ∧
    (amount r = None ↔ PrimFloat.eqb (confidence r) 0%float = true) ∧
    (Py.upper "xx" = Py.upper "yy" →
     rate r = Some 1.0%float ∧ confidence r = 1.0%float).
Proof.
  eexists _, _, _. split; [vm_compute; reflexivity|].
  eapply (convert_result_invariant (H := FastCacheManager_instance 300)
           production_engine "xx" "yy" 2%float offline_world 0%nat
           production_state).
  vm_compute. reflexivity.
Defined.

(** ** The double-pivot strategy *)

(** C4, as the code has it. The double-pivot strategy is attempted only
    when base and quote are both crypto assets: otherwise it returns its
    failure result after the single clock reading of the latency, with
    the state untouched.  Every successful double-pivot result carries
    confidence 0.6 and the method tag [FALLBACK]; the two pivots used are
    one of the four fixed combinations and are recorded in the keys of
    the three [bridge_rates] legs, whose product is the rate. *)
Theorem double_pivot_result {C : Type} `{CacheManager C} (self : Engine)
    (base quote : string) (amount0 start : float) (w : World) (n : nat)
    (s : EngineState C) (r : ConversionResult) (n' : nat)
    (s' : EngineState C) :
  _try_double_pivot_conversion self base quote amount0 start w n s
    = (Ok r, n', s') →
  (¬ (base ∈ crypto_assets self ∧ quote ∈ crypto_assets self) →
   rate r = None ∧ n' = S n ∧ s' = s) ∧
  (rate r ≠ None →
   base ∈ crypto_assets self ∧ quote ∈ crypto_assets self ∧
   confidence r = 0.6%float ∧ method r = FALLBACK ∧
   ∃ pivot1 pivot2 r1 r2 r3,
     (pivot1, pivot2) ∈ pivot_combinations ∧
     bridge_rates r = Some [(pair_name base pivot1, r1);
                            (pair_name pivot1 pivot2, r2);
                            (pair_name pivot2 quote, r3)] ∧
     rate r = Some (r1 * r2 * r3)%float).
Proof.
  intros Hrun.
  assert (is_crypto self base && is_crypto self quote = true ↔
          base ∈ crypto_assets self ∧ quote ∈ crypto_assets self) as Hboth.
  { unfold is_crypto.
    by rewrite andb_true_iff, !bool_decide_eq_true. }
  apply double_pivot_cases in Hrun
    as [(Hc & Hr & _ & _ & _ & -> & ->)|[(Hc & Hr & _)|(Hc & Hs)]].
  - split; [done|]. by rewrite Hr.
  - split; [|by rewrite Hr]. intros Hnot. by apply Hboth in Hc.
  - split; [intros Hnot; by apply Hboth in Hc|]. intros _.
    destruct Hs as (_ & _ & Hconf & Hm & _ & Hlegs).
    apply Hboth in Hc as [? ?]. done.
Qed.

Lemma double_pivot_result_witness :
  ∃ r n' s',
    _try_double_pivot_conversion (H := FastCacheManager_instance 300)
      production_engine "SOL" "ADA" 1%float 0%float sol_ada_world 1%nat
      production_state = (Ok r, n', s') ∧
    (¬ ("SOL" ∈ crypto_assets production_engine ∧
        "ADA" ∈ crypto_assets production_engine) →
     rate r = None ∧ n' = 2%nat ∧ s' = production_state) ∧
    (rate r ≠ None →
     "SOL" ∈ crypto_assets production_engine ∧
     "ADA" ∈ crypto_assets production_engine ∧
     confidence r = 0.6%float ∧ method r = FALLBACK ∧
     ∃ pivot1 pivot2 r1 r2 r3,
       (pivot1, pivot2) ∈ pivot_combinations ∧
       bridge_rates r = Some [(pair_name "SOL" pivot1, r1);
                              (pair_name pivot1 pivot2, r2);
                              (pair_name pivot2 "ADA", r3)] ∧
       rate r = Some (r1 * r2 * r3)%float).
Proof.
  eexists _, _, _. split; [vm_compute; reflexivity|].
  eapply (double_pivot_result (H := FastCacheManager_instance 300)
            production_engine "SOL" "ADA" 1%float 0%float sol_ada_world
            1%nat production_state).
  vm_compute. reflexivity.
Defined.

(** C4, as stated, fails: converting SOL to ADA when only SOL/USD, BTC/USD
    and BTC/ADA are quoted succeeds through the pivots USD and BTC with
    confidence 0.6, and the method of the result is the fallback tag. *)
Lemma double_pivot_tag_counterexample :
  ∃ r n' s',
    convert (H := FastCacheManager_instance 300) production_engine
      "SOL" "ADA" 1%float sol_ada_world 0%nat production_state
      = (Ok r, n', s') ∧
    confidence r = 0.6%float ∧
    (∃ r1 r2 r3, bridge_rates r = Some [("SOL/USD", r1); ("USD/BTC", r2);
                                        ("BTC/ADA", r3)]) ∧
    method r = FALLBACK ∧
    ¬ distinct_double_pivot_tag (method r).
Proof.
  eexists _, _, _. split; [vm_compute; reflexivity|].
  cbn [confidence bridge_rates method].
  split; [reflexivity|]. split; [by eexists _, _, _|].
  split; [reflexivity|]. by intros [? _].
Qed.

(** ** The in-memory cache *)

Section FastCacheLemmas.
Variable CACHE_TTL : Z.

Lemma fast_get_absent key w n (c : FastCache) :
  fc_cache c !! key = None →
  FastCacheManager.get CACHE_TTL key w n c = (Ok None, n, c).
Proof.
  intros Hk. unfold FastCacheManager.get. unfold_monad. by rewrite Hk.
Qed.

(** An entry younger than [CACHE_TTL] is served, and nothing changes. *)
Lemma fast_get_fresh key v ts w n (c : FastCache) :
  fc_cache c !! key = Some v →
  fc_timestamps c !! key = Some ts →
  PrimFloat.ltb (clock w n - ts)%float (Py.float_of_Z CACHE_TTL) = true →
  FastCacheManager.get CACHE_TTL key w n c = (Ok (Some v), S n, c).
Proof.
  intros Hk Hts Hfresh. unfold FastCacheManager.get. unfold_monad.
  by rewrite Hk, Hts, Hfresh.
Qed.

(** An entry that is not younger than [CACHE_TTL] is reported absent and
    removed from both dictionaries. *)
Lemma fast_get_stale key v ts w n (c : FastCache) :
  fc_cache c !! key = Some v →
  fc_timestamps c !! key = Some ts →
  PrimFloat.ltb (clock w n - ts)%float (Py.float_of_Z CACHE_TTL) = false →
  FastCacheManager.get CACHE_TTL key w n c =
    (Ok None, S n, {| fc_cache := delete key (fc_cache c);
                      fc_timestamps := delete key (fc_timestamps c) |}).
Proof.
  intros Hk Hts Hstale. unfold FastCacheManager.get. unfold_monad.
  by rewrite Hk, Hts, Hstale.
Qed.

End FastCacheLemmas.

(** C5, at the failing inputs. [FastCacheManager.set] never reads its
    [ttl] argument, so every entry lives for the one global [CACHE_TTL]:
    with the default of 300 seconds, a leg rate stored with [ttl=60] is
    still served 100 seconds later, and a fallback estimate stored with
    [ttl=3600] is reported absent, and evicted, 400 seconds later. *)
Theorem fast_cache_ignores_ttl :
  (∀ CACHE_TTL key value ttl1 ttl2,
     FastCacheManager.set CACHE_TTL key value ttl1
     = FastCacheManager.set CACHE_TTL key value ttl2) ∧
  (let '(_, n, c) :=
     FastCacheManager.set 300 "rate:BTC:USD" (RateDict 63000) 60
       (stepped_world 100) 0%nat FastCacheManager.init in
   clock (stepped_world 100) n = 100%float ∧
   FastCacheManager.get 300 "rate:BTC:USD" (stepped_world 100) n c
   = (Ok (Some (RateDict 63000)), S n, c)) ∧
  (let '(_, n, c) :=
     FastCacheManager.set 300 "fallback:XX:YY" (RateDict 1) 3600
       (stepped_world 400) 0%nat FastCacheManager.init in
   clock (stepped_world 400) n = 400%float ∧
   let '(answer, _, c') :=
     FastCacheManager.get 300 "fallback:XX:YY" (stepped_world 400) n c in
   answer = Ok None ∧ fc_cache c' !! "fallback:XX:YY" = None).
Proof.
  split; [reflexivity|]. split; vm_compute; done.
Qed.

(** ** Relations kept by the strategies *)

Section Keeps.
Context {St : Type} (R : St → St → Prop).
Hypothesis R_refl : ∀ s, R s s.
Hypothesis R_trans : ∀ s1 s2 s3, R s1 s2 → R s2 s3 → R s1 s3.

Lemma keeps_ret {A} (a : A) : keeps R (ret a).
Proof. intros w n s. apply R_refl. Qed.

Lemma keeps_raise {A} (e : exn) : keeps R (raise (A := A) e).
Proof. intros w n s. apply R_refl. Qed.

Lemma keeps_time : keeps R time_time.
Proof. intros w n s. apply R_refl. Qed.

Lemma keeps_get_state : keeps R get_state.
Proof. intros w n s. apply R_refl. Qed.

Lemma keeps_bind {A B} (m : M St A) (k : A → M St B) :
  keeps R m → (∀ a, keeps R (k a)) → keeps R (bind m k).
Proof.
  intros Hm Hk w n s. unfold bind. specialize (Hm w n s).
  destruct (m w n s) as [[[a|e] n1] s1]; [|done].
  eapply R_trans; [exact Hm|apply Hk].
Qed.

Lemma keeps_try {A} (m : M St A) (h : exn → M St A) :
  keeps R m → (∀ e, keeps R (h e)) → keeps R (try_except m h).
Proof.
  intros Hm Hh w n s. unfold try_except. specialize (Hm w n s).
  destruct (m w n s) as [[[a|e] n1] s1]; [done|].
  eapply R_trans; [exact Hm|apply Hh].
Qed.

End Keeps.

(** One step of a proof that a method keeps a relation: through the
    monad's combinators and through every branch. *)
Ltac keeps_step :=
  first
    [ apply keeps_ret; assumption
    | apply keeps_raise; assumption
    | apply keeps_time; assumption
    | apply keeps_get_state; assumption
    | apply keeps_bind; [assumption| |intros ?]
    | apply keeps_try; [assumption| |intros ?]
    | match goal with
      | |- keeps _ (match ?x with _ => _ end) => destruct x
      | |- keeps _ (if ?b then _ else _) => destruct b
      | |- keeps _ (let _ := _ in _) => cbv zeta
      end ].

Section EngineKeeps.
Context {C : Type} `{CacheManager C}.
Variable self : Engine.
Variable R : EngineState C → EngineState C → Prop.
Hypothesis R_refl : ∀ s, R s s.
Hypothesis R_trans : ∀ s1 s2 s3, R s1 s2 → R s2 s3 → R s1 s3.
Hypothesis R_get : ∀ key, keeps R (cache_get key).
Hypothesis R_set : ∀ key r ttl, keeps R (cache_set key (RateDict r) ttl).
Hypothesis R_stats : ∀ f,
  (∀ st, summary_unchanged st (f st)) → keeps R (modify_stats f).

Lemma keeps_network_exchangerates base quote :
  keeps R (exchangerates_request base quote).
Proof. intros w n s. apply R_refl. Qed.

Lemma keeps_network_coinmarketcap sym convert :
  keeps R (coinmarketcap_request sym convert).
Proof. intros w n s. apply R_refl. Qed.

Lemma keeps_elapsed start : keeps R (elapsed_ms start).
Proof. unfold elapsed_ms. repeat keeps_step. Qed.

Lemma keeps_getitem d : keeps R (getitem_rate d).
Proof. unfold getitem_rate. repeat keeps_step. Qed.

Lemma keeps_fetch_exchangerates base quote :
  keeps R (_fetch_exchangerates_api self base quote).
Proof.
  unfold _fetch_exchangerates_api.
  repeat first
    [ apply keeps_network_exchangerates
    | keeps_step ].
Qed.

Lemma keeps_fetch_coinmarketcap base quote :
  keeps R (_fetch_coinmarketcap_api self base quote).
Proof.
  unfold _fetch_coinmarketcap_api.
  repeat first
    [ apply keeps_network_coinmarketcap
    | keeps_step ].
Qed.

Lemma keeps_counter (f : Stats → Stats) :
  (∀ st, summary_unchanged st (f st)) → keeps R (modify_stats f).
Proof. apply R_stats. Qed.

Lemma keeps_fetch_rate_data sym : keeps R (_fetch_rate_data self sym).
Proof.
  unfold _fetch_rate_data, unpack_pair.
  repeat first
    [ apply keeps_fetch_exchangerates
    | apply keeps_fetch_coinmarketcap
    | apply keeps_counter; intros st; by repeat case_match
    | keeps_step ].
Qed.

Lemma keeps_get_conversion_rate base quote :
  keeps R (_get_conversion_rate self base quote).
Proof.
  unfold _get_conversion_rate.
  repeat first
    [ apply R_get | apply R_set | apply keeps_getitem
    | apply keeps_fetch_rate_data
    | keeps_step ].
Qed.

Lemma keeps_direct base quote amount0 start :
  keeps R (_try_direct_conversion self base quote amount0 start).
Proof.
  unfold _try_direct_conversion.
  repeat first
    [ apply R_get | apply R_set | apply keeps_getitem
    | apply keeps_elapsed | apply keeps_fetch_rate_data
    | apply keeps_counter; intros st; done
    | keeps_step ].
Qed.

Lemma keeps_single_pivot_loop base quote amount0 start ps :
  keeps R (single_pivot_loop self base quote amount0 start ps).
Proof.
  induction ps as [|pivot ps IH]; simpl; [by apply keeps_ret|].
  unfold single_pivot_attempt, ConversionMethod_of_value.
  repeat first
    [ apply keeps_elapsed | apply keeps_get_conversion_rate
    | apply IH
    | keeps_step ].
Qed.

Lemma keeps_single_pivot base quote amount0 start :
  keeps R (_try_single_pivot_conversion self base quote amount0 start).
Proof.
  unfold _try_single_pivot_conversion.
  repeat first
    [ apply keeps_elapsed | apply keeps_single_pivot_loop
    | keeps_step ].
Qed.

Lemma keeps_double_pivot_loop base quote amount0 start combos :
  keeps R (double_pivot_loop self base quote amount0 start combos).
Proof.
  induction combos as [|[p1 p2] combos IH]; simpl; [by apply keeps_ret|].
  unfold double_pivot_attempt.
  repeat first
    [ apply keeps_elapsed | apply keeps_get_conversion_rate
    | apply IH
    | keeps_step ].
Qed.

Lemma keeps_double_pivot base quote amount0 start :
  keeps R (_try_double_pivot_conversion self base quote amount0 start).
Proof.
  unfold _try_double_pivot_conversion.
  repeat first
    [ apply keeps_elapsed | apply keeps_double_pivot_loop
    | keeps_step ].
Qed.

End EngineKeeps.

(** ** The estimated-rate table *)

Lemma dict_get_value key d v :
  dict_get key d = Some v → In v (map snd d).
Proof.
  induction d as [|[k x] d IH]; simpl; [done|].
  destruct (String.eqb k key); [intros [= ->]; by left|right; auto].
Qed.

Lemma mock_rates_keys_distinct : NoDup (map fst mock_rates).
Proof. apply (bool_decide_unpack _). vm_compute. reflexivity. Qed.

Lemma mock_values_positive :
  forallb positive_rate mock_values = true.
Proof. vm_compute. reflexivity. Qed.

Lemma mock_values_inverse_positive :
  forallb (λ v, match Py.div 1.0 v with
                | Some q => positive_rate q
                | None => false
                end) mock_values = true.
Proof. vm_compute. reflexivity. Qed.

Lemma mock_values_ratio_positive :
  forallb (λ b, forallb (λ q, positive_rate (b / q)%float) mock_values)
          mock_values = true.
Proof. vm_compute. reflexivity. Qed.

Section Estimate.
Context {C : Type} `{CacheManager C}.
Variable self : Engine.

(** The generator answers a positive rate for every pair of strings, and
    touches nothing. *)
Lemma estimated_rate_positive (base quote : string) w n (s : EngineState C) :
  ∃ r, _generate_estimated_rate self base quote w n s = (Ok (Some r), n, s) ∧
       positive_rate r = true.
Proof.
  unfold _generate_estimated_rate.
  destruct (dict_get (pair_name base quote) mock_rates) as [r|] eqn:Hdirect.
  { exists r. split; [done|]. apply dict_get_value in Hdirect.
    by apply (proj1 (forallb_forall _ _) mock_values_positive). }
  destruct (dict_get (pair_name quote base) mock_rates) as [r|] eqn:Hinv.
  { apply dict_get_value in Hinv.
    pose proof (proj1 (forallb_forall _ _) mock_values_inverse_positive
                  r Hinv) as Hpos.
    cbv beta in Hpos. unfold bind, checked_div, ret.
    destruct (Py.div 1.0 r) as [q|]; [|done]. by exists q. }
  cbv zeta.
  assert (∃ r,
    (if is_crypto self base && is_crypto self quote
     then ret (St := EngineState C) (Some 0.5%float)
     else if is_crypto self base then ret (Some 1000.0%float)
     else if is_crypto self quote then ret (Some 0.001%float)
     else ret (Some 1.0%float)) w n s = (Ok (Some r), n, s) ∧
    positive_rate r = true) as Hdefault.
  { destruct (is_crypto self base), (is_crypto self quote); cbn [andb];
      eexists; (split; [reflexivity|vm_compute; reflexivity]). }
  destruct (dict_get (base +:+ "/USD") mock_rates) as [b|] eqn:Hb; [|done].
  destruct (dict_get (quote +:+ "/USD") mock_rates) as [q|] eqn:Hq; [|done].
  destruct (Py.truthy b && Py.truthy q && Py.neqb q 0); [|done].
  exists (b / q)%float. split; [done|].
  apply dict_get_value in Hb, Hq.
  pose proof (proj1 (forallb_forall _ _) mock_values_ratio_positive b Hb)
    as Hrow. cbv beta in Hrow.
  by apply (proj1 (forallb_forall _ _) Hrow).
Qed.

End Estimate.

(** ** The statistics block *)

Section Statistics.
Context {C : Type} `{CacheManager C}.

(** What the block writes, for a result [r], when [total_conversions] is
    not zero: each flag adds one to its counter, and the mean latency is
    replaced by the running mean. *)
Lemma update_statistics_returns (r : ConversionResult) w n (s : EngineState C) :
  total_conversions (stats s) ≠ 0 →
  ∃ s',
    update_statistics r w n s = (Ok tt, n, s') ∧
    cache_manager s' = cache_manager s ∧
    total_conversions (stats s') = total_conversions (stats s) ∧
    successful_conversions (stats s')
      = successful_conversions (stats s)
        + (if bool_decide (rate r ≠ None) then 1 else 0) ∧
    cache_hits (stats s')
      = cache_hits (stats s) + (if cached r then 1 else 0) ∧
    fallback_uses (stats s')
      = fallback_uses (stats s)
        + (if bool_decide (method r = FALLBACK) then 1 else 0) ∧
    avg_latency (stats s')
      = ((avg_latency (stats s)
          * Py.float_of_Z (total_conversions (stats s) - 1) + latency_ms r)
         / Py.float_of_Z (total_conversions (stats s)))%float.
Proof.
  intros Hn. unfold update_statistics. unfold_monad. unfold Py.div_int.
  destruct (bool_decide (rate r ≠ None)), (cached r),
    (bool_decide (method r = FALLBACK)); cbn;
    (destruct (Z.eqb_spec (total_conversions (stats s)) 0) as [|_];
     [done|]);
    eexists; (split; [reflexivity|]); cbn; repeat split; lia.
Qed.

End Statistics.

(** ** Conversions never come back empty *)

Section NeverEmpty.
Context {C : Type} `{CacheManager C}.
Variable self : Engine.
Variable Inv : C → Prop.
Hypothesis contract : CacheContract Inv.

#[local] Abbreviation steady := (steady_under Inv).

Lemma steady_refl s : steady s s.
Proof. done. Qed.

Lemma steady_trans s1 s2 s3 : steady s1 s2 → steady s2 s3 → steady s1 s3.
Proof.
  unfold steady_under, summary_unchanged.
  intros [(? & ? & ? & ?) ?] [(? & ? & ? & ?) ?].
  repeat split; try congruence. auto.
Qed.

Lemma steady_get key : keeps steady (cache_get key).
Proof.
  intros w n s. unfold cache_get, zoom.
  destruct (cm_get key w n (cache_manager s)) as [[a n1] c1] eqn:Hget.
  split; [done|]. cbn. intros Hinv.
  destruct (contract_get Inv contract key w n _ Hinv)
    as (a' & n' & c' & Heq & Hinv' & _).
  rewrite Hget in Heq. by injection Heq as -> -> ->.
Qed.

Lemma steady_set key r ttl : keeps steady (cache_set key (RateDict r) ttl).
Proof.
  intros w n s. unfold cache_set, zoom.
  destruct (cm_set key (RateDict r) ttl w n (cache_manager s))
    as [[a n1] c1] eqn:Hset.
  split; [done|]. cbn. intros Hinv.
  destruct (contract_set Inv contract key r ttl w n _ Hinv)
    as (n' & c' & Heq & Hinv').
  rewrite Hset in Heq. by injection Heq as -> -> ->.
Qed.

Lemma steady_stats f :
  (∀ st, summary_unchanged st (f st)) → keeps steady (modify_stats f).
Proof. intros Hf w n s. split; [apply Hf|done]. Qed.

Lemma fallback_key_not_health_check base quote :
  fallback_key base quote ≠ "health_check".
Proof. done. Qed.

(** Under the contract the fallback strategy always returns a rate, with
    confidence 0.3 (a cached estimate) or 0.2 (a fresh one). *)
Lemma fallback_returns base quote amount0 start w n (s : EngineState C) :
  Inv (cache_manager s) →
  ∃ r n' s',
    _fallback_conversion self base quote amount0 start w n s = (Ok r, n', s') ∧
    is_Some (rate r) ∧
    (confidence r = 0.3%float ∨ confidence r = 0.2%float) ∧
    error r ≠ Some "No conversion method available" ∧
    stats s' = stats s.
Proof.
  intros Hinv. unfold _fallback_conversion. cbv zeta.
  unfold bind at 1. unfold cache_get at 1, zoom.
  destruct (contract_get Inv contract (fallback_key base quote) w n _ Hinv)
    as (a & n1 & c1 & -> & Hinv1 & Htest).
  destruct a as [[r|]|].
  - unfold_monad. eexists _, _, _. split; [reflexivity|]. cbn. eauto 10.
  - destruct (fallback_key_not_health_check base quote (Htest eq_refl)).
  - unfold bind at 1.
    destruct (estimated_rate_positive self base quote w n1
                {| cache_manager := c1; stats := stats s |})
      as (r & -> & Hpos).
    apply andb_true_iff in Hpos as [_ ->].
    unfold bind at 1. unfold cache_set at 1, zoom. cbn [cache_manager stats].
    destruct (contract_set Inv contract (fallback_key base quote) r 3600
                w n1 c1 Hinv1) as (n2 & c2 & -> & Hinv2).
    unfold_monad. eexists _, _, _. split; [reflexivity|]. cbn.
    split; [eauto|]. split; [eauto|]. done.
Qed.

(** A strategy that returned a rate returned it with its own
    confidence. *)
Lemma direct_confidence base quote amount0 start w n (s : EngineState C)
    r n' s' :
  _try_direct_conversion self base quote amount0 start w n s = (Ok r, n', s') →
  rate r ≠ None → confidence r = 1.0%float.
Proof.
  unfold _try_direct_conversion. unfold_monad. intros Hrun. split_cases.
Qed.

Lemma single_pivot_confidence base quote amount0 start w n
    (s : EngineState C) r n' s' :
  _try_single_pivot_conversion self base quote amount0 start w n s
    = (Ok r, n', s') →
  rate r ≠ None → confidence r = 0.8%float.
Proof.
  unfold _try_single_pivot_conversion. unfold bind at 1.
  destruct (single_pivot_loop self base quote amount0 start pivots w n s)
    as [[[[r1|]|e] n1] s1] eqn:Hloop; [| |done].
  - unfold ret. intros [= -> -> ->] _.
    by apply single_pivot_loop_shape in Hloop as (_ & _ & Hconf & _).
  - unfold_monad. by intros [= <- <- <-].
Qed.

Lemma double_pivot_confidence base quote amount0 start w n
    (s : EngineState C) r n' s' :
  _try_double_pivot_conversion self base quote amount0 start w n s
    = (Ok r, n', s') →
  rate r ≠ None → confidence r = 0.6%float.
Proof.
  intros Hrun Hrate. apply double_pivot_cases in Hrun
    as [(_ & Hr & _)|[(_ & Hr & _)|(_ & Hs)]]; [done|done|].
  by destruct Hs as (_ & _ & Hconf & _).
Qed.

(** C10. For every pair of symbols, in or out of the asset sets and
    distinct or not, and a cache manager that keeps its contract,
    [convert] returns a result whose rate is present and whose confidence
    is at least 0.2: the estimated-rate generator answers a positive rate
    for every pair of strings, so the fallback strategy never ends in "No
    conversion method available".  The counter [total_conversions] counts
    calls, so it is not negative. *)
Theorem convert_never_empty (base quote : string) (amount0 : float)
    (w : World) (n : nat) (s : EngineState C) :
  Inv (cache_manager s) →
  0 ≤ total_conversions (stats s) →
  (∀ b q w1 n1 (s1 : EngineState C),
     ∃ r, _generate_estimated_rate self b q w1 n1 s1 = (Ok (Some r), n1, s1) ∧
          PrimFloat.ltb 0%float r = true) ∧
  (∀ b q start w1 n1 (s1 : EngineState C),
     Inv (cache_manager s1) →
     ∃ r n' s',
       _fallback_conversion self b q amount0 start w1 n1 s1 = (Ok r, n', s') ∧
       is_Some (rate r) ∧
       error r ≠ Some "No conversion method available") ∧
  ∃ r n' s',
    convert self base quote amount0 w n s = (Ok r, n', s') ∧
    is_Some (rate r) ∧
    PrimFloat.leb 0.2%float (confidence r) = true.
Proof.
  intros Hinv Htotal. split; [|split].
  { intros b q w1 n1 s1.
    destruct (estimated_rate_positive self b q w1 n1 s1) as (r & Hr & Hpos).
    exists r. split; [done|]. by apply andb_true_iff in Hpos as [-> _]. }
  { intros b q start w1 n1 s1 Hinv1.
    destruct (fallback_returns b q amount0 start w1 n1 s1 Hinv1)
      as (r & n' & s' & Hrun & Hrate & _ & Herr & _). eauto 10. }
  destruct (decide (Py.upper base = Py.upper quote)) as [Heq|Hne].
  { rewrite (convert_same_symbol self _ _ _ _ _ _ Heq).
    eexists _, _, _. split; [reflexivity|]. cbn. eauto. }
  set (s0 := {| cache_manager := cache_manager s;
                stats := upd_total_conversions (λ k, k + 1) (stats s) |}).
  destruct (convert_cases self base quote amount0 w n s _ Hne eq_refl)
    as (r1 & n1 & s1 & H1 & Hc1). fold s0 in H1.
  pose proof (keeps_direct self steady steady_refl steady_trans steady_get
                steady_set steady_stats (Py.upper base) (Py.upper quote)
                amount0 (clock w n) w (S n) s0) as K1.
  rewrite H1 in K1. cbn [snd] in K1.
  destruct Hc1 as [[Hr1 ->]|[Hr1 (r2 & n2 & s2 & H2 & Hc2)]].
  { exists r1, n1, s1. split; [done|].
    rewrite (direct_confidence _ _ _ _ _ _ _ _ _ _ H1 Hr1).
    split; [by destruct (rate r1)|done]. }
  pose proof (keeps_single_pivot self steady steady_refl steady_trans
                steady_get steady_set steady_stats (Py.upper base)
                (Py.upper quote) amount0 (clock w n) w n1 s1) as K2.
  rewrite H2 in K2. cbn [snd] in K2.
  destruct Hc2 as [[Hr2 ->]|[Hr2 (r3 & n3 & s3 & H3 & Hc3)]].
  { exists r2, n2, s2. split; [done|].
    rewrite (single_pivot_confidence _ _ _ _ _ _ _ _ _ _ H2 Hr2).
    split; [by destruct (rate r2)|done]. }
  pose proof (keeps_double_pivot self steady steady_refl steady_trans
                steady_get steady_set steady_stats (Py.upper base)
                (Py.upper quote) amount0 (clock w n) w n2 s2) as K3.
  rewrite H3 in K3. cbn [snd] in K3.
  pose proof (steady_trans _ _ _ (steady_trans _ _ _ K1 K2) K3)
    as [(Ht & _) Hinv3].
  destruct Hc3 as [[Hr3 ->]|[Hr3 Hout]].
  { exists r3, n3, s3. split; [done|].
    rewrite (double_pivot_confidence _ _ _ _ _ _ _ _ _ _ H3 Hr3).
    split; [by destruct (rate r3)|done]. }
  destruct (fallback_returns (Py.upper base) (Py.upper quote) amount0
              (clock w n) w n3 s3 (Hinv3 Hinv))
    as (r4 & n4 & s4 & H4 & Hrate & Hconf & _ & Hstats).
  unfold bind at 1 in Hout. rewrite H4 in Hout.
  destruct (update_statistics_returns r4 w n4 s4) as (s5 & H5 & _).
  { rewrite Hstats, Ht. cbn. lia. }
  unfold bind at 1 in Hout. rewrite H5 in Hout. unfold ret in Hout.
  exists r4, n4, s5. split; [done|]. split; [done|].
  by destruct Hconf as [-> | ->].
Qed.

End NeverEmpty.

(** ** The two cache managers keep the contract *)

Lemma mock_cache_contract :
  CacheContract (H := MockCacheManager_instance) mock_cache_ok.
Proof.
  split.
  - intros key w n c Hok. exists (c !! key), n, c.
    split; [done|]. split; [done|]. apply Hok.
  - intros key r ttl w n c Hok. exists n, (<[key := RateDict r]> c).
    split; [done|]. intros k. rewrite lookup_insert.
    case_decide; [done|apply Hok].
Qed.

Lemma fast_cache_ok_init : fast_cache_ok FastCacheManager.init.
Proof. split; intros key; cbn; rewrite lookup_empty; [by intros [? ?]|done]. Qed.

Lemma fast_cache_ok_delete key c :
  fast_cache_ok c →
  fast_cache_ok {| fc_cache := delete key (fc_cache c);
                   fc_timestamps := delete key (fc_timestamps c) |}.
Proof.
  intros [Hts Htest]. split; intros k; cbn; rewrite !lookup_delete;
    case_decide; first [done|by intros [? ?]|apply Hts|apply Htest].
Qed.

Lemma fast_cache_ok_insert key r now c :
  fast_cache_ok c →
  fast_cache_ok {| fc_cache := <[key := RateDict r]> (fc_cache c);
                   fc_timestamps := <[key := now]> (fc_timestamps c) |}.
Proof.
  intros [Hts Htest]. split; intros k; cbn; rewrite !lookup_insert;
    case_decide; first [done|apply Hts|apply Htest].
Qed.

Lemma fast_cache_ok_cleanup (expired_keys : gmap string float) c :
  fast_cache_ok c →
  fast_cache_ok
    {| fc_cache := filter (λ kv, expired_keys !! kv.1 = None) (fc_cache c);
       fc_timestamps :=
         filter (λ kv, expired_keys !! kv.1 = None) (fc_timestamps c) |}.
Proof.
  intros [Hts Htest]. split; intros k; cbn.
  - intros [v Hv]. apply map_lookup_filter_Some in Hv as [Hv Hk].
    destruct (Hts k) as [ts Hk']; [by eexists|].
    exists ts. by apply map_lookup_filter_Some.
  - intros Hv. apply map_lookup_filter_Some in Hv as [Hv _]. by apply Htest.
Qed.

Lemma fast_cache_contract (CACHE_TTL : Z) :
  CacheContract (H := FastCacheManager_instance CACHE_TTL) fast_cache_ok.
Proof.
  split.
  - intros key w n c Hok. cbn. unfold FastCacheManager.get. unfold_monad.
    destruct (fc_cache c !! key) as [v|] eqn:Hv.
    + destruct (proj1 Hok key) as [ts Hts]; [by rewrite Hv|]. rewrite Hts.
      destruct (PrimFloat.ltb _ _).
      * eexists _, _, _. split; [done|]. split; [done|].
        intros [= ->]. by apply (proj2 Hok).
      * eexists _, _, _. split; [done|].
        split; [by apply fast_cache_ok_delete|done].
    + eexists _, _, _. split; [done|]. split; [done|]. done.
  - intros key r ttl w n c Hok. cbn. unfold FastCacheManager.set.
    unfold FastCacheManager._cleanup_expired. unfold_monad. cbn.
    destruct (_ =? 0).
    + eexists _, _. split; [done|].
      apply fast_cache_ok_cleanup. by apply fast_cache_ok_insert.
    + eexists _, _. split; [done|]. by apply fast_cache_ok_insert.
Qed.

Lemma convert_never_empty_witness :
  (∀ b q w1 n1 (s1 : EngineState FastCache),
     ∃ r, _generate_estimated_rate production_engine b q w1 n1 s1
            = (Ok (Some r), n1, s1) ∧
          PrimFloat.ltb 0%float r = true) ∧
  (∀ b q start w1 n1 (s1 : EngineState FastCache),
     fast_cache_ok (cache_manager s1) →
     ∃ r n' s',
       _fallback_conversion (H := FastCacheManager_instance 300)
         production_engine b q 1%float start w1 n1 s1 = (Ok r, n', s') ∧
       is_Some (rate r) ∧
       error r ≠ Some "No conversion method available") ∧
  ∃ r n' s',
    convert (H := FastCacheManager_instance 300) production_engine
      "BTC" "XYZ" 1%float offline_world 0%nat production_state
      = (Ok r, n', s') ∧
    is_Some (rate r) ∧
    PrimFloat.leb 0.2%float (confidence r) = true.
Proof.
  apply (convert_never_empty (H := FastCacheManager_instance 300)
           production_engine fast_cache_ok (fast_cache_contract 300)
           "BTC" "XYZ" 1%float offline_world 0%nat production_state).
  - apply fast_cache_ok_init.
  - vm_compute. discriminate.
Defined.

(** ** Which conversions reach the statistics block *)

Section EarlyReturns.
Context {C : Type} `{CacheManager C}.
Variable self : Engine.

Lemma same_summary_refl (s : EngineState C) : same_summary s s.
Proof. done. Qed.

Lemma same_summary_trans (s1 s2 s3 : EngineState C) :
  same_summary s1 s2 → same_summary s2 s3 → same_summary s1 s3.
Proof.
  unfold same_summary, summary_unchanged.
  intros (? & ? & ? & ?) (? & ? & ? & ?). repeat split; congruence.
Qed.

Lemma same_summary_get key : keeps same_summary (cache_get (C := C) key).
Proof.
  intros w n s. unfold cache_get, zoom.
  by destruct (cm_get key w n (cache_manager s)) as [[a n1] c1].
Qed.

Lemma same_summary_set key r ttl :
  keeps same_summary (cache_set (C := C) key (RateDict r) ttl).
Proof.
  intros w n s. unfold cache_set, zoom.
  by destruct (cm_set key (RateDict r) ttl w n (cache_manager s))
    as [[a n1] c1].
Qed.

Lemma same_summary_stats f :
  (∀ st, summary_unchanged st (f st)) →
  keeps same_summary (modify_stats (C := C) f).
Proof. intros Hf w n s. apply Hf. Qed.

Lemma fallback_confidence base quote amount0 start w n (s : EngineState C)
    r n' s' :
  _fallback_conversion self base quote amount0 start w n s = (Ok r, n', s') →
  confidence r = 0.3%float ∨ confidence r = 0.2%float ∨
  confidence r = 0.0%float.
Proof.
  unfold _fallback_conversion. unfold bind at 1.
  destruct (cache_get _ w n s) as [[[o|e] n1] s1]; [|intros [=]].
  destruct o as [d|].
  - unfold_monad. intros Hrun. split_cases; auto.
  - unfold bind at 1.
    destruct (_generate_estimated_rate self base quote w n1 s1)
      as [[[o|e] n2] s2]; [|intros [=]].
    unfold_monad. intros Hrun. split_cases; auto.
Qed.

(** A conversion answered before the fallback strategy (confidence 0.6 or
    more) has a rate and leaves [successful_conversions], [fallback_uses]
    and [avg_latency] as they were: only the fallback strategy is
    followed by the statistics block. *)
Lemma early_return_skips_statistics base quote amount0 w n
    (s : EngineState C) r n' s' :
  convert self base quote amount0 w n s = (Ok r, n', s') →
  PrimFloat.leb 0.6%float (confidence r) = true →
  is_Some (rate r) ∧
  total_conversions (stats s') = total_conversions (stats s) + 1 ∧
  successful_conversions (stats s') = successful_conversions (stats s) ∧
  fallback_uses (stats s') = fallback_uses (stats s) ∧
  avg_latency (stats s') = avg_latency (stats s).
Proof.
  intros Hrun Hconf.
  destruct (decide (Py.upper base = Py.upper quote)) as [Heq|Hne].
  { rewrite (convert_same_symbol self _ _ _ _ _ _ Heq) in Hrun.
    injection Hrun as <- <- <-. cbn. eauto 10. }
  set (s0 := {| cache_manager := cache_manager s;
                stats := upd_total_conversions (λ k, k + 1) (stats s) |}).
  destruct (convert_cases self base quote amount0 w n s _ Hne Hrun)
    as (r1 & n1 & s1 & H1 & Hc1). fold s0 in H1.
  pose proof (keeps_direct self same_summary same_summary_refl
                same_summary_trans same_summary_get same_summary_set
                same_summary_stats (Py.upper base) (Py.upper quote)
                amount0 (clock w n) w (S n) s0) as K1.
  rewrite H1 in K1. cbn [snd] in K1.
  destruct Hc1 as [[Hr1 [= <- <- <-]]|[Hr1 (r2 & n2 & s2 & H2 & Hc2)]].
  { destruct K1 as (Ht & Hs & Hf & Ha). subst s0. cbn in Ht, Hs, Hf, Ha.
    rewrite Ht, Hs, Hf, Ha. split; [|done].
    match goal with Hr : rate ?x ≠ None |- _ => by destruct (rate x) end. }
  pose proof (keeps_single_pivot self same_summary same_summary_refl
                same_summary_trans same_summary_get same_summary_set
                same_summary_stats (Py.upper base) (Py.upper quote)
                amount0 (clock w n) w n1 s1) as K2.
  rewrite H2 in K2. cbn [snd] in K2.
  pose proof (same_summary_trans _ _ _ K1 K2) as K12.
  destruct Hc2 as [[Hr2 [= <- <- <-]]|[Hr2 (r3 & n3 & s3 & H3 & Hc3)]].
  { destruct K12 as (Ht & Hs & Hf & Ha). subst s0. cbn in Ht, Hs, Hf, Ha.
    rewrite Ht, Hs, Hf, Ha. split; [|done].
    match goal with Hr : rate ?x ≠ None |- _ => by destruct (rate x) end. }
  pose proof (keeps_double_pivot self same_summary same_summary_refl
                same_summary_trans same_summary_get same_summary_set
                same_summary_stats (Py.upper base) (Py.upper quote)
                amount0 (clock w n) w n2 s2) as K3.
  rewrite H3 in K3. cbn [snd] in K3.
  pose proof (same_summary_trans _ _ _ K12 K3) as K123.
  destruct Hc3 as [[Hr3 [= <- <- <-]]|[Hr3 Hout]].
  { destruct K123 as (Ht & Hs & Hf & Ha). subst s0. cbn in Ht, Hs, Hf, Ha.
    rewrite Ht, Hs, Hf, Ha. split; [|done].
    match goal with Hr : rate ?x ≠ None |- _ => by destruct (rate x) end. }
  unfold bind at 1 in Hout.
  destruct (_fallback_conversion self _ _ amount0 _ w n3 s3)
    as [[[r4|e] n4] s4] eqn:H4; [|done].
  unfold bind at 1 in Hout.
  destruct (update_statistics r4 w n4 s4) as [[[u|e] n5] s5]; [|done].
  unfold ret in Hout. injection Hout as -> _ _.
  apply fallback_confidence in H4 as [Hc|[Hc|Hc]];
    rewrite Hc in Hconf; vm_compute in Hconf; discriminate.
Qed.

End EarlyReturns.

(** C1, at a failing input. A fresh production engine converts BTC to
    USD through the direct strategy: the result has a rate and a latency
    of 3000 ms, [total_conversions] becomes 1, and [convert] returns
    before its statistics block, so [successful_conversions] stays 0 and
    [avg_latency] stays 0.0 where the running mean would be 3000. *)
Theorem direct_success_not_counted :
  ∃ r n' s',
    convert (H := FastCacheManager_instance 300) production_engine
      "BTC" "USD" 2%float btc_usd_world 0%nat production_state
      = (Ok r, n', s') ∧
    rate r = Some 63000%float ∧ method r = DIRECT ∧
    latency_ms r = 3000%float ∧
    total_conversions (stats s') = 1 ∧
    successful_conversions (stats s') = 0 ∧
    avg_latency (stats s') = 0%float ∧
    ((avg_latency (stats production_state) * Py.float_of_Z (1 - 1)
      + latency_ms r) / Py.float_of_Z 1)%float = 3000%float.
Proof.
  eexists _, _, _. split; [vm_compute; reflexivity|].
  cbn [rate method latency_ms stats total_conversions
       successful_conversions avg_latency].
  repeat split; vm_compute; reflexivity.
Qed.

(** ** Health check *)

(** C9, at two failing inputs. With [CACHE_TTL_SECONDS=0] every entry is
    stale as soon as it is written, and with the default 300 seconds so
    is an entry read back 400 seconds later: the probe's read-back
    finds nothing, [cache_manager] is reported as failed, and yet no
    issue is recorded and the overall status is "healthy". *)
Theorem health_check_misses_failed_cache :
  (∃ h n' s',
     health_check (H := FastCacheManager_instance 0) production_engine
       offline_world 0%nat production_state = (Ok h, n', s') ∧
     cache_manager_status h = Failed ∧
     issues h = [] ∧ status h = "healthy") ∧
  (∃ h n' s',
     health_check (H := FastCacheManager_instance 300) production_engine
       (stepped_world 400) 0%nat production_state = (Ok h, n', s') ∧
     cache_manager_status h = Failed ∧
     issues h = [] ∧ status h = "healthy").
Proof.
  split; eexists _, _, _; (split; [vm_compute; reflexivity|]); done.
Qed.

(** ** Two calls in a row *)

(** Whatever lies below 60 lies below everything that 60 does not
    exceed: the comparison of two floats is that of their signs,
    exponents and mantissas. *)
Lemma Prim2SF_60 :
  Prim2SF 60%float = S754_finite false 8444249301319680 (-47).
Proof. vm_compute. reflexivity. Qed.

Lemma SF_below_trans (a b : spec_float) (m60 : positive) (e60 : Z) :
  SFltb a (S754_finite false m60 e60) = true →
  SFleb (S754_finite false m60 e60) b = true →
  SFltb a b = true ∧ SFleb b a = false.
Proof.
  unfold SFltb, SFleb, SFcompare.
  destruct a as [sa|sa| |sa ma ea], b as [sb|sb| |sb mb eb];
    try destruct sa; try destruct sb;
    try (intros; discriminate); try (intros; split; reflexivity).
  change (PosDef.Pos.compare_cont Eq) with Pos.compare.
  destruct (Z.compare_spec ea e60) as [->|Ha|Ha];
    destruct (Z.compare_spec e60 eb) as [<-|Hb|Hb];
    try (intros; discriminate).
  - rewrite Z.compare_refl.
    destruct (Pos.compare_spec ma m60) as [Hma|Hma|Hma];
      [intros; discriminate| |intros; discriminate].
    destruct (Pos.compare_spec m60 mb) as [Hmb|Hmb|Hmb];
      [| |intros; discriminate]; intros _ _.
    + rewrite (proj2 (Pos.compare_lt_iff ma mb)) by lia.
      rewrite (proj2 (Pos.compare_gt_iff mb ma)) by lia. done.
    + rewrite (proj2 (Pos.compare_lt_iff ma mb)) by lia.
      rewrite (proj2 (Pos.compare_gt_iff mb ma)) by lia. done.
  - intros _ _.
    rewrite (proj2 (Z.compare_gt_iff eb e60)) by lia. done.
  - intros _ _.
    rewrite (proj2 (Z.compare_lt_iff ea e60)) by lia.
    rewrite (proj2 (Z.compare_gt_iff e60 ea)) by lia. done.
  - intros _ _.
    rewrite (proj2 (Z.compare_lt_iff ea eb)) by lia.
    rewrite (proj2 (Z.compare_gt_iff eb ea)) by lia. done.
Qed.

Lemma float_below_60 (x y : float) :
  PrimFloat.ltb x 60%float = true →
  PrimFloat.leb 60%float y = true →
  PrimFloat.ltb x y = true ∧ PrimFloat.leb y x = false.
Proof.
  rewrite !ltb_spec, !leb_spec, Prim2SF_60. apply SF_below_trans.
Qed.

Lemma within_window_spec (w : World) (first last m1 m2 : nat) :
  within_window w first last = true →
  (first ≤ m1)%nat → (m1 ≤ m2)%nat → (m2 ≤ last)%nat →
  PrimFloat.ltb (clock w m2 - clock w m1)%float 60%float = true.
Proof.
  unfold within_window. intros Hall H1 H2 H3.
  assert (In m1 (seq first (S last - first))) as Hin1 by (apply in_seq; lia).
  pose proof (proj1 (forallb_forall _ _) Hall m1 Hin1) as Hrow.
  cbv beta in Hrow.
  apply (proj1 (forallb_forall _ _) Hrow m2). apply in_seq. lia.
Qed.

(** ** What a look-up and a write of the in-memory cache tell *)

Lemma fast_get_cases (CACHE_TTL : Z) key w n (c : FastCache) answer n' c' :
  FastCacheManager.get CACHE_TTL key w n c = (Ok answer, n', c') →
  (n ≤ n')%nat ∧
  ∀ v, answer = Some v →
       n' = S n ∧ c' = c ∧ fc_cache c !! key = Some v ∧
       ∃ ts, fc_timestamps c !! key = Some ts.
Proof.
  unfold FastCacheManager.get. unfold_monad.
  destruct (fc_cache c !! key) as [v0|] eqn:Hv.
  - destruct (fc_timestamps c !! key) as [ts|] eqn:Hts; [|by intros [=]].
    destruct (PrimFloat.ltb _ _).
    + intros [= <- <- <-]. split; [lia|]. intros v [= <-]. eauto.
    + intros [= <- <- <-]. split; [lia|]. by intros v [=].
  - intros [= <- <- <-]. split; [lia|]. by intros v [=].
Qed.

Lemma fast_set_cases (CACHE_TTL : Z) key v ttl w n (c : FastCache) :
  ∃ n' c',
    FastCacheManager.set CACHE_TTL key v ttl w n c = (Ok tt, n', c') ∧
    (S n ≤ n')%nat ∧
    (FastCacheManager.expired CACHE_TTL (clock w (S n)) (clock w n) = false →
     fc_cache c' !! key = Some v ∧
     fc_timestamps c' !! key = Some (clock w n)).
Proof.
  unfold FastCacheManager.set, FastCacheManager._cleanup_expired.
  unfold_monad. cbn [fc_cache fc_timestamps]. destruct (_ =? 0).
  - eexists _, _. split; [done|]. split; [lia|]. intros Hclean.
    cbn [fc_cache fc_timestamps].
    assert (filter (λ kts : string * float,
                      FastCacheManager.expired CACHE_TTL (clock w (S n))
                        kts.2 = true)
                   (<[key := clock w n]> (fc_timestamps c)) !! key = None)
      as Hkept.
    { apply map_lookup_filter_None. right. intros ts.
      rewrite lookup_insert_eq. intros [= <-]. cbn [snd]. by rewrite Hclean. }
    split; apply map_lookup_filter_Some; by rewrite lookup_insert_eq.
  - eexists _, _. split; [done|]. split; [lia|]. intros _.
    cbn [fc_cache fc_timestamps]. by rewrite !lookup_insert_eq.
Qed.

Lemma fetch_counter_grows {C : Type} (self : Engine) sym w n
    (s : EngineState C) :
  (n ≤ (_fetch_rate_data self sym w n s).1.2)%nat.
Proof.
  unfold _fetch_rate_data, unpack_pair, _fetch_exchangerates_api,
    _fetch_coinmarketcap_api, exchangerates_request, coinmarketcap_request.
  unfold_monad. unfold modify.
  repeat (case_match; simplify_eq/=; try lia).
Qed.

Section TwoCallsInWindow.
Variable CACHE_TTL : Z.
Variable self : Engine.

(** A direct conversion that returned a rate leaves the rate under the
    pair's direct key, with a timestamp that is still inside [CACHE_TTL]
    at the next reading after it: either it found the entry, or it stored
    the provider's rate itself. *)
Lemma direct_success_leaves_entry base quote amount0 start w n
    (s : EngineState FastCache) r1 n1 s1 :
  PrimFloat.leb 60%float (Py.float_of_Z CACHE_TTL) = true →
  _try_direct_conversion (H := FastCacheManager_instance CACHE_TTL) self
    base quote amount0 start w n s = (Ok r1, n1, s1) →
  rate r1 ≠ None →
  within_window w n (S n1) = true →
  (cached r1 = true →
   entry_within_window w (S n1) (direct_key base quote) (cache_manager s)
   = true) →
  ∃ r ts,
    fc_cache (cache_manager s1) !! direct_key base quote = Some (RateDict r) ∧
    fc_timestamps (cache_manager s1) !! direct_key base quote = Some ts ∧
    rate r1 = Some r ∧
    PrimFloat.ltb (clock w (S n1) - ts)%float (Py.float_of_Z CACHE_TTL)
    = true.
Proof.
  intros window_fits.
  unfold _try_direct_conversion, try_except. cbv zeta.
  unfold bind at 1. unfold bind at 1. unfold cache_get at 1, zoom.
  cbn [cm_get FastCacheManager_instance].
  destruct (FastCacheManager.get CACHE_TTL (direct_key base quote) w n
              (cache_manager s)) as [[[[v|]|e] ng] cg] eqn:Hget.
  - apply fast_get_cases in Hget as [_ Hfound].
    destruct (Hfound v eq_refl) as (-> & -> & Hv & ts & Hts).
    destruct v as [r|].
    + unfold_monad. intros [= <- <- <-] _ Hwin Hold.
      cbn [cache_manager stats rate cached] in *.
      exists r, ts. split; [done|]. split; [done|]. split; [done|].
      specialize (Hold eq_refl). unfold entry_within_window in Hold.
      rewrite Hts in Hold.
      by apply (float_below_60 _ _ Hold window_fits).
    + unfold_monad. by intros [= <- <- <-] Hrate.
  - apply fast_get_cases in Hget as [Hng _].
    unfold bind at 1.
    pose proof (fetch_counter_grows self (pair_name base quote) w ng
                  {| cache_manager := cg; stats := stats s |}) as Hnf.
    destruct (_fetch_rate_data self (pair_name base quote) w ng
                {| cache_manager := cg; stats := stats s |})
      as [[[[d|]|e] nf] sf]; cbn [fst snd] in Hnf.
    + destruct (Py.truthy (close d)).
      * unfold bind at 1. unfold cache_set at 1, zoom.
        cbn [cm_set FastCacheManager_instance].
        destruct (fast_set_cases CACHE_TTL (direct_key base quote)
                    (RateDict (close d)) 60 w nf (cache_manager sf))
          as (n2 & c2 & -> & Hn2 & Hstored).
        unfold_monad. intros [= <- <- <-] _ Hwin _.
        cbn [cache_manager stats rate].
        destruct Hstored as [Hv Hts].
        { apply (float_below_60 _ _
                   (within_window_spec w n (S (S n2)) nf (S nf) Hwin
                      ltac:(lia) ltac:(lia) ltac:(lia)) window_fits). }
        exists (close d), (clock w nf).
        split; [done|]. split; [done|]. split; [done|].
        apply (float_below_60 _ _
                 (within_window_spec w n (S (S n2)) nf (S (S n2)) Hwin
                    ltac:(lia) ltac:(lia) ltac:(lia)) window_fits).
      * unfold_monad. by intros [= <- <- <-] Hrate.
    + unfold_monad. by intros [= <- <- <-] Hrate.
    + unfold_monad. by intros [= <- <- <-] Hrate.
  - unfold_monad. by intros [= <- <- <-] Hrate.
Qed.

(** A rate under the pair's direct key that is younger than [CACHE_TTL]
    at the look-up is what the next call returns, marked cached, after
    three clock readings and with the cache as it was. *)
Lemma fresh_entry_is_served base quote amount0 w n
    (s : EngineState FastCache) r ts :
  Py.upper base ≠ Py.upper quote →
  fc_cache (cache_manager s) !! direct_key (Py.upper base) (Py.upper quote)
    = Some (RateDict r) →
  fc_timestamps (cache_manager s)
    !! direct_key (Py.upper base) (Py.upper quote) = Some ts →
  PrimFloat.ltb (clock w (S n) - ts)%float (Py.float_of_Z CACHE_TTL) = true →
  ∃ r2 s2,
    convert (H := FastCacheManager_instance CACHE_TTL) self base quote amount0
      w n s = (Ok r2, S (S (S n)), s2) ∧
    rate r2 = Some r ∧ cached r2 = true ∧
    cache_manager s2 = cache_manager s.
Proof.
  intros Hne Hv Hts Hfresh.
  unfold convert, _try_direct_conversion. unfold_monad.
  cbn [cm_get cm_set FastCacheManager_instance].
  unfold FastCacheManager.get. unfold_monad. cbn [cache_manager stats].
  destruct (String.eqb_spec (Py.upper base) (Py.upper quote)) as [|_];
    [done|].
  cbv zeta. cbn [cache_manager stats]. rewrite Hv, Hts. cbv beta iota.
  rewrite Hfresh. cbn.
  eexists _, _. split; [reflexivity|]. cbn. eauto.
Qed.

(** A result of [convert] for two different symbols with confidence 1.0
    is the result of the direct strategy. *)
Lemma confident_result_is_direct base quote amount0 w n
    (s : EngineState FastCache) r1 n1 s1 :
  Py.upper base ≠ Py.upper quote →
  convert (H := FastCacheManager_instance CACHE_TTL) self base quote amount0
    w n s = (Ok r1, n1, s1) →
  confidence r1 = 1.0%float →
  _try_direct_conversion (H := FastCacheManager_instance CACHE_TTL) self
    (Py.upper base) (Py.upper quote) amount0 (clock w n) w (S n)
    {| cache_manager := cache_manager s;
       stats := upd_total_conversions (λ k, k + 1) (stats s) |}
  = (Ok r1, n1, s1) ∧ rate r1 ≠ None.
Proof.
  intros Hne Hrun Hconf.
  destruct (convert_cases self base quote amount0 w n s _ Hne Hrun)
    as (x1 & m1 & t1 & H1 & Hc1).
  destruct Hc1 as [[Hx1 [= <- <- <-]]|[_ (x2 & m2 & t2 & H2 & Hc2)]];
    [done|].
  exfalso.
  destruct Hc2 as [[Hx2 [= <- <- <-]]|[_ (x3 & m3 & t3 & H3 & Hc3)]].
  { rewrite (single_pivot_confidence _ _ _ _ _ _ _ _ _ _ _ H2 Hx2) in Hconf.
    by float_differs Hconf. }
  destruct Hc3 as [[Hx3 [= <- <- <-]]|[_ Hout]].
  { rewrite (double_pivot_confidence _ _ _ _ _ _ _ _ _ _ _ H3 Hx3) in Hconf.
    by float_differs Hconf. }
  unfold bind at 1 in Hout.
  destruct (_fallback_conversion self _ _ amount0 _ w m3 t3)
    as [[[x4|e] m4] t4] eqn:H4; [|done].
  unfold bind at 1 in Hout.
  destruct (update_statistics x4 w m4 t4) as [[[u|e] m5] t5]; [|done].
  unfold ret in Hout. injection Hout as <- _ _.
  apply fallback_confidence in H4 as [Hc|[Hc|Hc]];
    rewrite Hc in Hconf; by float_differs Hconf.
Qed.

(** C8, as the code has it. For two different symbols, on the in-memory
    cache with a [CACHE_TTL] of at least 60 seconds (it is 300 by
    default): when [convert] is answered by the direct strategy
    (confidence 1.0), a second call made right after it inside the
    60-second window returns the same rate with [cached = true], after
    three clock readings and no upstream request.  The window is that any
    two clock readings from the start of the first call to the second
    call's look-up are less than 60 seconds apart, and, when the first
    call was itself served from the cache, that the entry it found is
    less than 60 seconds old at the second call's look-up.  Nothing is
    assumed about what the cache holds: the entry is there because the
    first call found it or wrote it. *)
Theorem convert_twice_direct (base quote : string) (amount0 : float)
    (w : World) (n : nat) (s : EngineState FastCache)
    (r1 : ConversionResult) (n1 : nat) (s1 : EngineState FastCache) :
  Py.upper base ≠ Py.upper quote →
  PrimFloat.leb 60%float (Py.float_of_Z CACHE_TTL) = true →
  convert (H := FastCacheManager_instance CACHE_TTL) self base quote amount0
    w n s = (Ok r1, n1, s1) →
  confidence r1 = 1.0%float →
  within_window w n (S n1) = true →
  (cached r1 = true →
   entry_within_window w (S n1)
     (direct_key (Py.upper base) (Py.upper quote)) (cache_manager s) = true) →
  ∃ r2 s2,
    convert (H := FastCacheManager_instance CACHE_TTL) self base quote amount0
      w n1 s1 = (Ok r2, S (S (S n1)), s2) ∧
    is_Some (rate r2) ∧ rate r2 = rate r1 ∧ cached r2 = true ∧
    cache_manager s2 = cache_manager s1.
Proof.
  intros Hne Hfits Hrun Hconf Hwin Hold.
  destruct (confident_result_is_direct _ _ _ _ _ _ _ _ _ Hne Hrun Hconf)
    as [Hdirect Hrate].
  destruct (direct_success_leaves_entry _ _ _ _ _ _ _ _ _ _ Hfits Hdirect
              Hrate) as (r & ts & Hv & Hts & Hr1 & Hfresh).
  { apply forallb_forall. intros m1 Hm1. apply forallb_forall. intros m2 Hm2.
    apply in_seq in Hm1, Hm2.
    apply (within_window_spec w n (S n1)); [done|lia..]. }
  { done. }
  destruct (fresh_entry_is_served base quote amount0 w n1 s1 r ts
              Hne Hv Hts Hfresh) as (r2 & s2 & Hsecond & Hr2 & Hc2 & Hcm).
  exists r2, s2. rewrite Hr2, Hr1. eauto.
Qed.

End TwoCallsInWindow.

Lemma convert_twice_direct_witness :
  ∃ r1 n1 s1,
    convert (H := FastCacheManager_instance 300) production_engine
      "BTC" "USD" 2%float btc_usd_world 0%nat production_state
      = (Ok r1, n1, s1) ∧
    ∃ r2 s2,
      convert (H := FastCacheManager_instance 300) production_engine
        "BTC" "USD" 2%float btc_usd_world n1 s1
        = (Ok r2, S (S (S n1)), s2) ∧
      is_Some (rate r2) ∧ rate r2 = rate r1 ∧ cached r2 = true ∧
      cache_manager s2 = cache_manager s1.
Proof.
  eexists _, _, _. split; [vm_compute; reflexivity|].
  eapply (convert_twice_direct 300 production_engine "BTC" "USD" 2%float
            btc_usd_world 0%nat production_state).
  - vm_compute. discriminate.
  - vm_compute. reflexivity.
  - vm_compute. reflexivity.
  - vm_compute. reflexivity.
  - vm_compute. reflexivity.
  - intros _. vm_compute. reflexivity.
Defined.

(** C8, as stated, fails: ETH to ADA has no direct quote and is bridged
    through USD; a second call six seconds later finds both legs in the
    cache and returns the same rate, and its result is not marked
    cached. *)
Lemma idempotence_counterexample :
  ¬ idempotent_at (H := FastCacheManager_instance 300) production_engine
      eth_ada_world 0%nat production_state "ETH" "ADA" 1%float.
Proof.
  intros Hclaim.
  eassert (convert (H := FastCacheManager_instance 300) production_engine
             "ETH" "ADA" 1%float eth_ada_world 0%nat production_state
           = (Ok _, _, _)) as Hfirst by (vm_compute; reflexivity).
  match type of Hfirst with
  | _ = (_, ?n1, ?s1) =>
      eassert (convert (H := FastCacheManager_instance 300) production_engine
                 "ETH" "ADA" 1%float eth_ada_world n1 s1
               = (Ok _, _, _)) as Hsecond by (vm_compute; reflexivity)
  end.
  destruct (Hclaim _ _ _ _ _ _ Hfirst Hsecond) as [_ Hcached].
  - vm_compute. reflexivity.
  - discriminate Hcached.
Qed.

(** * Further properties *)

(** ** Substrings *)

Lemma py_startswith_spec (p s : string) :
  py_startswith p s = true ↔ ∃ post, s = p +:+ post.
Proof.
  revert s. induction p as [|a p IH]; intros s; simpl.
  - split; [intros _; by exists s|done].
  - destruct s as [|b s]; simpl.
    + split; [done|]. by intros [post [=]].
    + rewrite andb_true_iff, Ascii.eqb_eq, IH. split.
      * intros [-> [post ->]]. by exists post.
      * intros [post [= -> ->]]. split; [done|by exists post].
Qed.

Lemma py_contains_spec (sub s : string) :
  py_contains sub s = true ↔ occurs_in sub s.
Proof.
  unfold occurs_in. induction s as [|b s IH]; simpl.
  - rewrite orb_false_r, py_startswith_spec. split.
    + intros [post Hs]. by exists "", post.
    + intros (pre & post & Hs). destruct pre; [by exists post|done].
  - rewrite orb_true_iff, py_startswith_spec, IH. split.
    + intros [[post Hs]|(pre & post & ->)].
      * by exists "", post.
      * by exists (String b pre), post.
    + intros (pre & post & Hs). destruct pre as [|a pre].
      * left. by exists post.
      * right. injection Hs as -> ->. by exists pre, post.
Qed.

(** ** The in-memory cache as a map with expiry *)

Lemma fast_cache_dom_remove {X} (gone : gmap string X)
    (cache : gmap string cache_value) (timestamps : gmap string float) :
  fast_cache_dom {| fc_cache := cache; fc_timestamps := timestamps |} →
  fast_cache_dom
    {| fc_cache := filter (λ kv, gone !! kv.1 = None) cache;
       fc_timestamps := filter (λ kv, gone !! kv.1 = None) timestamps |}.
Proof.
  intros Hdom k. cbn. split.
  - intros [v Hv]. apply map_lookup_filter_Some in Hv as [Hv Hk].
    destruct (proj1 (Hdom k)) as [ts Hts]; [by eexists|].
    exists ts. by apply map_lookup_filter_Some.
  - intros [ts Hts]. apply map_lookup_filter_Some in Hts as [Hts Hk].
    destruct (proj2 (Hdom k)) as [v Hv]; [by eexists|].
    exists v. by apply map_lookup_filter_Some.
Qed.

Lemma fast_cache_dom_insert key v now (c : FastCache) :
  fast_cache_dom c →
  fast_cache_dom {| fc_cache := <[key := v]> (fc_cache c);
                    fc_timestamps := <[key := now]> (fc_timestamps c) |}.
Proof.
  intros Hdom k. cbn. rewrite !lookup_insert. case_decide; [|apply Hdom].
  split; intros _; by eexists.
Qed.

Lemma fast_cache_dom_delete key (c : FastCache) :
  fast_cache_dom c →
  fast_cache_dom {| fc_cache := delete key (fc_cache c);
                    fc_timestamps := delete key (fc_timestamps c) |}.
Proof.
  intros Hdom k. cbn. rewrite !lookup_delete. case_decide; [|apply Hdom].
  split; by intros [? ?].
Qed.

(** X1. A [FastCacheManager] whose two dictionaries have the same keys
    keeps them so through [get], [set], [delete] and [_cleanup_expired],
    and on such a cache none of the four raises: the [KeyError] that
    [get] could run into on [self.timestamps[key]] never happens. *)
Theorem fast_cache_keys_in_step (CACHE_TTL : Z) (c : FastCache) (w : World)
    (n : nat) :
  fast_cache_dom c →
  (∀ key, ∃ answer n' c',
     FastCacheManager.get CACHE_TTL key w n c = (Ok answer, n', c') ∧
     fast_cache_dom c') ∧
  (∀ key value ttl, ∃ n' c',
     FastCacheManager.set CACHE_TTL key value ttl w n c = (Ok tt, n', c') ∧
     fast_cache_dom c') ∧
  (∀ pattern, ∃ c',
     FastCacheManager_delete pattern w n c = (Ok tt, n, c') ∧
     fast_cache_dom c') ∧
  (∃ c',
     FastCacheManager._cleanup_expired CACHE_TTL w n c = (Ok tt, S n, c') ∧
     fast_cache_dom c').
Proof.
  intros Hdom. repeat split.
  - intros key. unfold FastCacheManager.get. unfold_monad.
    destruct (fc_cache c !! key) as [v|] eqn:Hv; [|by eexists _, _, _].
    destruct (proj1 (Hdom key)) as [ts Hts]; [by rewrite Hv|]. rewrite Hts.
    destruct (PrimFloat.ltb _ _); eexists _, _, _; (split; [done|]);
      [done|by apply fast_cache_dom_delete].
  - intros key value ttl. unfold FastCacheManager.set.
    unfold FastCacheManager._cleanup_expired. unfold_monad. cbn.
    destruct (_ =? 0); eexists _, _; (split; [done|]).
    + apply fast_cache_dom_remove. by apply fast_cache_dom_insert.
    + by apply fast_cache_dom_insert.
  - intros pattern. unfold FastCacheManager_delete, modify.
    assert (fast_cache_dom {| fc_cache := ∅; fc_timestamps := ∅ |}) as Hempty.
    { intros k. cbn. by rewrite !lookup_empty. }
    destruct pattern as [p|]; [|by eexists].
    destruct (String.eqb p ""); [by eexists|].
    eexists. split; [done|].
    apply fast_cache_dom_remove. by destruct c.
  - unfold FastCacheManager._cleanup_expired. unfold_monad.
    eexists. split; [done|].
    apply fast_cache_dom_remove. by destruct c.
Qed.

Lemma fast_cache_keys_in_step_witness :
  (∀ key, ∃ answer n' c',
     FastCacheManager.get 300 key offline_world 0%nat FastCacheManager.init
       = (Ok answer, n', c') ∧
     fast_cache_dom c') ∧
  (∀ key value ttl, ∃ n' c',
     FastCacheManager.set 300 key value ttl offline_world 0%nat
       FastCacheManager.init = (Ok tt, n', c') ∧
     fast_cache_dom c') ∧
  (∀ pattern, ∃ c',
     FastCacheManager_delete pattern offline_world 0%nat
       FastCacheManager.init = (Ok tt, 0%nat, c') ∧
     fast_cache_dom c') ∧
  (∃ c',
     FastCacheManager._cleanup_expired 300 offline_world 0%nat
       FastCacheManager.init = (Ok tt, 1%nat, c') ∧
     fast_cache_dom c').
Proof.
  apply (fast_cache_keys_in_step 300 FastCacheManager.init offline_world 0).
  intros key. cbn. rewrite !lookup_empty. split; intros [? ?]; discriminate.
Defined.

(** X2. Insert and look up: what [set] stores under a key, [get] returns
    for that key as long as the clock reads less than [CACHE_TTL] past the
    timestamp [set] took — provided the periodic clean-up inside [set]
    (run when the number of entries reaches a multiple of 100) did not
    already find that timestamp expired.  The [ttl] argument plays no
    part. *)
Theorem fast_set_then_get (CACHE_TTL : Z) (key : string) (value : cache_value)
    (ttl : Z) (w : World) (n : nat) (c : FastCache) (n' : nat)
    (c' : FastCache) :
  FastCacheManager.set CACHE_TTL key value ttl w n c = (Ok tt, n', c') →
  (Z.of_nat (size (<[key := value]> (fc_cache c))) mod 100 = 0 →
   FastCacheManager.expired CACHE_TTL (clock w (S n)) (clock w n) = false) →
  PrimFloat.ltb (clock w n' - clock w n)%float (Py.float_of_Z CACHE_TTL)
    = true →
  FastCacheManager.get CACHE_TTL key w n' c' = (Ok (Some value), S n', c').
Proof.
  unfold FastCacheManager.set, FastCacheManager._cleanup_expired.
  unfold_monad. cbn. intros Hset Hclean Hfresh.
  destruct (Z.eqb_spec
              (Z.of_nat (size (<[key := value]> (fc_cache c))) mod 100) 0)
    as [Hfull|_]; injection Hset as <- <-.
  - specialize (Hclean Hfull).
    assert (filter (λ kts : string * float,
                      FastCacheManager.expired CACHE_TTL (clock w (S n))
                        kts.2 = true)
                   (<[key := clock w n]> (fc_timestamps c)) !! key = None)
      as Hkept.
    { apply map_lookup_filter_None. right. intros ts.
      rewrite lookup_insert_eq. intros [= <-]. cbn. by rewrite Hclean. }
    apply (fast_get_fresh CACHE_TTL key value (clock w n)); [| |done].
    + cbn. apply map_lookup_filter_Some. by rewrite lookup_insert_eq.
    + cbn. apply map_lookup_filter_Some. by rewrite lookup_insert_eq.
  - apply (fast_get_fresh CACHE_TTL key value (clock w n)); [| |done];
      cbn; by rewrite lookup_insert_eq.
Qed.

Lemma fast_set_then_get_witness :
  ∃ n' c',
    FastCacheManager.set 300 "rate:ETH:USD" (RateDict 2580) 60
      offline_world 0%nat FastCacheManager.init = (Ok tt, n', c') ∧
    FastCacheManager.get 300 "rate:ETH:USD" offline_world n' c'
      = (Ok (Some (RateDict 2580)), S n', c').
Proof.
  eexists _, _. split; [vm_compute; reflexivity|].
  eapply (fast_set_then_get 300 "rate:ETH:USD" (RateDict 2580) 60
            offline_world 0%nat FastCacheManager.init).
  - vm_compute. reflexivity.
  - intros _. vm_compute. reflexivity.
  - vm_compute. reflexivity.
Defined.

(** X3. Looking up an entry that is [CACHE_TTL] old or older answers
    absent, removes that key from both dictionaries and touches no other
    key; any later [get] of the key answers absent without reading the
    clock. *)
Theorem fast_get_evicts_stale (CACHE_TTL : Z) (key : string)
    (value : cache_value) (ts : float) (w : World) (n : nat)
    (c : FastCache) :
  fc_cache c !! key = Some value →
  fc_timestamps c !! key = Some ts →
  PrimFloat.ltb (clock w n - ts)%float (Py.float_of_Z CACHE_TTL) = false →
  ∃ c',
    FastCacheManager.get CACHE_TTL key w n c = (Ok None, S n, c') ∧
    fc_cache c' !! key = None ∧ fc_timestamps c' !! key = None ∧
    (∀ k, k ≠ key →
          fc_cache c' !! k = fc_cache c !! k ∧
          fc_timestamps c' !! k = fc_timestamps c !! k) ∧
    (∀ w2 n2,
       FastCacheManager.get CACHE_TTL key w2 n2 c' = (Ok None, n2, c')).
Proof.
  intros Hv Hts Hstale. eexists. split; [by eapply fast_get_stale|].
  cbn [fc_cache fc_timestamps]. rewrite !lookup_delete_eq.
  split; [done|]. split; [done|]. split.
  - intros k Hk. by rewrite !lookup_delete_ne.
  - intros w2 n2. apply fast_get_absent. cbn. by rewrite lookup_delete_eq.
Qed.

Lemma fast_get_evicts_stale_witness :
  ∃ c',
    FastCacheManager.get 300 "direct:BTC:USD" (stepped_world 400) 1%nat
      one_entry_cache = (Ok None, 2%nat, c') ∧
    fc_cache c' !! "direct:BTC:USD" = None ∧
    fc_timestamps c' !! "direct:BTC:USD" = None ∧
    (∀ k, k ≠ "direct:BTC:USD" →
          fc_cache c' !! k = fc_cache one_entry_cache !! k ∧
          fc_timestamps c' !! k = fc_timestamps one_entry_cache !! k) ∧
    (∀ w2 n2,
       FastCacheManager.get 300 "direct:BTC:USD" w2 n2 c' = (Ok None, n2, c')).
Proof.
  apply (fast_get_evicts_stale 300 "direct:BTC:USD" (RateDict 63000) 0%float
           (stepped_world 400) 1%nat one_entry_cache).
  - vm_compute. reflexivity.
  - vm_compute. reflexivity.
  - vm_compute. reflexivity.
Defined.

(** X4. [_cleanup_expired] reads the clock once and keeps exactly the
    timestamps that are less than [CACHE_TTL] old at that reading; a
    cached value stays exactly when its key has no expired timestamp.  So
    no entry that is left is expired, and no unexpired entry is lost. *)
Theorem cleanup_removes_exactly_expired (CACHE_TTL : Z) (w : World) (n : nat)
    (c : FastCache) :
  ∃ c',
    FastCacheManager._cleanup_expired CACHE_TTL w n c = (Ok tt, S n, c') ∧
    (∀ k ts,
       fc_timestamps c' !! k = Some ts ↔
       fc_timestamps c !! k = Some ts ∧
       FastCacheManager.expired CACHE_TTL (clock w n) ts = false) ∧
    (∀ k v,
       fc_cache c' !! k = Some v ↔
       fc_cache c !! k = Some v ∧
       ∀ ts, fc_timestamps c !! k = Some ts →
             FastCacheManager.expired CACHE_TTL (clock w n) ts = false).
Proof.
  unfold FastCacheManager._cleanup_expired. unfold_monad.
  eexists. split; [done|]. cbn [fc_cache fc_timestamps].
  set (gone := filter (λ kts : string * float,
                         FastCacheManager.expired CACHE_TTL (clock w n) kts.2
                         = true) (fc_timestamps c)).
  assert (∀ k, gone !! k = None ↔
               ∀ ts, fc_timestamps c !! k = Some ts →
                     FastCacheManager.expired CACHE_TTL (clock w n) ts = false)
    as Hgone.
  { intros k. unfold gone. rewrite map_lookup_filter_None. split.
    - intros [Hnone|Hall] ts Hts; [congruence|].
      specialize (Hall ts Hts). cbn [snd] in Hall.
      by apply not_true_is_false.
    - intros Hall. right. intros ts Hts. cbn [snd].
      rewrite (Hall ts Hts). done. }
  split.
  - intros k ts. rewrite map_lookup_filter_Some. cbn [fst]. rewrite Hgone.
    split; intros [Hts Hall]; (split; [done|]); [by apply Hall|].
    intros ts' Hts'. congruence.
  - intros k v. rewrite map_lookup_filter_Some. cbn [fst]. by rewrite Hgone.
Qed.

(** X5. [delete(pattern)] with a non-empty pattern removes every cached
    key in which the pattern occurs (and, when the two dictionaries have
    the same keys, its timestamp) and leaves every other key as it was;
    with no pattern, or with the empty string, it empties the cache. *)
Theorem delete_removes_matching_keys (p : string) (w : World) (n : nat)
    (c : FastCache) :
  p ≠ "" →
  (∃ c',
     FastCacheManager_delete (Some p) w n c = (Ok tt, n, c') ∧
     ∀ k,
       (occurs_in p k →
        fc_cache c' !! k = None ∧
        (fast_cache_dom c → fc_timestamps c' !! k = None)) ∧
       (¬ occurs_in p k →
        fc_cache c' !! k = fc_cache c !! k ∧
        fc_timestamps c' !! k = fc_timestamps c !! k)) ∧
  FastCacheManager_delete None w n c = (Ok tt, n, FastCacheManager.init) ∧
  FastCacheManager_delete (Some "") w n c = (Ok tt, n, FastCacheManager.init).
Proof.
  intros Hp. split; [|done]. unfold FastCacheManager_delete, modify.
  destruct (String.eqb_spec p "") as [|_]; [done|].
  eexists. split; [done|]. cbn.
  set (gone := filter (λ kv : string * cache_value,
                         py_contains p kv.1 = true) (fc_cache c)).
  intros k. split.
  - intros Hocc. apply py_contains_spec in Hocc.
    assert (fc_cache c !! k = None ∨ is_Some (gone !! k)) as [Hnone|[v Hv]].
    { destruct (fc_cache c !! k) as [v|] eqn:Hv; [right|by left].
      exists v. by apply map_lookup_filter_Some. }
    + split.
      * apply map_lookup_filter_None. by left.
      * intros Hdom. apply map_lookup_filter_None. left.
        destruct (fc_timestamps c !! k) as [ts|] eqn:Hts; [|done].
        destruct (proj2 (Hdom k)) as [v Hv]; [by rewrite Hts|]. congruence.
    + split; [|intros _]; apply map_lookup_filter_None; right;
        intros x _; cbn [fst]; by rewrite Hv.
  - intros Hocc.
    assert (gone !! k = None) as Hkept.
    { apply map_lookup_filter_None. right. intros v _. cbn.
      intros Hc. by apply py_contains_spec in Hc. }
    split.
    + destruct (fc_cache c !! k) as [v|] eqn:Hv.
      * by apply map_lookup_filter_Some.
      * apply map_lookup_filter_None. by left.
    + destruct (fc_timestamps c !! k) as [ts|] eqn:Hts.
      * by apply map_lookup_filter_Some.
      * apply map_lookup_filter_None. by left.
Qed.

Lemma delete_removes_matching_keys_witness :
  (∃ c',
     FastCacheManager_delete (Some "direct:") offline_world 0%nat
       FastCacheManager.init = (Ok tt, 0%nat, c') ∧
     ∀ k,
       (occurs_in "direct:" k →
        fc_cache c' !! k = None ∧
        (fast_cache_dom FastCacheManager.init →
         fc_timestamps c' !! k = None)) ∧
       (¬ occurs_in "direct:" k →
        fc_cache c' !! k = fc_cache FastCacheManager.init !! k ∧
        fc_timestamps c' !! k = fc_timestamps FastCacheManager.init !! k)) ∧
  FastCacheManager_delete None offline_world 0%nat FastCacheManager.init
    = (Ok tt, 0%nat, FastCacheManager.init) ∧
  FastCacheManager_delete (Some "") offline_world 0%nat FastCacheManager.init
    = (Ok tt, 0%nat, FastCacheManager.init).
Proof.
  apply (delete_removes_matching_keys "direct:" offline_world 0%nat
           FastCacheManager.init).
  discriminate.
Defined.

(** ** Cache keys *)

Lemma append_sep_inj (sep : ascii) (a a' x x' : string) :
  count_char sep a = 0%nat → count_char sep a' = 0%nat →
  a +:+ String sep x = a' +:+ String sep x' → a = a' ∧ x = x'.
Proof.
  revert a'. induction a as [|c a IH]; intros [|c' a']; simpl.
  - by intros _ _ [= ->].
  - intros _ Hc [= <- _]. by rewrite Ascii.eqb_refl in Hc.
  - intros Hc _ [= -> _]. by rewrite Ascii.eqb_refl in Hc.
  - intros Hc Hc' [= -> Hrest].
    destruct (Ascii.eqb c' sep); [done|].
    by destruct (IH a' Hc Hc' Hrest) as [-> ->].
Qed.

(** X6. Cache keys of the three families and the health check's key
    never coincide, whatever the symbols; and within a family, when the
    two base symbols contain no colon, equal keys mean the same base and
    the same quote, so [BASE:QUOTE] and [QUOTE:BASE] are different
    entries. *)
Theorem cache_keys_do_not_collide (base quote base' quote' : string) :
  count_char ":" base = 0%nat → count_char ":" base' = 0%nat →
  direct_key base quote ≠ rate_key base' quote' ∧
  direct_key base quote ≠ fallback_key base' quote' ∧
  rate_key base quote ≠ fallback_key base' quote' ∧
  direct_key base quote ≠ "health_check" ∧
  rate_key base quote ≠ "health_check" ∧
  fallback_key base quote ≠ "health_check" ∧
  (direct_key base quote = direct_key base' quote' →
   base = base' ∧ quote = quote') ∧
  (rate_key base quote = rate_key base' quote' →
   base = base' ∧ quote = quote') ∧
  (fallback_key base quote = fallback_key base' quote' →
   base = base' ∧ quote = quote').
Proof.
  intros Hb Hb'.
  do 6 (split; [done|]).
  split; [|split]; unfold direct_key, rate_key, fallback_key; cbn;
    intros [= Heq];
    by destruct (append_sep_inj ":" base base' quote quote' Hb Hb' Heq).
Qed.

Lemma cache_keys_do_not_collide_witness :
  direct_key "BTC" "USD" ≠ rate_key "USD" "BTC" ∧
  direct_key "BTC" "USD" ≠ fallback_key "USD" "BTC" ∧
  rate_key "BTC" "USD" ≠ fallback_key "USD" "BTC" ∧
  direct_key "BTC" "USD" ≠ "health_check" ∧
  rate_key "BTC" "USD" ≠ "health_check" ∧
  fallback_key "BTC" "USD" ≠ "health_check" ∧
  (direct_key "BTC" "USD" = direct_key "USD" "BTC" →
   "BTC" = "USD" ∧ "USD" = "BTC") ∧
  (rate_key "BTC" "USD" = rate_key "USD" "BTC" →
   "BTC" = "USD" ∧ "USD" = "BTC") ∧
  (fallback_key "BTC" "USD" = fallback_key "USD" "BTC" →
   "BTC" = "USD" ∧ "USD" = "BTC").
Proof.
  apply (cache_keys_do_not_collide "BTC" "USD" "USD" "BTC"); reflexivity.
Defined.

(** ** Counting upstream calls *)

Section FetchAccounting.
Context {C : Type}.
Variable self : Engine.

Lemma disjoint_not_both (x : string) :
  crypto_assets self ## fiat_assets self →
  is_crypto self x && is_fiat self x = false.
Proof.
  intros Hd. unfold is_crypto, is_fiat. apply andb_false_iff.
  destruct (decide (x ∈ crypto_assets self)) as [Hin|Hout].
  - right. apply bool_decide_eq_false. intros Hf. exact (Hd x Hin Hf).
  - left. by apply bool_decide_eq_false.
Qed.

(** X7. For a pair of two supported symbols (neither containing a slash),
    [_fetch_rate_data] returns without raising, leaves the cache manager
    and the summary counters alone, adds exactly one to [api_calls]
    whether or not a provider answers (or is even configured), and adds
    one to [api_call_breakdown] exactly when it returns data.  When the
    two asset sets are disjoint, exactly one conversion type is tallied
    and at most one upstream request is made. *)
Theorem fetch_counts_every_attempt (base quote : string) (w : World)
    (n : nat) (s : EngineState C) :
  count_char "/" base = 0%nat → count_char "/" quote = 0%nat →
  base ∈ crypto_assets self ∪ fiat_assets self →
  quote ∈ crypto_assets self ∪ fiat_assets self →
  ∃ data n' s',
    _fetch_rate_data self (pair_name base quote) w n s = (Ok data, n', s') ∧
    cache_manager s' = cache_manager s ∧
    summary_unchanged (stats s) (stats s') ∧
    cache_hits (stats s') = cache_hits (stats s) ∧
    api_calls (stats s') = api_calls (stats s) + 1 ∧
    breakdown_total (stats s')
      = breakdown_total (stats s)
        + match data with Some _ => 1 | None => 0 end ∧
    (crypto_assets self ## fiat_assets self →
     types_total (stats s') = types_total (stats s) + 1 ∧ (n' ≤ S n)%nat).
Proof.
  intros Hb Hq Hsb Hsq.
  unfold _fetch_rate_data. unfold bind at 1.
  destruct (split_pair_name base quote) as [[_ Hs]|(p1 & p2 & p3 & ps & Hs)].
  2:{ pose proof (split_length "/" (pair_name base quote)) as Hlen.
      rewrite Hs, count_pair_name, Hb, Hq in Hlen. simpl in Hlen. lia. }
  unfold unpack_pair. rewrite Hs. unfold ret at 1. cbn [fst snd].
  assert (is_supported self base = true) as -> by by apply bool_decide_eq_true.
  assert (is_supported self quote = true) as -> by by apply bool_decide_eq_true.
  assert (crypto_assets self ## fiat_assets self →
          (is_crypto self base && is_fiat self base = false) ∧
          (is_crypto self quote && is_fiat self quote = false)) as Hdisj.
  { intros Hd. split; by apply disjoint_not_both. }
  assert (is_crypto self base || is_fiat self base = true) as Hcb.
  { unfold is_crypto, is_fiat. apply elem_of_union in Hsb as [?|?];
      apply orb_true_iff; [left|right]; by apply bool_decide_eq_true. }
  assert (is_crypto self quote || is_fiat self quote = true) as Hcq.
  { unfold is_crypto, is_fiat. apply elem_of_union in Hsq as [?|?];
      apply orb_true_iff; [left|right]; by apply bool_decide_eq_true. }
  unfold _fetch_exchangerates_api, _fetch_coinmarketcap_api,
    exchangerates_request, coinmarketcap_request.
  unfold_monad. unfold modify.
  unfold breakdown_total, types_total, summary_unchanged.
  destruct (is_crypto self base), (is_fiat self base),
    (is_crypto self quote), (is_fiat self quote); try done;
    cbn [negb andb orb];
    destruct (key_present (exchange_api_key self)),
      (key_present (cmc_api_key self)); cbn [negb];
    repeat case_match; simplify_eq/=;
    eexists _, _, _; (split; [reflexivity|]); cbn;
    repeat split; try lia;
    try (intros Hd; destruct (Hdisj Hd) as [? ?]; done);
    match goal with
    | Hd : _ ## _ |- _ => by destruct (Hdisj Hd) as [? ?]
    end.
Qed.

End FetchAccounting.

Lemma fetch_counts_every_attempt_witness :
  ∃ data n' s',
    _fetch_rate_data production_engine (pair_name "BTC" "USD") offline_world
      0%nat production_state = (Ok data, n', s') ∧
    cache_manager s' = cache_manager production_state ∧
    summary_unchanged (stats production_state) (stats s') ∧
    cache_hits (stats s') = cache_hits (stats production_state) ∧
    api_calls (stats s') = api_calls (stats production_state) + 1 ∧
    breakdown_total (stats s')
      = breakdown_total (stats production_state)
        + match data with Some _ => 1 | None => 0 end ∧
    (crypto_assets production_engine ## fiat_assets production_engine →
     types_total (stats s') = types_total (stats production_state) + 1 ∧
     (n' ≤ 1)%nat).
Proof.
  apply (fetch_counts_every_attempt production_engine "BTC" "USD"
           offline_world 0%nat production_state).
  - reflexivity.
  - reflexivity.
  - apply (bool_decide_unpack _). vm_compute. reflexivity.
  - apply (bool_decide_unpack _). vm_compute. reflexivity.
Defined.

(** ** Relations kept by whole conversions *)

Section WholeKeeps.
Context {C : Type} `{CacheManager C}.
Variable self : Engine.
Variable R : EngineState C → EngineState C → Prop.
Hypothesis R_refl : ∀ s, R s s.
Hypothesis R_trans : ∀ s1 s2 s3, R s1 s2 → R s2 s3 → R s1 s3.
Hypothesis R_get : ∀ key, keeps R (cache_get key).
Hypothesis R_set : ∀ key r ttl, keeps R (cache_set key (RateDict r) ttl).
Hypothesis R_fetch : ∀ sym, keeps R (_fetch_rate_data self sym).
Hypothesis R_hit : keeps R (modify_stats (upd_cache_hits (λ n, n + 1))).

Lemma whole_get_conversion_rate base quote :
  keeps R (_get_conversion_rate self base quote).
Proof.
  unfold _get_conversion_rate.
  repeat first
    [ apply R_get | apply R_set | apply keeps_getitem; assumption
    | apply R_fetch | keeps_step ].
Qed.

Lemma whole_direct base quote amount0 start :
  keeps R (_try_direct_conversion self base quote amount0 start).
Proof.
  unfold _try_direct_conversion.
  repeat first
    [ apply R_get | apply R_set | apply R_hit | apply R_fetch
    | apply keeps_getitem; assumption | apply keeps_elapsed; assumption
    | keeps_step ].
Qed.

Lemma whole_single_pivot_loop base quote amount0 start ps :
  keeps R (single_pivot_loop self base quote amount0 start ps).
Proof.
  induction ps as [|pivot ps IH]; simpl; [by apply keeps_ret|].
  unfold single_pivot_attempt, ConversionMethod_of_value.
  repeat first
    [ apply keeps_elapsed; assumption | apply whole_get_conversion_rate
    | apply IH | keeps_step ].
Qed.

Lemma whole_single_pivot base quote amount0 start :
  keeps R (_try_single_pivot_conversion self base quote amount0 start).
Proof.
  unfold _try_single_pivot_conversion.
  repeat first
    [ apply keeps_elapsed; assumption | apply whole_single_pivot_loop
    | keeps_step ].
Qed.

Lemma whole_double_pivot_loop base quote amount0 start combos :
  keeps R (double_pivot_loop self base quote amount0 start combos).
Proof.
  induction combos as [|[p1 p2] combos IH]; simpl; [by apply keeps_ret|].
  unfold double_pivot_attempt.
  repeat first
    [ apply keeps_elapsed; assumption | apply whole_get_conversion_rate
    | apply IH | keeps_step ].
Qed.

Lemma whole_double_pivot base quote amount0 start :
  keeps R (_try_double_pivot_conversion self base quote amount0 start).
Proof.
  unfold _try_double_pivot_conversion.
  repeat first
    [ apply keeps_elapsed; assumption | apply whole_double_pivot_loop
    | keeps_step ].
Qed.

Lemma whole_estimate base quote :
  keeps R (_generate_estimated_rate self base quote).
Proof.
  unfold _generate_estimated_rate, checked_div. repeat keeps_step.
Qed.

Lemma whole_fallback base quote amount0 start :
  keeps R (_fallback_conversion self base quote amount0 start).
Proof.
  unfold _fallback_conversion.
  repeat first
    [ apply R_get | apply R_set | apply whole_estimate
    | apply keeps_getitem; assumption | apply keeps_elapsed; assumption
    | keeps_step ].
Qed.

Hypothesis R_update : ∀ r, keeps R (update_statistics r).

(** [convert] from the point where the call has been counted. *)
Lemma whole_convert_counted base quote amount0 w n (s : EngineState C) :
  R {| cache_manager := cache_manager s;
       stats := upd_total_conversions (λ k, k + 1) (stats s) |}
    (convert self base quote amount0 w n s).2.
Proof.
  unfold convert. unfold bind at 1, time_time. unfold bind at 1.
  unfold modify_stats at 1, modify.
  match goal with
  | |- R _ (?m _ _ _).2 => assert (keeps R m) as Hrest; [|apply Hrest]
  end.
  repeat first
    [ apply R_update | apply whole_direct
    | apply whole_single_pivot | apply whole_double_pivot
    | apply whole_fallback | apply keeps_elapsed; assumption
    | keeps_step ].
Qed.

Hypothesis R_total :
  keeps R (modify_stats (upd_total_conversions (λ n, n + 1))).

Lemma whole_convert base quote amount0 :
  keeps R (convert self base quote amount0).
Proof.
  intros w n s. eapply R_trans; [|apply whole_convert_counted].
  apply (R_total w n s).
Qed.

Hypothesis R_probe : keeps R (cache_set "health_check" TestDict 10).

Lemma whole_health_check : keeps R (health_check self).
Proof.
  unfold health_check, check_cache_manager, test_pairs. simpl.
  unfold test_conversion.
  repeat first
    [ apply R_probe | apply R_get | apply whole_convert | keeps_step ].
Qed.

End WholeKeeps.

(** ** Upstream accounting over whole conversions *)

Section ApiAccounting.
Context {C : Type} `{CacheManager C}.
Variable self : Engine.

Lemma api_accounting_refl (s : EngineState C) : api_accounting_on s s.
Proof. unfold api_accounting_on, api_accounting. lia. Qed.

Lemma api_accounting_trans (s1 s2 s3 : EngineState C) :
  api_accounting_on s1 s2 → api_accounting_on s2 s3 → api_accounting_on s1 s3.
Proof. unfold api_accounting_on, api_accounting. lia. Qed.

Lemma api_accounting_get key :
  keeps api_accounting_on (cache_get (C := C) key).
Proof.
  intros w n s. unfold cache_get, zoom.
  destruct (cm_get key w n (cache_manager s)) as [[r n1] c1].
  unfold api_accounting_on, api_accounting; cbn. lia.
Qed.

Lemma api_accounting_set key v ttl :
  keeps api_accounting_on (cache_set (C := C) key v ttl).
Proof.
  intros w n s. unfold cache_set, zoom.
  destruct (cm_set key v ttl w n (cache_manager s)) as [[r n1] c1].
  unfold api_accounting_on, api_accounting; cbn. lia.
Qed.

Lemma api_accounting_counter (f : Stats → Stats) :
  (∀ st, api_accounting st (f st)) →
  keeps api_accounting_on (modify_stats (C := C) f).
Proof. intros Hf w n s. apply Hf. Qed.

Lemma api_accounting_fetch sym :
  keeps api_accounting_on (_fetch_rate_data (C := C) self sym).
Proof.
  intros w n s.
  unfold api_accounting_on, api_accounting, breakdown_total,
    _fetch_rate_data, unpack_pair,
    _fetch_exchangerates_api, _fetch_coinmarketcap_api,
    exchangerates_request, coinmarketcap_request.
  unfold_monad. unfold modify.
  repeat (case_match; simplify_eq/=; try lia).
Qed.

Lemma api_accounting_update r :
  keeps api_accounting_on (update_statistics (C := C) r).
Proof.
  pose proof api_accounting_refl. pose proof api_accounting_trans.
  unfold update_statistics, checked_div_int.
  repeat first
    [ apply api_accounting_counter; intros st;
      unfold api_accounting, breakdown_total; cbn; lia
    | keeps_step ].
Qed.

(** X8. Whatever the cache backend does and whatever the providers
    answer, and whether the call returns or raises, a [convert] and a
    [health_check] leave the call counters consistent: [api_calls],
    [cache_hits] and the two per-provider counters never go down, and the
    per-provider counters together grow by no more than [api_calls]
    does. *)
Theorem convert_keeps_api_accounting (base quote : string) (amount0 : float)
  (w : World) (n : nat) (s : EngineState C) :
  api_accounting (stats s) (stats (convert self base quote amount0 w n s).2) ∧
  api_accounting (stats s) (stats (health_check self w n s).2).
Proof.
  split.
  - apply (whole_convert self api_accounting_on
             api_accounting_refl api_accounting_trans
             api_accounting_get (λ key r, api_accounting_set key (RateDict r))
             api_accounting_fetch).
    + apply api_accounting_counter; intros st;
        unfold api_accounting, breakdown_total; cbn; lia.
    + apply api_accounting_update.
    + apply api_accounting_counter; intros st;
        unfold api_accounting, breakdown_total; cbn; lia.
  - apply (whole_health_check self api_accounting_on
             api_accounting_refl api_accounting_trans
             api_accounting_get (λ key r, api_accounting_set key (RateDict r))
             api_accounting_fetch).
    + apply api_accounting_counter; intros st;
        unfold api_accounting, breakdown_total; cbn; lia.
    + apply api_accounting_update.
    + apply api_accounting_counter; intros st;
        unfold api_accounting, breakdown_total; cbn; lia.
    + apply api_accounting_set.
Qed.

End ApiAccounting.

(** ** Conversions and health checks over a cache that keeps its contract *)

Section UnderContract.
Context {C : Type} `{CacheManager C}.
Variable self : Engine.
Variable Inv : C → Prop.
Hypothesis contract : CacheContract Inv.

(** The fallback strategy under the contract: it returns a rate, leaves
    the counters alone and the cache in a good state. *)
Lemma fallback_keeps_contract base quote amount0 start w n
    (s : EngineState C) :
  Inv (cache_manager s) →
  ∃ r n' s',
    _fallback_conversion self base quote amount0 start w n s = (Ok r, n', s') ∧
    is_Some (rate r) ∧ stats s' = stats s ∧ Inv (cache_manager s') ∧
    (confidence r = 0.3%float ∨ confidence r = 0.2%float).
Proof.
  intros Hinv. unfold _fallback_conversion. cbv zeta.
  unfold bind at 1. unfold cache_get at 1, zoom.
  destruct (contract_get Inv contract (fallback_key base quote) w n _ Hinv)
    as (a & n1 & c1 & -> & Hinv1 & Htest).
  destruct a as [[r|]|].
  - unfold_monad. eexists _, _, _. split; [reflexivity|]. cbn. eauto 10.
  - destruct (fallback_key_not_health_check base quote (Htest eq_refl)).
  - unfold bind at 1.
    destruct (estimated_rate_positive self base quote w n1
                {| cache_manager := c1; stats := stats s |})
      as (r & -> & Hpos).
    apply andb_true_iff in Hpos as [_ ->].
    unfold bind at 1. unfold cache_set at 1, zoom. cbn [cache_manager stats].
    destruct (contract_set Inv contract (fallback_key base quote) r 3600
                w n1 c1 Hinv1) as (n2 & c2 & -> & Hinv2).
    unfold_monad. eexists _, _, _. split; [reflexivity|]. cbn.
    split; [eauto|]. split; [done|]. split; [done|]. by right.
Qed.

(** Under the contract a conversion returns a rate, is counted once and
    leaves the cache in a good state. *)
Lemma convert_keeps_contract (base quote : string) (amount0 : float)
    (w : World) (n : nat) (s : EngineState C) :
  Inv (cache_manager s) →
  0 ≤ total_conversions (stats s) →
  ∃ r n' s',
    convert self base quote amount0 w n s = (Ok r, n', s') ∧
    is_Some (rate r) ∧
    Inv (cache_manager s') ∧
    total_conversions (stats s') = total_conversions (stats s) + 1 ∧
    PrimFloat.leb 0.2%float (confidence r) = true.
Proof.
  intros Hinv Htotal.
  destruct (decide (Py.upper base = Py.upper quote)) as [Heq|Hne].
  { rewrite (convert_same_symbol self _ _ _ _ _ _ Heq).
    eexists _, _, _. split; [reflexivity|]. cbn. eauto 10. }
  set (s0 := {| cache_manager := cache_manager s;
                stats := upd_total_conversions (λ k, k + 1) (stats s) |}).
  destruct (convert_cases self base quote amount0 w n s _ Hne eq_refl)
    as (r1 & n1 & s1 & H1 & Hc1). fold s0 in H1.
  pose proof (keeps_direct self (steady_under Inv) (steady_refl Inv)
                (steady_trans Inv) (steady_get Inv contract)
                (steady_set Inv contract) (steady_stats Inv)
                (Py.upper base) (Py.upper quote)
                amount0 (clock w n) w (S n) s0) as K1.
  rewrite H1 in K1. cbn [snd] in K1.
  destruct Hc1 as [[Hr1 ->]|[Hr1 (r2 & n2 & s2 & H2 & Hc2)]].
  { exists r1, n1, s1. split; [done|]. destruct K1 as [(Ht & _) Hi].
    split; [by destruct (rate r1)|]. split; [by apply Hi|].
    split; [by rewrite Ht|].
    by rewrite (direct_confidence self _ _ _ _ _ _ _ _ _ _ H1 Hr1). }
  pose proof (keeps_single_pivot self (steady_under Inv) (steady_refl Inv)
                (steady_trans Inv) (steady_get Inv contract)
                (steady_set Inv contract) (steady_stats Inv)
                (Py.upper base)
                (Py.upper quote) amount0 (clock w n) w n1 s1) as K2.
  rewrite H2 in K2. cbn [snd] in K2.
  pose proof (steady_trans Inv _ _ _ K1 K2) as K12.
  destruct Hc2 as [[Hr2 ->]|[Hr2 (r3 & n3 & s3 & H3 & Hc3)]].
  { exists r2, n2, s2. split; [done|]. destruct K12 as [(Ht & _) Hi].
    split; [by destruct (rate r2)|]. split; [by apply Hi|].
    split; [by rewrite Ht|].
    by rewrite (single_pivot_confidence self _ _ _ _ _ _ _ _ _ _ H2 Hr2). }
  pose proof (keeps_double_pivot self (steady_under Inv) (steady_refl Inv)
                (steady_trans Inv) (steady_get Inv contract)
                (steady_set Inv contract) (steady_stats Inv)
                (Py.upper base)
                (Py.upper quote) amount0 (clock w n) w n2 s2) as K3.
  rewrite H3 in K3. cbn [snd] in K3.
  pose proof (steady_trans Inv _ _ _ K12 K3) as [(Ht & _) Hinv3].
  destruct Hc3 as [[Hr3 ->]|[Hr3 Hout]].
  { exists r3, n3, s3. split; [done|].
    split; [by destruct (rate r3)|]. split; [by apply Hinv3|].
    split; [by rewrite Ht|].
    by rewrite (double_pivot_confidence self _ _ _ _ _ _ _ _ _ _ H3 Hr3). }
  destruct (fallback_keeps_contract (Py.upper base) (Py.upper quote) amount0
              (clock w n) w n3 s3 (Hinv3 Hinv))
    as (r4 & n4 & s4 & H4 & Hrate & Hstats & Hinv4 & Hconf).
  unfold bind at 1 in Hout. rewrite H4 in Hout.
  destruct (update_statistics_returns r4 w n4 s4)
    as (s5 & H5 & Hcm & Ht5 & _).
  { rewrite Hstats, Ht. cbn. lia. }
  unfold bind at 1 in Hout. rewrite H5 in Hout. unfold ret in Hout.
  exists r4, n4, s5. split; [done|]. split; [done|].
  split; [by rewrite Hcm|]. split; [by rewrite Ht5, Hstats, Ht|].
  by destruct Hconf as [-> | ->].
Qed.

Lemma run_test_pairs_under_contract ps w n (s : EngineState C) :
  Inv (cache_manager s) →
  0 ≤ total_conversions (stats s) →
  ∃ ts n' s',
    run_test_pairs self ps w n s = (Ok (ts, []), n', s') ∧
    Forall (λ t, test_succeeded t = true) ts ∧
    length ts = length ps ∧
    Inv (cache_manager s') ∧
    total_conversions (stats s')
      = total_conversions (stats s) + Z.of_nat (length ps).
Proof.
  revert w n s. induction ps as [|[base quote] ps IH]; intros w n s Hinv Ht.
  { exists [], n, s. split; [done|]. cbn. repeat split; [done|done|lia]. }
  cbn [run_test_pairs]. unfold bind at 1.
  destruct (convert_keeps_contract base quote 1.0 w n s Hinv Ht)
    as (r & n1 & s1 & Hrun & Hrate & Hinv1 & Ht1 & _).
  unfold test_conversion, try_except. unfold bind at 1. rewrite Hrun.
  unfold ret at 1.
  destruct (IH w n1 s1 Hinv1) as (ts & n2 & s2 & Hrest & Hall & Hlen & Hinv2
                                  & Ht2); [lia|].
  unfold bind at 1. rewrite Hrest. unfold ret. cbn [fst snd app].
  eexists _, _, _. split; [reflexivity|]. split.
  - constructor; [|done]. cbn. apply bool_decide_eq_true.
    by destruct Hrate as [x ->].
  - split; [cbn; lia|]. split; [done|]. rewrite Ht2, Ht1. cbn [length]. lia.
Qed.

Hypothesis probe : probe_contract Inv.

(** X12. Over a cache manager that keeps its contract and accepts the
    probe's entry, [health_check] always reports "healthy" with no issue
    and three successful test conversions, whatever the providers answer
    (each conversion ends, at worst, in an estimated rate) and whether or
    not the probe read its entry back. *)
Theorem health_check_under_contract (w : World) (n : nat)
    (s : EngineState C) :
  Inv (cache_manager s) →
  0 ≤ total_conversions (stats s) →
  ∃ h n' s',
    health_check self w n s = (Ok h, n', s') ∧
    status h = "healthy" ∧ issues h = [] ∧
    probe_raised (cache_manager_status h) = false ∧
    length (test_conversions h) = 3%nat ∧
    Forall (λ t, test_succeeded t = true) (test_conversions h) ∧
    Inv (cache_manager s') ∧
    total_conversions (stats s') = total_conversions (stats s) + 3.
Proof.
  intros Hinv Ht. unfold health_check. unfold bind at 1.
  unfold check_cache_manager, try_except. unfold bind at 1.
  unfold cache_set at 1, zoom.
  destruct (probe w n _ Hinv) as (n1 & c1 & -> & Hinv1).
  unfold bind at 1. unfold cache_get at 1, zoom. cbn [cache_manager stats].
  destruct (contract_get Inv contract "health_check" w n1 c1 Hinv1)
    as (a & n2 & c2 & -> & Hinv2 & _).
  unfold ret at 1. unfold bind at 1.
  destruct (run_test_pairs_under_contract test_pairs w n2
              {| cache_manager := c2; stats := stats s |} Hinv2 Ht)
    as (ts & n3 & s3 & -> & Hall & Hlen & Hinv3 & Ht3).
  unfold ret. eexists _, _, _. split; [reflexivity|]. cbn.
  split; [done|]. split; [done|]. split; [by destruct a|].
  split; [done|]. split; [done|]. split; [done|]. by rewrite Ht3.
Qed.

(** X15. Over a cache manager that keeps its contract the [/api/convert]
    endpoint answers every validated request with a response, never with
    an [HTTPException]: the response echoes the upper-cased currencies
    and the amount, carries a rate with a confidence of at least 0.2, and
    the request is counted once. *)
Theorem convert_currency_under_contract (from_currency to_currency : string)
    (amount0 : float) (w : World) (n : nat) (s : EngineState C) :
  Inv (cache_manager s) →
  0 ≤ total_conversions (stats s) →
  ∃ body n' s',
    convert_currency self from_currency to_currency amount0 w n s
      = (Ok (HttpResponse body), n', s') ∧
    resp_from_currency body = Py.upper from_currency ∧
    resp_to_currency body = Py.upper to_currency ∧
    resp_amount body = amount0 ∧
    is_Some (resp_rate body) ∧
    PrimFloat.leb 0.2%float (resp_confidence_score body) = true ∧
    Inv (cache_manager s') ∧
    total_conversions (stats s') = total_conversions (stats s) + 1.
Proof.
  intros Hinv Ht. unfold convert_currency, try_except.
  unfold bind at 1, time_time at 1. unfold bind at 1.
  destruct (convert_keeps_contract (Py.upper from_currency)
              (Py.upper to_currency) amount0 w (S n) s Hinv Ht)
    as (r & n1 & s1 & -> & [x Hrate] & Hinv1 & Ht1 & Hconf).
  unfold_monad. rewrite Hrate. eexists _, _, _. split; [reflexivity|]. cbn.
  eauto 10.
Qed.

End UnderContract.

Lemma fast_probe_contract (CACHE_TTL : Z) :
  probe_contract (H := FastCacheManager_instance CACHE_TTL) fast_cache_ok.
Proof.
  assert (∀ now c, fast_cache_ok c →
    fast_cache_ok {| fc_cache := <["health_check" := TestDict]> (fc_cache c);
                     fc_timestamps :=
                       <["health_check" := now]> (fc_timestamps c) |})
    as Hins.
  { intros now c [Hts Htest]. split; intros k; cbn; rewrite !lookup_insert;
      case_decide; first [done|apply Hts|apply Htest]. }
  intros w n c Hok. cbn. unfold FastCacheManager.set.
  unfold FastCacheManager._cleanup_expired. unfold_monad. cbn.
  destruct (_ =? 0).
  - eexists _, _. split; [done|].
    apply fast_cache_ok_cleanup. by apply Hins.
  - eexists _, _. split; [done|]. by apply Hins.
Qed.

Lemma health_check_under_contract_witness :
  ∃ h n' s',
    health_check (H := FastCacheManager_instance 300) production_engine
      offline_world 0%nat production_state = (Ok h, n', s') ∧
    status h = "healthy" ∧ issues h = [] ∧
    probe_raised (cache_manager_status h) = false ∧
    length (test_conversions h) = 3%nat ∧
    Forall (λ t, test_succeeded t = true) (test_conversions h) ∧
    fast_cache_ok (cache_manager s') ∧
    total_conversions (stats s')
      = total_conversions (stats production_state) + 3.
Proof.
  apply (health_check_under_contract (H := FastCacheManager_instance 300)
           production_engine fast_cache_ok (fast_cache_contract 300)
           (fast_probe_contract 300) offline_world 0%nat production_state).
  - apply fast_cache_ok_init.
  - vm_compute. discriminate.
Defined.

Lemma convert_currency_under_contract_witness :
  ∃ body n' s',
    convert_currency (H := FastCacheManager_instance 300) production_engine
      "btc" "xyz" 2%float offline_world 0%nat production_state
      = (Ok (HttpResponse body), n', s') ∧
    resp_from_currency body = Py.upper "btc" ∧
    resp_to_currency body = Py.upper "xyz" ∧
    resp_amount body = 2%float ∧
    is_Some (resp_rate body) ∧
    PrimFloat.leb 0.2%float (resp_confidence_score body) = true ∧
    fast_cache_ok (cache_manager s') ∧
    total_conversions (stats s')
      = total_conversions (stats production_state) + 1.
Proof.
  apply (convert_currency_under_contract (H := FastCacheManager_instance 300)
           production_engine fast_cache_ok (fast_cache_contract 300)
           "btc" "xyz" 2%float offline_world 0%nat production_state).
  - apply fast_cache_ok_init.
  - vm_compute. discriminate.
Defined.

(** ** Counting calls *)

Section CountingCalls.
Context {C : Type} `{CacheManager C}.
Variable self : Engine.

Lemma update_statistics_bounds (r : ConversionResult) w n
    (s : EngineState C) :
  let st' := stats (update_statistics r w n s).2 in
  total_conversions st' = total_conversions (stats s) ∧
  successful_conversions (stats s) ≤ successful_conversions st'
    ≤ successful_conversions (stats s) + 1 ∧
  fallback_uses (stats s) ≤ fallback_uses st' ≤ fallback_uses (stats s) + 1.
Proof.
  unfold update_statistics. unfold_monad. unfold modify, Py.div_int.
  destruct (bool_decide (rate r ≠ None)), (cached r),
    (bool_decide (method r = FALLBACK)); cbn;
    destruct (Z.eqb_spec (total_conversions (stats s)) 0); cbn; lia.
Qed.

Lemma same_summary_fallback base quote amount0 start :
  keeps same_summary
    (_fallback_conversion (C := C) self base quote amount0 start).
Proof.
  apply (whole_fallback self same_summary same_summary_refl
           same_summary_trans same_summary_get same_summary_set).
Qed.

(** Whatever the backend does and however the call ends, [convert]
    counts the call once and a success or a fallback at most once. *)
Lemma convert_counts_once base quote amount0 w n (s : EngineState C) :
  counted_calls 1 (stats s) (stats (convert self base quote amount0 w n s).2).
Proof.
  destruct (decide (Py.upper base = Py.upper quote)) as [Heq|Hne].
  { rewrite (convert_same_symbol self _ _ _ _ _ _ Heq).
    unfold counted_calls; cbn. lia. }
  set (s0 := {| cache_manager := cache_manager s;
                stats := upd_total_conversions (λ k, k + 1) (stats s) |}).
  assert (∀ s', same_summary s0 s' → counted_calls 1 (stats s) (stats s'))
    as Hsame.
  { intros s' (Ht & Hs & Hf & _). unfold counted_calls.
    rewrite Ht, Hs, Hf. cbn. lia. }
  destruct (convert_cases self base quote amount0 w n s _ Hne eq_refl)
    as (r1 & n1 & s1 & H1 & Hc1). fold s0 in H1.
  pose proof (keeps_direct self same_summary same_summary_refl
                same_summary_trans same_summary_get same_summary_set
                same_summary_stats (Py.upper base) (Py.upper quote)
                amount0 (clock w n) w (S n) s0) as K1.
  rewrite H1 in K1. cbn [snd] in K1.
  destruct Hc1 as [[Hr1 ->]|[Hr1 (r2 & n2 & s2 & H2 & Hc2)]];
    [by apply Hsame|].
  pose proof (keeps_single_pivot self same_summary same_summary_refl
                same_summary_trans same_summary_get same_summary_set
                same_summary_stats (Py.upper base) (Py.upper quote)
                amount0 (clock w n) w n1 s1) as K2.
  rewrite H2 in K2. cbn [snd] in K2.
  pose proof (same_summary_trans _ _ _ K1 K2) as K12.
  destruct Hc2 as [[Hr2 ->]|[Hr2 (r3 & n3 & s3 & H3 & Hc3)]];
    [by apply Hsame|].
  pose proof (keeps_double_pivot self same_summary same_summary_refl
                same_summary_trans same_summary_get same_summary_set
                same_summary_stats (Py.upper base) (Py.upper quote)
                amount0 (clock w n) w n2 s2) as K3.
  rewrite H3 in K3. cbn [snd] in K3.
  pose proof (same_summary_trans _ _ _ K12 K3) as K123.
  destruct Hc3 as [[Hr3 ->]|[Hr3 ->]]; [by apply Hsame|].
  pose proof (same_summary_fallback (Py.upper base) (Py.upper quote) amount0
                (clock w n) w n3 s3) as K4.
  unfold bind at 1.
  destruct (_fallback_conversion self (Py.upper base) (Py.upper quote)
              amount0 (clock w n) w n3 s3) as [[[r4|e] n4] s4];
    cbn [snd] in K4;
    pose proof (same_summary_trans _ _ _ K123 K4) as (Ht & Hs & Hf & _);
    [|unfold counted_calls; cbn [snd]; rewrite Ht, Hs, Hf; cbn; lia].
  unfold bind at 1.
  pose proof (update_statistics_bounds r4 w n4 s4) as Hup. cbv zeta in Hup.
  destruct (update_statistics r4 w n4 s4) as [[[[]|e] n5] s5];
    unfold ret; cbn [snd] in Hup |- *; unfold counted_calls;
    rewrite Ht, Hs, Hf in Hup; cbn in Hup; lia.
Qed.

End CountingCalls.

(** ** The health check, step by step *)

Section HealthCheckSteps.
Context {C : Type} `{CacheManager C}.
Variable self : Engine.

Lemma counted_calls_add j k st1 st2 st3 :
  counted_calls j st1 st2 → counted_calls k st2 st3 →
  counted_calls (j + k) st1 st3.
Proof. unfold counted_calls. lia. Qed.

(** The probe never raises and leaves the counters alone. *)
Lemma check_cache_manager_total w n (s : EngineState C) :
  ∃ c n' s',
    check_cache_manager w n s
      = (Ok (c, if probe_raised c then ["Cache manager not responding"]
                else []), n', s') ∧
    stats s' = stats s.
Proof.
  unfold check_cache_manager, try_except, bind, cache_set, cache_get, zoom,
    ret.
  destruct (cm_set "health_check" TestDict 10 w n (cache_manager s))
    as [[[[]|e] n1] c1]; cbn [cache_manager stats].
  - destruct (cm_get "health_check" w n1 c1) as [[[[v|]|e] n2] c2].
    + by exists Operational, n2, {| cache_manager := c2; stats := stats s |}.
    + by exists Failed, n2, {| cache_manager := c2; stats := stats s |}.
    + by exists (CacheRaised e), n2,
        {| cache_manager := c2; stats := stats s |}.
  - by exists (CacheRaised e), n1,
      {| cache_manager := c1; stats := stats s |}.
Qed.

(** A test conversion never raises: it reports the conversion's
    exception. *)
Lemma test_conversion_total base quote w n (s : EngineState C) :
  ∃ t,
    test_conversion self base quote w n s
      = (Ok (t, if test_raised t
                then ["Test conversion failed: " +:+ pair_name base quote]
                else []),
         (convert self base quote 1.0 w n s).1.2,
         (convert self base quote 1.0 w n s).2) ∧
    (test_succeeded t = true ↔
     ∃ r, (convert self base quote 1.0 w n s).1.1 = Ok r ∧ is_Some (rate r)).
Proof.
  unfold test_conversion, try_except, bind, ret.
  destruct (convert self base quote 1.0 w n s) as [[[r|e] n1] s1]; cbn.
  - eexists (TestRan _ _ _ _ _). split; [reflexivity|]. cbn.
    rewrite bool_decide_eq_true. split.
    + intros Hr. exists r. split; [done|]. by destruct (rate r).
    + intros (r' & [= <-] & [x Hx]). by rewrite Hx.
  - eexists (TestRaised _ _). split; [reflexivity|]. cbn.
    split; [done|]. by intros (r & [=] & _).
Qed.

Lemma run_test_pairs_total ps w n (s : EngineState C) :
  ∃ ts iss n' s',
    run_test_pairs self ps w n s = (Ok (ts, iss), n', s') ∧
    length ts = length ps ∧
    length iss = length (List.filter test_raised ts) ∧
    counted_calls (Z.of_nat (length ps)) (stats s) (stats s').
Proof.
  revert w n s. induction ps as [|[base quote] ps IH]; intros w n s.
  { exists [], [], n, s. split; [done|]. unfold counted_calls. cbn.
    repeat split; lia. }
  cbn [run_test_pairs]. unfold bind at 1.
  destruct (test_conversion_total base quote w n s) as (t & -> & _).
  pose proof (convert_counts_once self base quote 1.0 w n s) as Hone.
  destruct (IH w (convert self base quote 1.0 w n s).1.2
                 (convert self base quote 1.0 w n s).2)
    as (ts & iss & n' & s' & Hrest & Hlen & Hiss & Hcount).
  unfold bind at 1. rewrite Hrest. unfold ret. cbn [fst snd].
  eexists _, _, _, _. split; [reflexivity|].
  split; [cbn; lia|]. split.
  - rewrite length_app, Hiss. cbn [List.filter].
    by destruct (test_raised t).
  - replace (Z.of_nat (length ((base, quote) :: ps)))
      with (1 + Z.of_nat (length ps)) by (cbn [length]; lia).
    by eapply counted_calls_add.
Qed.

(** X13. [health_check] never raises, whatever the cache manager and the
    conversions do: an exception of the probe or of a test conversion
    becomes one entry of [issues].  It reports on three conversions, the
    status is "degraded" exactly when there is an issue, and the three
    conversions are counted in [total_conversions]. *)
Theorem health_check_never_raises (w : World) (n : nat) (s : EngineState C) :
  ∃ h n' s',
    health_check self w n s = (Ok h, n', s') ∧
    length (test_conversions h) = 3%nat ∧
    length (issues h)
      = ((if probe_raised (cache_manager_status h) then 1 else 0)
         + length (List.filter test_raised (test_conversions h)))%nat ∧
    (status h = "healthy" ∧ issues h = [] ∨
     status h = "degraded" ∧ issues h ≠ []) ∧
    total_conversions (stats s') = total_conversions (stats s) + 3.
Proof.
  unfold health_check. unfold bind at 1.
  destruct (check_cache_manager_total w n s) as (c & n1 & s1 & -> & Hstats).
  unfold bind at 1.
  destruct (run_test_pairs_total test_pairs w n1 s1)
    as (ts & iss & n2 & s2 & -> & Hlen & Hiss & Hcount & _).
  unfold ret. eexists _, _, _. split; [reflexivity|]. cbn.
  split; [done|]. split; [|split].
  - rewrite length_app, Hiss. by destruct (probe_raised c).
  - destruct (_ ++ iss); [by left|by right].
  - rewrite Hcount, Hstats. done.
Qed.

(** X9. Calls are counted whatever happens.  For every cache manager,
    every answer of the providers and every outcome (a result or an
    exception), [convert] and the [/api/convert] endpoint add exactly one
    to [total_conversions] and [health_check] adds exactly three, while
    [successful_conversions] and [fallback_uses] never go down and grow by
    at most as much. *)
Theorem calls_are_counted (base quote : string) (amount0 : float)
    (w : World) (n : nat) (s : EngineState C) :
  counted_calls 1 (stats s)
    (stats (convert self base quote amount0 w n s).2) ∧
  counted_calls 1 (stats s)
    (stats (convert_currency self base quote amount0 w n s).2) ∧
  counted_calls 3 (stats s) (stats (health_check self w n s).2).
Proof.
  split; [apply convert_counts_once|]. split.
  - unfold convert_currency, try_except.
    unfold bind at 1, time_time at 1. unfold bind at 1.
    pose proof (convert_counts_once self (Py.upper base) (Py.upper quote)
                  amount0 w (S n) s) as Hone.
    destruct (convert self (Py.upper base) (Py.upper quote) amount0 w (S n) s)
      as [[[r|e] n1] s1]; cbn [snd] in Hone; [|done].
    unfold_monad. by destruct (rate r).
  - unfold health_check. unfold bind at 1.
    destruct (check_cache_manager_total w n s) as (c & n1 & s1 & -> & Hstats).
    unfold bind at 1.
    destruct (run_test_pairs_total test_pairs w n1 s1)
      as (ts & iss & n2 & s2 & -> & _ & _ & Hcount).
    unfold ret. cbn [snd]. by rewrite <- Hstats.
Qed.

End HealthCheckSteps.

(** ** The in-memory cache under whole conversions *)

Lemma fast_get_keeps_dom (CACHE_TTL : Z) key w n (c : FastCache) :
  fast_cache_dom c →
  fast_cache_dom (FastCacheManager.get CACHE_TTL key w n c).2.
Proof.
  intros Hdom. unfold FastCacheManager.get. unfold_monad.
  destruct (fc_cache c !! key) as [v|] eqn:Hv; [|done].
  destruct (proj1 (Hdom key)) as [ts Hts]; [by rewrite Hv|]. rewrite Hts.
  destruct (PrimFloat.ltb _ _); [done|]. by apply fast_cache_dom_delete.
Qed.

Lemma fast_set_keeps_dom (CACHE_TTL : Z) key v ttl w n (c : FastCache) :
  fast_cache_dom c →
  fast_cache_dom (FastCacheManager.set CACHE_TTL key v ttl w n c).2.
Proof.
  intros Hdom. unfold FastCacheManager.set.
  unfold FastCacheManager._cleanup_expired. unfold_monad. cbn.
  destruct (_ =? 0); cbn [snd].
  - apply fast_cache_dom_remove. by apply fast_cache_dom_insert.
  - by apply fast_cache_dom_insert.
Qed.

Section FastCacheUnderConversions.
Variable CACHE_TTL : Z.
Variable self : Engine.

Lemma dom_kept_refl (s : EngineState FastCache) : dom_kept s s.
Proof. by intros Hdom. Qed.

Lemma dom_kept_trans (s1 s2 s3 : EngineState FastCache) :
  dom_kept s1 s2 → dom_kept s2 s3 → dom_kept s1 s3.
Proof. unfold dom_kept. auto. Qed.

Lemma dom_kept_get key :
  keeps dom_kept (cache_get (H := FastCacheManager_instance CACHE_TTL) key).
Proof.
  intros w n s Hdom. unfold cache_get, zoom.
  pose proof (fast_get_keeps_dom CACHE_TTL key w n _ Hdom) as Hkept.
  change (FastCacheManager.get CACHE_TTL key) with
    (cm_get (CacheManager := FastCacheManager_instance CACHE_TTL) key)
    in Hkept.
  by destruct (cm_get key w n (cache_manager s)) as [[a n1] c1].
Qed.

Lemma dom_kept_set key v ttl :
  keeps dom_kept
    (cache_set (H := FastCacheManager_instance CACHE_TTL) key v ttl).
Proof.
  intros w n s Hdom. unfold cache_set, zoom.
  pose proof (fast_set_keeps_dom CACHE_TTL key v ttl w n _ Hdom) as Hkept.
  change (FastCacheManager.set CACHE_TTL key v ttl) with
    (cm_set (CacheManager := FastCacheManager_instance CACHE_TTL) key v ttl)
    in Hkept.
  by destruct (cm_set key v ttl w n (cache_manager s)) as [[a n1] c1].
Qed.

Lemma dom_kept_counter (f : Stats → Stats) :
  keeps dom_kept (modify_stats (C := FastCache) f).
Proof. intros w n s Hdom. exact Hdom. Qed.

Lemma dom_kept_fetch sym :
  keeps dom_kept (_fetch_rate_data (C := FastCache) self sym).
Proof.
  apply keeps_fetch_rate_data;
    [apply dom_kept_refl|apply dom_kept_trans|].
  intros f _. apply dom_kept_counter.
Qed.

Lemma dom_kept_update r :
  keeps dom_kept (update_statistics (C := FastCache) r).
Proof.
  pose proof dom_kept_refl as Hrefl. pose proof dom_kept_trans as Htrans.
  unfold update_statistics, checked_div_int.
  repeat first [ apply dom_kept_counter | keeps_step ].
Qed.

(** X14. Through a whole [convert], a whole [health_check] and a whole
    request to [/api/convert], however they end, the two dictionaries of
    the [FastCacheManager] keep the same keys: every entry that can be
    found has a timestamp to be judged by. *)
Theorem conversions_keep_cache_keys_in_step (base quote : string)
    (amount0 : float) (w : World) (n : nat) (s : EngineState FastCache) :
  fast_cache_dom (cache_manager s) →
  fast_cache_dom
    (cache_manager
       (convert (H := FastCacheManager_instance CACHE_TTL) self base quote
          amount0 w n s).2) ∧
  fast_cache_dom
    (cache_manager
       (health_check (H := FastCacheManager_instance CACHE_TTL) self
          w n s).2) ∧
  fast_cache_dom
    (cache_manager
       (convert_currency (H := FastCacheManager_instance CACHE_TTL) self
          base quote amount0 w n s).2).
Proof.
  pose proof dom_kept_refl as Hrefl. pose proof dom_kept_trans as Htrans.
  assert (∀ b q a, keeps dom_kept
            (convert (H := FastCacheManager_instance CACHE_TTL) self b q a))
    as Hconvert.
  { intros b q a.
    apply (whole_convert self dom_kept Hrefl Htrans dom_kept_get
             (λ key r, dom_kept_set key (RateDict r)) dom_kept_fetch
             (dom_kept_counter _) dom_kept_update (dom_kept_counter _)). }
  intros Hdom. split; [by apply Hconvert|]. split.
  - by apply (whole_health_check self dom_kept Hrefl Htrans dom_kept_get
             (λ key r, dom_kept_set key (RateDict r)) dom_kept_fetch
             (dom_kept_counter _) dom_kept_update (dom_kept_counter _)
             (dom_kept_set "health_check" TestDict 10)).
  - revert Hdom.
    change (dom_kept s (convert_currency
              (H := FastCacheManager_instance CACHE_TTL) self base quote
              amount0 w n s).2).
    generalize w n s. change (keeps dom_kept (convert_currency
              (H := FastCacheManager_instance CACHE_TTL) self base quote
              amount0)).
    unfold convert_currency.
    repeat first [ apply Hconvert | keeps_step ].
Qed.

End FastCacheUnderConversions.

Lemma conversions_keep_cache_keys_in_step_witness :
  fast_cache_dom
    (cache_manager
       (convert (H := FastCacheManager_instance 300) production_engine
          "BTC" "USD" 1%float btc_usd_world 0%nat one_entry_state).2) ∧
  fast_cache_dom
    (cache_manager
       (health_check (H := FastCacheManager_instance 300) production_engine
          btc_usd_world 0%nat one_entry_state).2) ∧
  fast_cache_dom
    (cache_manager
       (convert_currency (H := FastCacheManager_instance 300)
          production_engine "BTC" "USD" 1%float btc_usd_world 0%nat
          one_entry_state).2).
Proof.
  apply (conversions_keep_cache_keys_in_step 300 production_engine
           "BTC" "USD" 1%float btc_usd_world 0%nat one_entry_state).
  intros key. cbn.
  destruct (decide (key = "direct:BTC:USD")) as [->|Hne].
  - by rewrite !lookup_singleton_eq.
  - rewrite !lookup_singleton_ne by done. split; intros [? ?]; discriminate.
Defined.

(** ** Results of the single-pivot strategy *)

Section SinglePivot.
Context {C : Type} `{CacheManager C}.
Variable self : Engine.

Lemma ConversionMethod_of_value_sound {St} (v : string) m w n (s : St) n' s' :
  ConversionMethod_of_value v w n s = (Ok m, n', s') → method_value m = v.
Proof.
  unfold ConversionMethod_of_value.
  destruct (find _ all_methods) as [m'|] eqn:Hfind; [|by intros [=]].
  unfold ret. intros [= <- _ _].
  apply find_some in Hfind as [_ Heq]. by apply String.eqb_eq.
Qed.

Lemma single_pivot_attempt_cases base quote amount0 start pivot w n
    (s : EngineState C) :
  ∃ o n' s',
    single_pivot_attempt self base quote amount0 start pivot w n s
      = (Ok o, n', s') ∧
    ∀ r, o = Some r →
         pivot ≠ base ∧ pivot ≠ quote ∧
         single_pivot_shape base quote amount0 pivot r.
Proof.
  unfold single_pivot_attempt.
  destruct (String.eqb_spec pivot base) as [|Hb]; cbn [orb].
  { eexists _, _, _. split; [reflexivity|]. by intros r [=]. }
  destruct (String.eqb_spec pivot quote) as [|Hq].
  { eexists _, _, _. split; [reflexivity|]. by intros r [=]. }
  unfold try_except. unfold bind at 1.
  destruct (_get_conversion_rate self base pivot w n s)
    as [[[[r1|]|e] n1] s1]; unfold ret;
    try (eexists _, _, _; split; [reflexivity|]; by intros r [=]).
  unfold bind at 1.
  destruct (_get_conversion_rate self pivot quote w n1 s1)
    as [[[[r2|]|e] n2] s2]; unfold ret;
    try (eexists _, _, _; split; [reflexivity|]; by intros r [=]).
  unfold bind at 1.
  destruct (ConversionMethod_of_value ("via_" +:+ pivot) w n2 s2)
    as [[[m|e] n3] s3] eqn:Hm;
    try (eexists _, _, _; split; [reflexivity|]; by intros r [=]).
  apply ConversionMethod_of_value_sound in Hm.
  unfold_monad. eexists _, _, _. split; [reflexivity|].
  intros r [= <-]. split; [done|]. split; [done|].
  exists r1, r2. done.
Qed.

Lemma single_pivot_loop_cases base quote amount0 start ps w n
    (s : EngineState C) :
  ∃ o n' s',
    single_pivot_loop self base quote amount0 start ps w n s
      = (Ok o, n', s') ∧
    ∀ r, o = Some r →
         ∃ pivot, pivot ∈ ps ∧ pivot ≠ base ∧ pivot ≠ quote ∧
                  single_pivot_shape base quote amount0 pivot r.
Proof.
  revert n s. induction ps as [|pivot ps IH]; intros n s; simpl.
  { eexists _, _, _. split; [reflexivity|]. by intros r [=]. }
  unfold bind at 1.
  destruct (single_pivot_attempt_cases base quote amount0 start pivot w n s)
    as (o & n1 & s1 & -> & Hshape).
  destruct o as [r1|].
  - unfold ret. eexists _, _, _. split; [reflexivity|].
    intros r [= <-]. exists pivot. split; [left|by apply Hshape].
  - destruct (IH n1 s1) as (o & n2 & s2 & -> & Hrest).
    eexists _, _, _. split; [reflexivity|].
    intros r Hr. destruct (Hrest r Hr) as (p & Hin & Hp).
    exists p. split; [by right|done].
Qed.

(** X10. The single-pivot strategy never raises, and it ends in one of
    two ways.  Either it bridged through one of the four pivots, one that
    is neither the base nor the quote: the rate is the product of the two
    legs, the amount is the input times that rate, the two legs are
    recorded in [bridge_rates] under their pair names, the method's value
    is "via_" followed by the pivot, and the confidence is 0.8.  Or no
    pivot worked: rate and amount are absent, the error says so, and the
    method reads "via_USD" although USD may not have been tried. *)
Theorem single_pivot_outcomes (base quote : string) (amount0 start : float)
    (w : World) (n : nat) (s : EngineState C) :
  ∃ r n' s',
    _try_single_pivot_conversion self base quote amount0 start w n s
      = (Ok r, n', s') ∧
    ((∃ pivot, pivot ∈ pivots ∧ pivot ≠ base ∧ pivot ≠ quote ∧
               single_pivot_shape base quote amount0 pivot r) ∨
     (rate r = None ∧ amount r = None ∧ bridge_rates r = None ∧
      confidence r = 0.0%float ∧ method r = USD_BRIDGE ∧
      error r = Some "Single pivot conversion failed" ∧ cached r = false ∧
      pair r = pair_name base quote)).
Proof.
  unfold _try_single_pivot_conversion. unfold bind at 1.
  destruct (single_pivot_loop_cases base quote amount0 start pivots w n s)
    as (o & n1 & s1 & -> & Hshape).
  destruct o as [r|].
  - unfold ret. eexists _, _, _. split; [reflexivity|]. left. by apply Hshape.
  - unfold_monad. eexists _, _, _. split; [reflexivity|]. right. done.
Qed.

End SinglePivot.

(** ** Conversions over a cache whose look-ups raise *)

Lemma upper_ascii_idempotent (c : ascii) :
  Py.upper_ascii (Py.upper_ascii c) = Py.upper_ascii c.
Proof.
  destruct c as [[] [] [] [] [] [] [] []]; vm_compute; reflexivity.
Qed.

Lemma upper_idempotent (s : string) : Py.upper (Py.upper s) = Py.upper s.
Proof.
  induction s as [|c s IH]; [done|]. cbn [Py.upper].
  by rewrite upper_ascii_idempotent, IH.
Qed.

Section FailingCache.
Context {C : Type} `{CacheManager C}.
Variable self : Engine.
Hypothesis Hraise : get_raises C.

Lemma failing_rate_lookup base quote w n (s : EngineState C) :
  ∃ n' c',
    _get_conversion_rate self base quote w n s
      = (Ok None, n', {| cache_manager := c'; stats := stats s |}).
Proof.
  unfold _get_conversion_rate, try_except. cbv zeta. unfold bind at 1.
  unfold cache_get, zoom.
  destruct (Hraise (rate_key base quote) w n (cache_manager s))
    as (e & n1 & c1 & ->).
  unfold ret. by eexists _, _.
Qed.

Lemma failing_direct base quote amount0 start w n (s : EngineState C) :
  ∃ r n' c',
    _try_direct_conversion self base quote amount0 start w n s
      = (Ok r, n', {| cache_manager := c'; stats := stats s |}) ∧
    rate r = None.
Proof.
  unfold _try_direct_conversion, try_except. cbv zeta. unfold bind at 1.
  unfold bind at 1. unfold cache_get, zoom.
  destruct (Hraise (direct_key base quote) w n (cache_manager s))
    as (e & n1 & c1 & ->).
  unfold_monad. by eexists _, _, _.
Qed.

Lemma failing_single_pivot_loop base quote amount0 start ps w n
    (s : EngineState C) :
  ∃ n' c',
    single_pivot_loop self base quote amount0 start ps w n s
      = (Ok None, n', {| cache_manager := c'; stats := stats s |}).
Proof.
  revert n s. induction ps as [|pivot ps IH]; intros n s; simpl.
  { unfold ret. exists n, (cache_manager s). by destruct s. }
  unfold bind at 1. unfold single_pivot_attempt.
  destruct (_ || _).
  - unfold ret. apply IH.
  - unfold try_except. unfold bind at 1.
    destruct (failing_rate_lookup base pivot w n s) as (n1 & c1 & ->).
    unfold ret.
    destruct (IH n1 {| cache_manager := c1; stats := stats s |})
      as (n2 & c2 & ->). by eexists _, _.
Qed.

Lemma failing_double_pivot_loop base quote amount0 start combos w n
    (s : EngineState C) :
  ∃ n' c',
    double_pivot_loop self base quote amount0 start combos w n s
      = (Ok None, n', {| cache_manager := c'; stats := stats s |}).
Proof.
  revert n s. induction combos as [|[p1 p2] combos IH]; intros n s; simpl.
  { unfold ret. exists n, (cache_manager s). by destruct s. }
  unfold bind at 1. unfold double_pivot_attempt.
  destruct (_ || _).
  - unfold ret. apply IH.
  - unfold try_except. unfold bind at 1.
    destruct (failing_rate_lookup base p1 w n s) as (n1 & c1 & ->).
    unfold ret.
    destruct (IH n1 {| cache_manager := c1; stats := stats s |})
      as (n2 & c2 & ->). by eexists _, _.
Qed.

(** X11. When the cache manager's look-ups raise, a conversion between
    two different symbols raises as well: the three strategies swallow
    the exception and report no rate without ever asking a provider, and
    the fallback, which has no handler, lets it through.  The call is
    counted in [total_conversions] and nothing else is; the
    [/api/convert] endpoint turns the exception into a 500 with its fixed
    detail. *)
Theorem convert_over_failing_cache (base quote : string) (amount0 : float)
    (w : World) (n : nat) (s : EngineState C) :
  Py.upper base ≠ Py.upper quote →
  (∃ e n' s',
     convert self base quote amount0 w n s = (Raise e, n', s') ∧
     stats s' = upd_total_conversions (λ k, k + 1) (stats s)) ∧
  (∃ n' s',
     convert_currency self base quote amount0 w n s
       = (Ok (HTTPException 500
                "Smart conversion service temporarily unavailable"),
          n', s') ∧
     stats s' = upd_total_conversions (λ k, k + 1) (stats s)).
Proof.
  assert (∀ b q n0, Py.upper b ≠ Py.upper q →
    ∃ e n' s',
      convert self b q amount0 w n0 s = (Raise e, n', s') ∧
      stats s' = upd_total_conversions (λ k, k + 1) (stats s)) as Hconvert.
  { intros b q n0 Hne.
    destruct (convert_cases self b q amount0 w n0 s _ Hne eq_refl)
      as (r1 & n1 & s1 & H1 & Hc1).
    destruct (failing_direct (Py.upper b) (Py.upper q) amount0 (clock w n0)
                w (S n0)
                {| cache_manager := cache_manager s;
                   stats := upd_total_conversions (λ k, k + 1) (stats s) |})
      as (r1' & n1' & c1 & H1' & Hr1).
    rewrite H1' in H1. injection H1 as <- <- <-.
    destruct Hc1 as [[Hr1' _]|[_ (r2 & n2 & s2 & H2 & Hc2)]]; [done|].
    unfold _try_single_pivot_conversion in H2. unfold bind at 1 in H2.
    destruct (failing_single_pivot_loop (Py.upper b) (Py.upper q) amount0
                (clock w n0) pivots w n1'
                {| cache_manager := c1;
                   stats := upd_total_conversions (λ k, k + 1) (stats s) |})
      as (n2' & c2 & Hloop).
    rewrite Hloop in H2. unfold_monad. injection H2 as <- <- <-.
    destruct Hc2 as [[Hr2 _]|[_ (r3 & n3 & s3 & H3 & Hc3)]]; [done|].
    assert (∃ c3, s3 = {| cache_manager := c3;
                          stats := upd_total_conversions (λ k, k + 1)
                                     (stats s) |} ∧ rate r3 = None)
      as (c3 & -> & Hr3).
    { unfold _try_double_pivot_conversion in H3.
      destruct (negb _).
      - injection H3 as <- <- <-. by eexists.
      - destruct (failing_double_pivot_loop (Py.upper b) (Py.upper q)
                    amount0 (clock w n0) pivot_combinations w (S n2')
                    {| cache_manager := c2;
                       stats := upd_total_conversions (λ k, k + 1)
                                  (stats s) |})
          as (n3' & c3 & Hloop3).
        unfold bind at 1 in H3. rewrite Hloop3 in H3.
        unfold elapsed_ms, bind, time_time, ret in H3.
        injection H3 as <- <- <-. by eexists. }
    destruct Hc3 as [[Hr3' _]|[_ ->]]; [done|].
    unfold _fallback_conversion. cbv zeta. unfold bind at 1.
    unfold bind at 1. unfold cache_get, zoom. cbn [cache_manager stats].
    destruct (Hraise (fallback_key (Py.upper b) (Py.upper q)) w n3 c3)
      as (e & n4 & c4 & Hget).
    rewrite Hget. by eexists _, _, _. }
  intros Hne. split; [by apply Hconvert|].
  unfold convert_currency, try_except.
  unfold bind at 1, time_time at 1. unfold bind at 1.
  destruct (Hconvert (Py.upper base) (Py.upper quote) (S n))
    as (e & n1 & s1 & -> & Hstats).
  { by rewrite !upper_idempotent. }
  unfold ret. by eexists _, _.
Qed.

End FailingCache.

Lemma convert_over_failing_cache_witness :
  (∃ e n' s',
     convert (H := UnreachableCacheManager_instance) production_engine
       "BTC" "USD" 1%float btc_usd_world 0%nat (initial_state tt)
       = (Raise e, n', s') ∧
     stats s' = upd_total_conversions (λ k, k + 1) (stats (initial_state tt))) ∧
  (∃ n' s',
     convert_currency (H := UnreachableCacheManager_instance)
       production_engine "BTC" "USD" 1%float btc_usd_world 0%nat
       (initial_state tt)
       = (Ok (HTTPException 500
                "Smart conversion service temporarily unavailable"),
          n', s') ∧
     stats s' = upd_total_conversions (λ k, k + 1) (stats (initial_state tt))).
Proof.
  apply (convert_over_failing_cache (H := UnreachableCacheManager_instance)
           production_engine).
  - intros key w n c. by eexists _, _, _.
  - vm_compute. discriminate.
Defined.

(** ** Supported pairs *)

Lemma length_bind_const {A B} (f : A → list B) (k : nat) (l : list A) :
  (∀ x, x ∈ l → length (f x) = k) → length (l ≫= f) = (length l * k)%nat.
Proof.
  induction l as [|x l IH]; intros Hk; [done|].
  rewrite bind_cons, length_app, IH.
  - rewrite (Hk x) by left. cbn [length]. lia.
  - intros y Hy. apply Hk. by right.
Qed.

Lemma length_bind_others (base : string) (g : string → string)
    (l : list string) :
  NoDup l →
  length (l ≫= λ quote, if bool_decide (base ≠ quote) then [g quote] else [])
  = (length l - (if bool_decide (base ∈ l) then 1 else 0))%nat.
Proof.
  induction 1 as [|x l Hx Hnd IH]; [done|].
  rewrite bind_cons, length_app, IH. cbn [length].
  destruct (decide (base = x)) as [<-|Hne].
  - rewrite (bool_decide_eq_false_2 (base ≠ base)) by (by intros ?).
    rewrite (bool_decide_eq_true_2 (base ∈ base :: l)) by left.
    rewrite (bool_decide_eq_false_2 (base ∈ l)) by done. cbn. lia.
  - rewrite (bool_decide_eq_true_2 (base ≠ x)) by done. cbn [length].
    destruct (decide (base ∈ l)) as [Hin|Hout].
    + rewrite (bool_decide_eq_true_2 (base ∈ l)) by done.
      rewrite (bool_decide_eq_true_2 (base ∈ x :: l)) by (by right).
      destruct l; [by apply elem_of_nil in Hin|]. cbn [length]. lia.
    + rewrite (bool_decide_eq_false_2 (base ∈ l)) by done.
      rewrite (bool_decide_eq_false_2 (base ∈ x :: l)); [lia|].
      intros [?|?]%elem_of_cons; done.
Qed.

(** X16. [get_supported_pairs] lists exactly the names [BASE/QUOTE] of
    two different supported assets, crypto or fiat alike, and for [N]
    supported assets it has [N * (N - 1)] entries. *)
Theorem supported_pairs_are_all_ordered_pairs (self : Engine) :
  (∀ p, p ∈ get_supported_pairs self ↔
        ∃ base quote,
          base ∈ crypto_assets self ∪ fiat_assets self ∧
          quote ∈ crypto_assets self ∪ fiat_assets self ∧
          base ≠ quote ∧ p = pair_name base quote) ∧
  length (get_supported_pairs self)
  = (size (crypto_assets self ∪ fiat_assets self)
     * (size (crypto_assets self ∪ fiat_assets self) - 1))%nat.
Proof.
  unfold get_supported_pairs. cbv zeta.
  set (all_assets := elements (crypto_assets self ∪ fiat_assets self)).
  assert (∀ a, a ∈ all_assets ↔ a ∈ crypto_assets self ∪ fiat_assets self)
    as Hin by (intros a; apply elem_of_elements).
  split.
  - intros p. rewrite list_elem_of_bind. split.
    + intros (base & Hp & Hbase). apply list_elem_of_bind in Hp
        as (quote & Hp & Hquote).
      case_bool_decide as Hne; [|by apply elem_of_nil in Hp].
      apply list_elem_of_singleton in Hp.
      exists base, quote. by rewrite <- !Hin.
    + intros (base & quote & Hbase & Hquote & Hne & ->).
      exists base. rewrite Hin. split; [|done].
      apply list_elem_of_bind. exists quote. rewrite Hin. split; [|done].
      rewrite bool_decide_eq_true_2 by done. by left.
  - unfold size, set_size. cbn. fold all_assets.
    apply length_bind_const. intros base Hbase.
    rewrite (length_bind_others base (pair_name base)).
    + by rewrite bool_decide_eq_true_2.
    + apply NoDup_elements.
Qed.

(** ** An estimate, then the same estimate from the cache *)

Lemma fast_set_entry (CACHE_TTL : Z) key v ttl w n (c : FastCache) :
  FastCacheManager.expired CACHE_TTL (clock w (S n)) (clock w n) = false →
  ∃ n' c',
    FastCacheManager.set CACHE_TTL key v ttl w n c = (Ok tt, n', c') ∧
    fc_cache c' !! key = Some v ∧
    fc_timestamps c' !! key = Some (clock w n).
Proof.
  intros Hclean. unfold FastCacheManager.set, FastCacheManager._cleanup_expired.
  unfold_monad. cbn. destruct (_ =? 0).
  - eexists _, _. split; [done|]. cbn.
    assert (filter (λ kts : string * float,
                      FastCacheManager.expired CACHE_TTL (clock w (S n))
                        kts.2 = true)
                   (<[key := clock w n]> (fc_timestamps c)) !! key = None)
      as Hkept.
    { apply map_lookup_filter_None. right. intros ts.
      rewrite lookup_insert_eq. intros [= <-]. cbn [snd]. by rewrite Hclean. }
    split; apply map_lookup_filter_Some; by rewrite lookup_insert_eq.
  - eexists _, _. split; [done|]. cbn. by rewrite !lookup_insert_eq.
Qed.

Section EstimateTwice.
Variable CACHE_TTL : Z.
Variable self : Engine.

(** X17. On the [FastCacheManager], when no estimate is cached for a
    pair, the fallback strategy answers with a fresh estimate (method
    "fallback", confidence 0.2, error "Using estimated rate") and stores
    it; a fallback for the same pair made while the entry is younger than
    [CACHE_TTL] answers with the same number, now with method "cached",
    confidence 0.3 and no error, and changes nothing.  (The clock is
    assumed not to jump by [CACHE_TTL] between two consecutive readings.) *)
Theorem estimate_comes_back_as_cached (base quote : string)
    (amount0 start : float) (w : World) (n : nat)
    (s : EngineState FastCache) :
  fc_cache (cache_manager s) !! fallback_key base quote = None →
  FastCacheManager.expired CACHE_TTL (clock w (S n)) (clock w n) = false →
  ∃ r r1 n' s',
    _fallback_conversion (H := FastCacheManager_instance CACHE_TTL) self
      base quote amount0 start w n s = (Ok r1, n', s') ∧
    rate r1 = Some r ∧ method r1 = FALLBACK ∧ confidence r1 = 0.2%float ∧
    cached r1 = false ∧ error r1 = Some "Using estimated rate" ∧
    ∀ start2 m,
      PrimFloat.ltb (clock w m - clock w n)%float (Py.float_of_Z CACHE_TTL)
        = true →
      ∃ r2,
        _fallback_conversion (H := FastCacheManager_instance CACHE_TTL) self
          base quote amount0 start2 w m s' = (Ok r2, S (S m), s') ∧
        rate r2 = Some r ∧ amount r2 = amount r1 ∧ method r2 = CACHED ∧
        confidence r2 = 0.3%float ∧ cached r2 = true ∧ error r2 = None.
Proof.
  intros Habsent Hclean.
  destruct (estimated_rate_positive self base quote w n s)
    as (r & Hest & Hpos).
  apply andb_true_iff in Hpos as [_ Htruthy].
  destruct (fast_set_entry CACHE_TTL (fallback_key base quote) (RateDict r)
              3600 w n (cache_manager s) Hclean)
    as (n1 & c1 & Hset & Hv & Hts).
  exists r. eexists _, _, _. split.
  { unfold _fallback_conversion. cbv zeta. unfold bind at 1.
    unfold cache_get at 1, zoom. cbn [cm_get FastCacheManager_instance].
    rewrite (fast_get_absent CACHE_TTL _ w n _ Habsent).
    assert ({| cache_manager := cache_manager s; stats := stats s |} = s)
      as -> by by destruct s.
    unfold bind at 1. rewrite Hest, Htruthy.
    unfold bind at 1. unfold cache_set at 1, zoom.
    cbn [cm_set FastCacheManager_instance]. rewrite Hset.
    unfold_monad. reflexivity. }
  cbn [rate method confidence cached error amount].
  do 5 (split; [done|]).
  intros start2 m Hfresh. eexists. split.
  { unfold _fallback_conversion. cbv zeta. unfold bind at 1.
    unfold cache_get at 1, zoom.
    cbn [cm_get FastCacheManager_instance cache_manager stats].
    rewrite (fast_get_fresh CACHE_TTL _ _ _ w m c1 Hv Hts Hfresh).
    unfold_monad. reflexivity. }
  done.
Qed.

End EstimateTwice.

Lemma estimate_comes_back_as_cached_witness :
  ∃ r r1 n' s',
    _fallback_conversion (H := FastCacheManager_instance 300)
      production_engine "BTC" "XYZ" 1%float 0%float offline_world 0%nat
      production_state = (Ok r1, n', s') ∧
    rate r1 = Some r ∧ method r1 = FALLBACK ∧ confidence r1 = 0.2%float ∧
    cached r1 = false ∧ error r1 = Some "Using estimated rate" ∧
    ∀ start2 m,
      PrimFloat.ltb (clock offline_world m - clock offline_world 0%nat)%float
        (Py.float_of_Z 300) = true →
      ∃ r2,
        _fallback_conversion (H := FastCacheManager_instance 300)
          production_engine "BTC" "XYZ" 1%float start2 offline_world m s'
          = (Ok r2, S (S m), s') ∧
        rate r2 = Some r ∧ amount r2 = amount r1 ∧ method r2 = CACHED ∧
        confidence r2 = 0.3%float ∧ cached r2 = true ∧ error r2 = None.
Proof.
  apply (estimate_comes_back_as_cached 300 production_engine "BTC" "XYZ"
           1%float 0%float offline_world 0%nat production_state).
  - vm_compute. reflexivity.
  - vm_compute. reflexivity.
Defined.

(** ** Where an exception of [convert] comes from *)

Section ConvertRaises.
Context {C : Type} `{CacheManager C}.
Variable self : Engine.

Lemma fallback_raise_cases base quote amount0 start w n (s : EngineState C)
    e n' s' :
  _fallback_conversion self base quote amount0 start w n s = (Raise e, n', s') →
  stats s' = stats s ∧
  ((cm_get (fallback_key base quote) w n (cache_manager s)
      = (Raise e, n', cache_manager s')) ∨
   (cm_get (fallback_key base quote) w n (cache_manager s)
      = (Ok (Some TestDict), n', cache_manager s') ∧ e = KeyError "rate") ∨
   (∃ r n1 c1,
      cm_get (fallback_key base quote) w n (cache_manager s)
        = (Ok None, n1, c1) ∧
      cm_set (fallback_key base quote) (RateDict r) 3600 w n1 c1
        = (Raise e, n', cache_manager s'))).
Proof.
  unfold _fallback_conversion. cbv zeta. unfold bind at 1.
  unfold cache_get at 1, zoom.
  destruct (cm_get (fallback_key base quote) w n (cache_manager s))
    as [[[[[r|]|]|e0] n1] c1].
  - unfold_monad. intros [=].
  - unfold_monad. intros [= <- <- <-]. split; [done|]. right; left. done.
  - unfold bind at 1.
    destruct (estimated_rate_positive self base quote w n1
                {| cache_manager := c1; stats := stats s |})
      as (r & -> & Hpos).
    apply andb_true_iff in Hpos as [_ ->].
    unfold bind at 1. unfold cache_set at 1, zoom. cbn [cache_manager stats].
    destruct (cm_set (fallback_key base quote) (RateDict r) 3600 w n1 c1)
      as [[[[]|e1] n2] c2] eqn:Hset.
    + unfold_monad. intros [=].
    + intros [= <- <- <-]. split; [done|]. right; right.
      by exists r, n1, c1.
  - intros [= <- <- <-]. split; [done|]. by left.
Qed.

(** X18. An exception of [convert] comes from the fallback's use of the
    cache and from nowhere else.  When a conversion that starts from a
    non-negative [total_conversions] raises, the symbols were different,
    the three strategies had returned without a rate, and the fallback
    raised: its look-up raised, or found the health check's dictionary
    (a [KeyError] on "rate"), or the write of the fresh estimate raised.
    Neither the providers nor the statistics block can make [convert]
    raise. *)
Theorem convert_raises_only_in_fallback (base quote : string)
    (amount0 : float) (w : World) (n : nat) (s : EngineState C)
    (e : exn) (n' : nat) (s' : EngineState C) :
  0 ≤ total_conversions (stats s) →
  convert self base quote amount0 w n s = (Raise e, n', s') →
  Py.upper base ≠ Py.upper quote ∧
  ∃ n3 s3,
    let key := fallback_key (Py.upper base) (Py.upper quote) in
    _fallback_conversion self (Py.upper base) (Py.upper quote) amount0
      (clock w n) w n3 s3 = (Raise e, n', s') ∧
    ((cm_get key w n3 (cache_manager s3) = (Raise e, n', cache_manager s')) ∨
     (cm_get key w n3 (cache_manager s3)
        = (Ok (Some TestDict), n', cache_manager s') ∧ e = KeyError "rate") ∨
     (∃ r n4 c4,
        cm_get key w n3 (cache_manager s3) = (Ok None, n4, c4) ∧
        cm_set key (RateDict r) 3600 w n4 c4
          = (Raise e, n', cache_manager s'))).
Proof.
  intros Htotal Hrun.
  destruct (decide (Py.upper base = Py.upper quote)) as [Heq|Hne].
  { by rewrite (convert_same_symbol self _ _ _ _ _ _ Heq) in Hrun. }
  split; [done|].
  set (s0 := {| cache_manager := cache_manager s;
                stats := upd_total_conversions (λ k, k + 1) (stats s) |}).
  destruct (convert_cases self base quote amount0 w n s _ Hne Hrun)
    as (r1 & n1 & s1 & H1 & Hc1). fold s0 in H1.
  pose proof (keeps_direct self same_summary same_summary_refl
                same_summary_trans same_summary_get same_summary_set
                same_summary_stats (Py.upper base) (Py.upper quote)
                amount0 (clock w n) w (S n) s0) as K1.
  rewrite H1 in K1. cbn [snd] in K1.
  destruct Hc1 as [[_ [=]]|[_ (r2 & n2 & s2 & H2 & Hc2)]].
  pose proof (keeps_single_pivot self same_summary same_summary_refl
                same_summary_trans same_summary_get same_summary_set
                same_summary_stats (Py.upper base) (Py.upper quote)
                amount0 (clock w n) w n1 s1) as K2.
  rewrite H2 in K2. cbn [snd] in K2.
  destruct Hc2 as [[_ [=]]|[_ (r3 & n3 & s3 & H3 & Hc3)]].
  pose proof (keeps_double_pivot self same_summary same_summary_refl
                same_summary_trans same_summary_get same_summary_set
                same_summary_stats (Py.upper base) (Py.upper quote)
                amount0 (clock w n) w n2 s2) as K3.
  rewrite H3 in K3. cbn [snd] in K3.
  pose proof (same_summary_trans _ _ _ (same_summary_trans _ _ _ K1 K2) K3)
    as (Ht & _).
  destruct Hc3 as [[_ [=]]|[_ Hout]].
  exists n3, s3. cbv zeta. unfold bind at 1 in Hout.
  destruct (_fallback_conversion self (Py.upper base) (Py.upper quote)
              amount0 (clock w n) w n3 s3) as [[[r4|e4] n4] s4] eqn:H4.
  - pose proof (same_summary_fallback self (Py.upper base) (Py.upper quote)
                  amount0 (clock w n) w n3 s3) as K4.
    rewrite H4 in K4. cbn [snd] in K4. destruct K4 as (Ht4 & _).
    destruct (update_statistics_returns r4 w n4 s4) as (s5 & H5 & _).
    { rewrite Ht4, Ht. cbn. lia. }
    unfold bind at 1 in Hout. rewrite H5 in Hout. by unfold ret in Hout.
  - injection Hout as <- <- <-. split; [done|].
    by apply fallback_raise_cases in H4 as [_ Hcases].
Qed.

End ConvertRaises.

Lemma convert_raises_only_in_fallback_witness :
  Py.upper "BTC" ≠ Py.upper "USD" ∧
  ∃ n3 s3,
    let key := fallback_key (Py.upper "BTC") (Py.upper "USD") in
    _fallback_conversion (H := UnreachableCacheManager_instance)
      production_engine (Py.upper "BTC") (Py.upper "USD") 1%float
      (clock btc_usd_world 0%nat) btc_usd_world n3 s3
      = (Raise (BackendError "cache unavailable"), 4%nat,
         {| cache_manager := tt;
            stats := upd_total_conversions (λ k, k + 1) initial_stats |}) ∧
    ((cm_get (CacheManager := UnreachableCacheManager_instance) key
        btc_usd_world n3 (cache_manager s3)
      = (Raise (BackendError "cache unavailable"), 4%nat, tt)) ∨
     (cm_get (CacheManager := UnreachableCacheManager_instance) key
        btc_usd_world n3 (cache_manager s3)
        = (Ok (Some TestDict), 4%nat, tt) ∧
      BackendError "cache unavailable" = KeyError "rate") ∨
     (∃ r n4 c4,
        cm_get (CacheManager := UnreachableCacheManager_instance) key
          btc_usd_world n3 (cache_manager s3) = (Ok None, n4, c4) ∧
        cm_set (CacheManager := UnreachableCacheManager_instance) key
          (RateDict r) 3600 btc_usd_world n4 c4
          = (Raise (BackendError "cache unavailable"), 4%nat, tt))).
Proof.
  apply (convert_raises_only_in_fallback
           (H := UnreachableCacheManager_instance) production_engine
           "BTC" "USD" 1%float btc_usd_world 0%nat (initial_state tt)).
  - vm_compute. discriminate.
  - vm_compute. reflexivity.
Defined.

(** ** Without API keys the providers are never consulted *)

Section Agrees.
Context {St : Type} (w1 w2 : World).
Hypothesis clocks : same_clock w1 w2.

Lemma agrees_ret {A} (a : A) : agrees (St := St) w1 w2 (ret a).
Proof. by intros n s. Qed.

Lemma agrees_raise {A} (e : exn) : agrees (St := St) w1 w2 (raise (A := A) e).
Proof. by intros n s. Qed.

Lemma agrees_time : agrees (St := St) w1 w2 time_time.
Proof. intros n s. unfold time_time. by rewrite clocks. Qed.

Lemma agrees_get_state : agrees (St := St) w1 w2 get_state.
Proof. by intros n s. Qed.

Lemma agrees_modify (f : St → St) : agrees w1 w2 (modify f).
Proof. by intros n s. Qed.

Lemma agrees_bind {A B} (m : M St A) (k : A → M St B) :
  agrees w1 w2 m → (∀ a, agrees w1 w2 (k a)) → agrees w1 w2 (bind m k).
Proof.
  intros Hm Hk n s. unfold bind. rewrite Hm.
  destruct (m w2 n s) as [[[a|e] n1] s1]; [apply Hk|done].
Qed.

Lemma agrees_try {A} (m : M St A) (h : exn → M St A) :
  agrees w1 w2 m → (∀ e, agrees w1 w2 (h e)) → agrees w1 w2 (try_except m h).
Proof.
  intros Hm Hh n s. unfold try_except. rewrite Hm.
  destruct (m w2 n s) as [[[a|e] n1] s1]; [done|apply Hh].
Qed.

End Agrees.

Ltac agrees_step :=
  first
    [ apply agrees_ret
    | apply agrees_raise
    | apply agrees_time; assumption
    | apply agrees_get_state
    | apply agrees_modify
    | apply agrees_bind; [|intros ?]
    | apply agrees_try; [|intros ?]
    | match goal with
      | |- agrees _ _ (match ?x with _ => _ end) => destruct x
      | |- agrees _ _ (if ?b then _ else _) => destruct b
      | |- agrees _ _ (let _ := _ in _) => cbv zeta
      end ].

Section Keyless.
Context {C : Type} `{CacheManager C}.
Variable self : Engine.
Hypothesis no_exchange_key : key_present (exchange_api_key self) = false.
Hypothesis no_cmc_key : key_present (cmc_api_key self) = false.
Hypothesis clock_only : cache_reads_clock_only C.
Variables w1 w2 : World.
Hypothesis clocks : same_clock w1 w2.

Lemma agrees_cache_get key : agrees w1 w2 (cache_get key).
Proof.
  intros n s. unfold cache_get, zoom.
  by rewrite (proj1 (clock_only w1 w2 clocks) key).
Qed.

Lemma agrees_cache_set key v ttl : agrees w1 w2 (cache_set key v ttl).
Proof.
  intros n s. unfold cache_set, zoom.
  by rewrite (proj2 (clock_only w1 w2 clocks) key).
Qed.

Lemma agrees_modify_stats f : agrees w1 w2 (modify_stats (C := C) f).
Proof. apply agrees_modify. Qed.

Lemma agrees_elapsed start : agrees w1 w2 (elapsed_ms (C := C) start).
Proof. unfold elapsed_ms. repeat agrees_step. Qed.

Lemma agrees_getitem d : agrees w1 w2 (getitem_rate (St := EngineState C) d).
Proof. unfold getitem_rate. repeat agrees_step. Qed.

Lemma agrees_fetch_rate_data sym :
  agrees w1 w2 (_fetch_rate_data (C := C) self sym).
Proof.
  unfold _fetch_rate_data, unpack_pair, _fetch_exchangerates_api,
    _fetch_coinmarketcap_api.
  rewrite no_exchange_key, no_cmc_key. cbn [negb].
  repeat first [ apply agrees_modify_stats | agrees_step ].
Qed.

Lemma agrees_get_conversion_rate base quote :
  agrees w1 w2 (_get_conversion_rate self base quote).
Proof.
  unfold _get_conversion_rate.
  repeat first
    [ apply agrees_cache_get | apply agrees_cache_set | apply agrees_getitem
    | apply agrees_fetch_rate_data | agrees_step ].
Qed.

Lemma agrees_direct base quote amount0 start :
  agrees w1 w2 (_try_direct_conversion self base quote amount0 start).
Proof.
  unfold _try_direct_conversion.
  repeat first
    [ apply agrees_cache_get | apply agrees_cache_set | apply agrees_getitem
    | apply agrees_modify_stats | apply agrees_elapsed
    | apply agrees_fetch_rate_data | agrees_step ].
Qed.

Lemma agrees_single_pivot_loop base quote amount0 start ps :
  agrees w1 w2 (single_pivot_loop self base quote amount0 start ps).
Proof.
  induction ps as [|pivot ps IH]; simpl; [apply agrees_ret|].
  unfold single_pivot_attempt, ConversionMethod_of_value.
  repeat first
    [ apply agrees_elapsed | apply agrees_get_conversion_rate
    | apply IH | agrees_step ].
Qed.

Lemma agrees_double_pivot_loop base quote amount0 start combos :
  agrees w1 w2 (double_pivot_loop self base quote amount0 start combos).
Proof.
  induction combos as [|[p1 p2] combos IH]; simpl; [apply agrees_ret|].
  unfold double_pivot_attempt.
  repeat first
    [ apply agrees_elapsed | apply agrees_get_conversion_rate
    | apply IH | agrees_step ].
Qed.

Lemma agrees_fallback base quote amount0 start :
  agrees w1 w2 (_fallback_conversion self base quote amount0 start).
Proof.
  unfold _fallback_conversion, _generate_estimated_rate, checked_div.
  repeat first
    [ apply agrees_cache_get | apply agrees_cache_set | apply agrees_getitem
    | apply agrees_elapsed | agrees_step ].
Qed.

Lemma agrees_convert base quote amount0 :
  agrees w1 w2 (convert self base quote amount0).
Proof.
  unfold convert, _try_single_pivot_conversion, _try_double_pivot_conversion,
    update_statistics, checked_div_int.
  repeat first
    [ apply agrees_modify_stats | apply agrees_elapsed | apply agrees_direct
    | apply agrees_single_pivot_loop | apply agrees_double_pivot_loop
    | apply agrees_fallback | agrees_step ].
Qed.

(** X19. An engine without API keys never consults a provider.  With
    both keys unset and a cache manager that reads nothing but the clock,
    [convert], [health_check] and the [/api/convert] endpoint run the
    same way, to the same result and the same state, in any two worlds
    whose clocks agree, whatever the providers of either world would
    have answered. *)
Theorem keyless_engine_ignores_providers (base quote : string)
    (amount0 : float) (n : nat) (s : EngineState C) :
  convert self base quote amount0 w1 n s
    = convert self base quote amount0 w2 n s ∧
  health_check self w1 n s = health_check self w2 n s ∧
  convert_currency self base quote amount0 w1 n s
    = convert_currency self base quote amount0 w2 n s.
Proof.
  split; [apply agrees_convert|]. split.
  - revert n s. change (agrees w1 w2 (health_check self)).
    unfold health_check, check_cache_manager, test_pairs. simpl.
    unfold test_conversion.
    repeat first
      [ apply agrees_cache_get | apply agrees_cache_set
      | apply agrees_convert | agrees_step ].
  - revert n s.
    change (agrees w1 w2 (convert_currency self base quote amount0)).
    unfold convert_currency.
    repeat first [ apply agrees_convert | agrees_step ].
Qed.

End Keyless.

Lemma fast_cache_reads_clock_only (CACHE_TTL : Z) :
  cache_reads_clock_only (H := FastCacheManager_instance CACHE_TTL) FastCache.
Proof.
  intros w1 w2 clocks. split.
  - intros key. cbn. unfold FastCacheManager.get.
    repeat first [ apply agrees_time; assumption | agrees_step ].
  - intros key v ttl. cbn.
    unfold FastCacheManager.set, FastCacheManager._cleanup_expired.
    repeat first [ apply agrees_time; assumption | agrees_step ].
Qed.

Lemma keyless_engine_ignores_providers_witness :
  convert (H := FastCacheManager_instance 300) keyless_engine "BTC" "USD"
    1%float offline_world 0%nat production_state
  = convert (H := FastCacheManager_instance 300) keyless_engine "BTC" "USD"
      1%float btc_usd_world 0%nat production_state ∧
  health_check (H := FastCacheManager_instance 300) keyless_engine
    offline_world 0%nat production_state
  = health_check (H := FastCacheManager_instance 300) keyless_engine
      btc_usd_world 0%nat production_state ∧
  convert_currency (H := FastCacheManager_instance 300) keyless_engine
    "BTC" "USD" 1%float offline_world 0%nat production_state
  = convert_currency (H := FastCacheManager_instance 300) keyless_engine
      "BTC" "USD" 1%float btc_usd_world 0%nat production_state.
Proof.
  apply (keyless_engine_ignores_providers
           (H := FastCacheManager_instance 300) keyless_engine).
  - reflexivity.
  - reflexivity.
  - apply fast_cache_reads_clock_only.
  - intros n. reflexivity.
Defined.

(** ** Symbols are read in upper case *)

Section UpperCase.
Context {C : Type} `{CacheManager C}.
Variable self : Engine.

(** X20. [convert] and the [/api/convert] endpoint read their symbols in
    upper case only: two requests whose symbols differ in the case of
    their letters run the same way, to the same result, state and
    interactions.  In particular the endpoint's own upper-casing before
    the call changes nothing. *)
Theorem conversions_ignore_case (base base' quote quote' : string)
    (amount0 : float) (w : World) (n : nat) (s : EngineState C) :
  Py.upper base = Py.upper base' →
  Py.upper quote = Py.upper quote' →
  convert self base quote amount0 w n s
    = convert self base' quote' amount0 w n s ∧
  convert self base quote amount0 w n s
    = convert self (Py.upper base) (Py.upper quote) amount0 w n s ∧
  convert_currency self base quote amount0 w n s
    = convert_currency self base' quote' amount0 w n s.
Proof.
  intros Hb Hq. split; [|split].
  - unfold convert. by rewrite Hb, Hq.
  - unfold convert. by rewrite !upper_idempotent.
  - unfold convert_currency. by rewrite Hb, Hq.
Qed.

End UpperCase.

Lemma conversions_ignore_case_witness :
  convert (H := FastCacheManager_instance 300) production_engine
    "btc" "Usd" 1%float btc_usd_world 0%nat production_state
  = convert (H := FastCacheManager_instance 300) production_engine
      "BTC" "USD" 1%float btc_usd_world 0%nat production_state ∧
  convert (H := FastCacheManager_instance 300) production_engine
    "btc" "Usd" 1%float btc_usd_world 0%nat production_state
  = convert (H := FastCacheManager_instance 300) production_engine
      (Py.upper "btc") (Py.upper "Usd") 1%float btc_usd_world 0%nat
      production_state ∧
  convert_currency (H := FastCacheManager_instance 300) production_engine
    "btc" "Usd" 1%float btc_usd_world 0%nat production_state
  = convert_currency (H := FastCacheManager_instance 300) production_engine
      "BTC" "USD" 1%float btc_usd_world 0%nat production_state.
Proof.
  apply (conversions_ignore_case (H := FastCacheManager_instance 300)
           production_engine "btc" "BTC" "Usd" "USD" 1%float btc_usd_world
           0%nat production_state).
  - vm_compute. reflexivity.
  - vm_compute. reflexivity.
Defined.

(** ** Results of the direct strategy *)

Section DirectOutcomes.
Context {C : Type} `{CacheManager C}.
Variable self : Engine.

(** X21. The direct strategy never raises and ends in one of three
    ways.  A rate found in the cache under [direct:BASE:QUOTE] is
    returned as it is, marked cached, counted as a cache hit, and no
    provider is asked.  Otherwise a non-zero rate delivered by
    [_fetch_rate_data] for [BASE/QUOTE] is returned, not marked cached.
    Otherwise the result carries no rate, no amount, confidence 0 and
    the error "Direct conversion failed".  In every case the method is
    "direct" and there are no bridge rates. *)
Theorem direct_outcomes (base quote : string) (amount0 start : float)
    (w : World) (n : nat) (s : EngineState C) :
  ∃ r n' s',
    _try_direct_conversion self base quote amount0 start w n s
      = (Ok r, n', s') ∧
    method r = DIRECT ∧ pair r = pair_name base quote ∧
    bridge_rates r = None ∧
    ((∃ x n1 c1,
        cm_get (direct_key base quote) w n (cache_manager s)
          = (Ok (Some (RateDict x)), n1, c1) ∧
        rate r = Some x ∧ amount r = Some (amount0 * x)%float ∧
        confidence r = 1.0%float ∧ cached r = true ∧ error r = None ∧
        n' = S n1 ∧
        s' = {| cache_manager := c1;
                stats := upd_cache_hits (λ k, k + 1) (stats s) |}) ∨
     (∃ d n1 c1 n2 s2,
        cm_get (direct_key base quote) w n (cache_manager s)
          = (Ok None, n1, c1) ∧
        _fetch_rate_data self (pair_name base quote) w n1
          {| cache_manager := c1; stats := stats s |}
          = (Ok (Some d), n2, s2) ∧
        Py.truthy (close d) = true ∧
        rate r = Some (close d) ∧
        amount r = Some (amount0 * close d)%float ∧
        confidence r = 1.0%float ∧ cached r = false ∧ error r = None) ∨
     (rate r = None ∧ amount r = None ∧ confidence r = 0.0%float ∧
      cached r = false ∧ error r = Some "Direct conversion failed")).
Proof.
  unfold _try_direct_conversion, try_except. cbv zeta.
  unfold bind at 1. unfold bind at 1. unfold cache_get at 1, zoom.
  destruct (cm_get (direct_key base quote) w n (cache_manager s))
    as [[[[[x|]|]|e] n1] c1].
  - unfold_monad. eexists _, _, _. split; [reflexivity|]. cbn.
    do 3 (split; [done|]). left. by exists x, n1, c1.
  - unfold_monad. eexists _, _, _. split; [reflexivity|]. cbn.
    do 3 (split; [done|]). right; right. done.
  - unfold bind at 1.
    destruct (_fetch_rate_data self (pair_name base quote) w n1
                {| cache_manager := c1; stats := stats s |})
      as [[[[d|]|e] n2] s2] eqn:Hfetch.
    + destruct (Py.truthy (close d)) eqn:Htruthy.
      * unfold bind at 1.
        destruct (cache_set (direct_key base quote) (RateDict (close d)) 60
                    w n2 s2) as [[[[]|e] n3] s3].
        -- unfold_monad. eexists _, _, _. split; [reflexivity|]. cbn.
           do 3 (split; [done|]). right; left.
           by exists d, n1, c1, n2, s2.
        -- unfold_monad. eexists _, _, _. split; [reflexivity|]. cbn.
           do 3 (split; [done|]). right; right. done.
      * unfold_monad. eexists _, _, _. split; [reflexivity|]. cbn.
        do 3 (split; [done|]). right; right. done.
    + unfold_monad. eexists _, _, _. split; [reflexivity|]. cbn.
      do 3 (split; [done|]). right; right. done.
    + unfold_monad. eexists _, _, _. split; [reflexivity|]. cbn.
      do 3 (split; [done|]). right; right. done.
  - unfold_monad. eexists _, _, _. split; [reflexivity|]. cbn.
    do 3 (split; [done|]). right; right. done.
Qed.

End DirectOutcomes.

(** ** Error tracking *)

Section TrackError.
Context {C : Type}.

Lemma mentions_cons k ks s :
  mentions (k :: ks) s ↔ py_contains k (py_lower s) = true ∨ mentions ks s.
Proof.
  unfold mentions. rewrite py_contains_spec. split.
  - intros (k' & [->|Hin]%elem_of_cons & Hocc); [by left|right; eauto].
  - intros [Hocc|(k' & Hin & Hocc)].
    + exists k. split; [left|done].
    + exists k'. split; [by right|done].
Qed.

Lemma mentions_nil s : ¬ mentions [] s.
Proof. intros (k & Hin & _). by apply elem_of_nil in Hin. Qed.

(** X22. [_track_error] files every error under exactly one category: it
    adds one to one of the four error counters and changes nothing else.
    The category is decided on the lower-cased text, in this order: a
    text that mentions "rate limit" or "quota" is a rate-limit error
    even when it also mentions a network or a validation keyword; else
    one that mentions "network", "timeout" or "connection" is a network
    error; else one that mentions "invalid" or "missing" is a validation
    error; every other error is an API error. *)
Theorem track_error_files_once (error_str : string) (w : World) (n : nat)
    (s : EngineState C) :
  ∃ s',
    _track_error error_str w n s = (Ok tt, n, s') ∧
    cache_manager s' = cache_manager s ∧
    upd_error_types (λ _, error_types (stats s)) (stats s') = stats s ∧
    errors_total (stats s') = errors_total (stats s) + 1 ∧
    let before := error_types (stats s) in
    let after := error_types (stats s') in
    let rate_limit := mentions ["rate limit"; "quota"] error_str in
    let network := mentions ["network"; "timeout"; "connection"] error_str in
    let validation := mentions ["invalid"; "missing"] error_str in
    (rate_limit_errors after = rate_limit_errors before + 1 ↔ rate_limit) ∧
    (network_errors after = network_errors before + 1 ↔
     ¬ rate_limit ∧ network) ∧
    (validation_errors after = validation_errors before + 1 ↔
     ¬ rate_limit ∧ ¬ network ∧ validation) ∧
    (api_errors after = api_errors before + 1 ↔
     ¬ rate_limit ∧ ¬ network ∧ ¬ validation).
Proof.
  eexists. split; [reflexivity|]. cbn [cache_manager stats].
  split; [done|]. split; [by destruct s as [c []]|].
  cbv zeta. rewrite !mentions_cons.
  pose proof (mentions_nil error_str) as Hnil.
  unfold errors_total, incr_error_type, error_category.
  destruct (py_contains "rate limit" (py_lower error_str)),
    (py_contains "quota" (py_lower error_str)),
    (py_contains "network" (py_lower error_str)),
    (py_contains "timeout" (py_lower error_str)),
    (py_contains "connection" (py_lower error_str)),
    (py_contains "invalid" (py_lower error_str)),
    (py_contains "missing" (py_lower error_str));
    cbn; (split; [lia|]); repeat split; intros; try lia; try done;
    intuition (try discriminate; try lia).
Qed.

End TrackError.
